(** * aiida-aenet: input-file generation and output parsing

    A shallow embedding of the text-producing and text-consuming code of
    the plugin:

    - [calculations/generate.py]: [write_xsfs], [write_input], [behler],
      [chebyshev];
    - [data/algorithm.py]: [set_parameters];
    - [parsers/predict.py] and [parsers/train.py]: [parse_output].

    Python exceptions are values of [exn]; a computation that may raise
    returns a [result].  Methods that read or assign attributes of [self],
    or that update a dictionary they were handed by reference, are state
    transformers over the objects they touch. *)

From Stdlib Require Import ZArith Lia List Ascii.
From Stdlib Require String.
From stdpp Require Import base option list gmap strings.

Local Open Scope Z_scope.
Local Open Scope nat_scope.

(* ===================================================================== *)
(** * Python values, exceptions and string built-ins                      *)
(* ===================================================================== *)

Module Py.

(** The exceptions the modelled code can raise.  The last two are error
    kinds named by the specification; no function below raises them. *)
Inductive exn : Type :=
| UnboundLocalError
| ValueError
| IndexError
| KeyError
| AttributeError
| TypeError
| MalformedOutputError
| ResultCountMismatchError.

Inductive result (A : Type) : Type :=
| Ok (a : A)
| Raise (e : exn).
Global Arguments Ok {A} a.
Global Arguments Raise {A} e.

Global Instance result_ret : MRet result := λ A a, Ok a.
Global Instance result_bind : MBind result := λ A B f m,
  match m with
  | Ok a => f a
  | Raise e => Raise e
  end.

(** [for x in xs: acc = body(acc, x)], stopping at the first exception. *)
Fixpoint for_each {A S} (body : S → A → result S) (xs : list A) (s : S)
  : result S :=
  match xs with
  | [] => Ok s
  | x :: xs' => s' ← body s x; for_each body xs' s'
  end.

(** ** Characters and strings *)

Definition newline : string := String "010"%char "".

Definition is_digit (c : ascii) : bool :=
  match Ascii.is_nat c with Some _ => true | None => false end.

(** [sep.join(parts)] *)
Definition join (sep : string) (parts : list string) : string :=
  String.concat sep parts.

(** [c * n] for a one-character string [c]. *)
Fixpoint replicate_char (n : nat) (c : ascii) : string :=
  match n with
  | O => ""
  | S n' => String c (replicate_char n' c)
  end.

(** [sub in s] on strings. *)
Fixpoint contains (sub s : string) : bool :=
  String.prefix sub s ||
  match s with
  | "" => false
  | String _ s' => contains sub s'
  end.

(** [s.startswith(p)], returning the remainder on success. *)
Fixpoint strip_prefix (p s : string) : option string :=
  match p, s with
  | "", _ => Some s
  | String a p', String b s' =>
      if decide (a = b) then strip_prefix p' s' else None
  | String _ _, "" => None
  end.

(** [s.replace(old, new)] for a non-empty [old]: non-overlapping
    occurrences are replaced from the left. *)
Fixpoint replace_fuel (fuel : nat) (old new s : string) : string :=
  match fuel with
  | O => s
  | S fuel' =>
      match strip_prefix old s with
      | Some rest => new +:+ replace_fuel fuel' old new rest
      | None =>
          match s with
          | "" => ""
          | String c s' => String c (replace_fuel fuel' old new s')
          end
      end
  end.
Definition replace (old new s : string) : string :=
  replace_fuel (S (String.length s)) old new s.

(** [format(s, "<w>s")]: a string is left-justified in a field of width
    [w] and never truncated. *)
Definition ljust (w : nat) (s : string) : string :=
  s +:+ replicate_char (w - String.length s) " ".

(** ** Integers as decimal text *)

Definition digit_char (d : nat) : ascii := ascii_of_nat (48 + d).

Fixpoint str_nat_aux (fuel n : nat) (acc : string) : string :=
  match fuel with
  | O => acc
  | S fuel' =>
      let acc' := String (digit_char (n mod 10)) acc in
      if n / 10 =? 0 then acc' else str_nat_aux fuel' (n / 10) acc'
  end.

(** [str(n)] for a non-negative [int]. *)
Definition str_nat (n : nat) : string := str_nat_aux (S n) n "".

(** [str(z)] for an [int]. *)
Definition str_int (z : Z) : string :=
  if (z <? 0)%Z then String "-" (str_nat (Z.abs_nat z))
  else str_nat (Z.to_nat z).

(** [s.zfill(width)]: zeros are inserted after a leading sign. *)
Definition zfill (width : nat) (s : string) : string :=
  if width <=? String.length s then s
  else
    let zeros := replicate_char (width - String.length s) "0" in
    match s with
    | String c s' =>
        if decide (c = "+"%char ∨ c = "-"%char)
        then String c (zeros +:+ s')
        else zeros +:+ s
    | "" => zeros
    end.

(** ** Text as integers

    Whitespace is the ASCII whitespace: the outputs parsed are ASCII. *)

(** [s.lstrip()] *)
Fixpoint lstrip (s : string) : string :=
  match s with
  | "" => ""
  | String c s' => if Ascii.is_space c then lstrip s' else s
  end.

(** [s.strip()] *)
Definition strip (s : string) : string :=
  String.rev (lstrip (String.rev (lstrip s))).

(** Decimal digits, single underscores allowed between two digits. *)
Fixpoint digits_value (after_digit : bool) (acc : Z) (s : string)
  : option Z :=
  match s with
  | "" => if after_digit then Some acc else None
  | String c s' =>
      match Ascii.is_nat c with
      | Some d => digits_value true (10 * acc + Z.of_nat d)%Z s'
      | None =>
          if bool_decide (c = "_"%char) && after_digit
          then digits_value false acc s'
          else None
      end
  end.

(** [int(s)] *)
Definition py_int (s : string) : result Z :=
  let body := strip s in
  let '(negative, digits) :=
    match body with
    | String "-" d => (true, d)
    | String "+" d => (false, d)
    | _ => (false, body)
    end in
  match digits_value false 0%Z digits with
  | Some v => Ok (if negative : bool then (- v)%Z else v)
  | None => Raise ValueError
  end.

(** ** Values

    A [float] is represented by its [repr], the shortest decimal text
    that reads back as the same float: formatting is all the modelled
    code does with the floats it is given. *)
#[warnings="-register-all"]
Inductive pyval : Type :=
| PyNone
| PyBool (b : bool)
| PyInt (z : Z)
| PyFloat (repr : string)
| PyStr (s : string)
| PyTuple (items : list pyval).

(** Truth value, as tested by [if x:]. *)
Definition truthy (v : pyval) : bool :=
  match v with
  | PyNone => false
  | PyBool b => b
  | PyInt z => negb (z =? 0)%Z
  | PyFloat r => negb (bool_decide (r = "0.0" ∨ r = "-0.0"))
  | PyStr s => negb (bool_decide (s = ""))
  | PyTuple items => negb (bool_decide (items = []))
  end.

(** [repr] of a string made of printable characters: single quotes
    unless the text holds a single quote and no double quote; the
    delimiter and the backslash are escaped. *)
Fixpoint escape (q : ascii) (s : string) : string :=
  match s with
  | "" => ""
  | String c s' =>
      if decide (c = q ∨ c = "\"%char)
      then String "\" (String c (escape q s'))
      else String c (escape q s')
  end.
Definition repr_str (s : string) : string :=
  let q := if contains "'" s && negb (contains (String "034" "") s)
           then "034"%char else "'"%char in
  String q (escape q s +:+ String q "").

Fixpoint pyrepr (v : pyval) : string :=
  match v with
  | PyNone => "None"
  | PyBool true => "True"
  | PyBool false => "False"
  | PyInt z => str_int z
  | PyFloat r => r
  | PyStr s => repr_str s
  | PyTuple [x] => "(" +:+ pyrepr x +:+ ",)"
  | PyTuple items => "(" +:+ join ", " (map pyrepr items) +:+ ")"
  end.

(** [str(v)], which is also what [format(v, "")] and the replacement
    fields [{}] of [str.format] and of f-strings produce. *)
Definition pystr (v : pyval) : string :=
  match v with
  | PyStr s => s
  | _ => pyrepr v
  end.

(** ** Dictionaries as shared objects

    A [dict] handed to a method is handed by reference.  The store maps
    the identity of each dictionary object to its current contents, so a
    caller that keeps the identity observes every update made through
    it.  An identity not yet in the store denotes an empty dictionary. *)
Definition loc : Type := positive.
Abbreviation dict := (gmap string pyval).
Abbreviation heap := (gmap loc (gmap string pyval)).

Definition deref (h : heap) (l : loc) : dict := h !!! l.

(** [d.setdefault(k, v)]: the value under [k], after storing [v] there
    when [k] was absent. *)
Definition setdefault (l : loc) (k : string) (v : pyval) (h : heap)
  : pyval * heap :=
  match deref h l !! k with
  | Some x => (x, h)
  | None => (v, <[l := <[k := v]> (deref h l)]> h)
  end.

(** [d[k]] *)
Definition getitem (d : dict) (k : string) : result pyval :=
  match d !! k with
  | Some x => Ok x
  | None => Raise KeyError
  end.

End Py.
Import Py.

(* ===================================================================== *)
(** * calculations/generate.py                                            *)
(* ===================================================================== *)

Module Generate.

(** ** The calculation object

    [write_xsfs] assigns [self.xsf_file_list] and writes into the working
    folder; [write_input] reads the attribute back.  [folder] records
    each [folder.open(name, "w")] followed by [write(text)], oldest
    first. *)
Record calc : Type := {
  xsf_file_list : option (list string);
  folder : list (string * string);
}.

(** A method of the calculation: it may raise, and what it did to
    [self] before raising stays done. *)
Definition method (A : Type) : Type := calc → result A * calc.

Global Instance method_ret : MRet method := λ A a c, (Ok a, c).
Global Instance method_bind : MBind method := λ A B k m c,
  match m c with
  | (Ok a, c') => k a c'
  | (Raise e, c') => (Raise e, c')
  end.
Definition lift {A} (r : result A) : method A := λ c, (r, c).

Fixpoint for_in {A} (body : A → method unit) (xs : list A) : method unit :=
  match xs with
  | [] => mret ()
  | x :: xs' => body x ;; for_in body xs'
  end.

(** [self.xsf_file_list = v] *)
Definition set_xsf_file_list (v : list string) : method unit :=
  λ c, (Ok (), {| xsf_file_list := Some v; folder := folder c |}).

(** [self.xsf_file_list], an [AttributeError] before the first
    assignment. *)
Definition get_xsf_file_list : method (list string) :=
  λ c, match xsf_file_list c with
       | Some l => (Ok l, c)
       | None => (Raise AttributeError, c)
       end.

(** [self.xsf_file_list.append(x)] *)
Definition append_xsf_file (x : string) : method unit :=
  l ← get_xsf_file_list; set_xsf_file_list (l ++ [x]).

(** [with folder.open(name, "w") as f: f.write(text)] *)
Definition folder_write (name text : string) : method unit :=
  λ c, (Ok (), {| xsf_file_list := xsf_file_list c;
                  folder := folder c ++ [(name, text)] |}).

(** [enumerate(xs)] *)
Definition enumerate {A} (xs : list A) : list (nat * A) :=
  zip (seq 0 (length xs)) xs.

(** ** [write_xsfs] *)

(** Lines 109-110: the name of the file of the structure at position
    [i] (counted from 0) of a reference list of [n] entries. *)
Definition xsf_file_name (n i : nat) : string :=
  let padding := String.length (str_nat n) in
  zfill padding (str_nat (i + 1)) +:+ ".xsf".

Section WriteXsfs.

(** Lines 86-107 load the calculation stored under [pk] and format its
    structure, energy and forces into the lines of the file; the node
    store and the fixed-width float formats are outside this
    development.  [xsf_lines pk] stands for those lines, or for the
    exception loading and unpacking raises. *)
Variable xsf_lines : Z → result (list string).

Definition write_xsf (n : nat) (entry : nat * Z) : method unit :=
  let '(i, pk) := entry in
  xsf ← lift (xsf_lines pk);
  let xsf_file := xsf_file_name n i in
  append_xsf_file xsf_file ;;
  folder_write xsf_file (join newline xsf).

Definition write_xsfs (reference_list : list Z) : method unit :=
  set_xsf_file_list [] ;;
  for_in (write_xsf (length reference_list)) (enumerate reference_list).

End WriteXsfs.

(** ** [write_input] *)

(** The attributes of the algorithm node that [write_input] reads.
    [elements] is a [dict] from symbol to traits, in insertion order. *)
Record algorithm : Type := {
  elements : list (string * gmap string pyval);
  timing : pyval;
  debug : pyval;
}.

(** One turn of the loop of lines 155-158, on [(energies, setups)]. *)
Definition input_element (acc : list string * list string)
    (item : string * gmap string pyval)
  : result (list string * list string) :=
  let '(energies, setups) := acc in
  let '(element, traits) := item in
  energy ← getitem traits "energy";
  Ok (energies ++ [ljust 3 element +:+ " " +:+ pystr energy +:+ "  ! eV"],
      setups ++ [ljust 3 element +:+ " " +:+ element +:+ ".stp"]).

Definition write_input (alg : algorithm) (reference_list : list Z)
  : method string :=
  acc ← lift (for_each input_element (elements alg) ([], []));
  let '(energies, setups) := acc in
  let input_lines := ["OUTPUT train.dat"; ""] in
  let input_lines :=
    if truthy (debug alg) then input_lines ++ ["DEBUG"] else input_lines in
  let input_lines :=
    if truthy (timing alg) then input_lines ++ ["TIMING"] else input_lines in
  let input_lines :=
    input_lines ++ ["TYPES"; str_nat (length (elements alg))] in
  let input_lines := input_lines ++ energies in
  let input_lines := input_lines ++ [""; "SETUPS"] in
  let input_lines := input_lines ++ setups in
  let input_lines :=
    input_lines ++ [""; "FILES"; str_nat (length reference_list)] in
  xsfs ← get_xsf_file_list;
  let input_lines := input_lines ++ xsfs in
  mret (join newline input_lines).

(** ** [behler] *)

(** A fingerprint is the list of [(key, value)] pairs the source builds. *)
Definition fingerprint : Type := list (string * pyval).

(** The entries of [self.parameters] that [behler] reads: ["cutoff"],
    the ["etas"] of ["G2"] and the ["etas"], ["lambdas"] and ["zetas"]
    of ["G4"]. *)
Record behler_parameters : Type := {
  cutoff : pyval;
  g2_etas : list pyval;
  g4_etas : list pyval;
  g4_lambdas : list pyval;
  g4_zetas : list pyval;
}.

(** [itertools.combinations_with_replacement(pool, r)]: the tuples of
    [r] items of [pool] at non-decreasing positions, in lexicographic
    order of the positions. *)
Fixpoint combinations_with_replacement {A} (pool : list A) (r : nat)
  : list (list A) :=
  match r with
  | O => [[]]
  | S r' =>
      (fix from (p : list A) : list (list A) :=
         match p with
         | [] => []
         | x :: p' =>
             map (cons x) (combinations_with_replacement p r') ++ from p'
         end) pool
  end.

(** A [set] of tuples is iterated in an order fixed by the hashes of
    its members, which for strings change from one interpreter run to
    the next: all that is known of [for x in set(xs)] is that it visits
    each distinct member of [xs] once. *)
Class SetOrder : Type := {
  set_iter : list (list string) → list (list string);
  set_iter_perm : ∀ xs, set_iter xs ≡ₚ remove_dups xs;
}.

(** The order that visits the members as they first occur. *)
Definition first_seen_order : SetOrder :=
  {| set_iter := remove_dups; set_iter_perm := λ xs, reflexivity _ |}.

(** [(t2, t3) = t] *)
Definition unpack2 (t : list string) : result (string * string) :=
  match t with
  | [t2; t3] => Ok (t2, t3)
  | _ => Raise ValueError
  end.

Definition radial_fingerprint (Rc : pyval) (symbol : string) (eta : pyval)
  : fingerprint :=
  [("G", PyInt 2); ("type2", PyStr symbol); ("eta", eta);
   ("Rs", PyFloat "0.0"); ("Rc", Rc)].

Definition angular_fingerprint (Rc : pyval) (t2 t3 : string)
    (eta _lambda zeta : pyval) : fingerprint :=
  [("G", PyInt 4); ("type2", PyStr t2); ("type3", PyStr t3); ("eta", eta);
   ("lambda", _lambda); ("zeta", zeta); ("Rc", Rc)].

(** Lines 188-200: both loops append to [radial_fingerprints]. *)
Definition radial_loop (symbols : list string) (etas : list pyval)
    (Rc : pyval) : list fingerprint :=
  fold_left
    (λ acc symbol,
       fold_left (λ acc eta, acc ++ [radial_fingerprint Rc symbol eta])
         etas acc)
    symbols [].

(** Lines 205-225.  The state of the loops is the local [fingerprint],
    unbound until the innermost loop first assigns it, and the list
    [angular_fingerprints].  The innermost loop only assigns
    [fingerprint]; the append is a statement of the loop over [g4_etas]
    and runs once the innermost loop is over. *)
Definition angular_state : Type := option fingerprint * list fingerprint.

Definition angular_pair (Rc zeta _lambda eta : pyval)
    (fp : option fingerprint) (t : list string) : result (option fingerprint) :=
  '(t2, t3) ← unpack2 t;
  Ok (Some (angular_fingerprint Rc t2 t3 eta _lambda zeta)).

Definition angular_eta (permutations : list (list string))
    (Rc zeta _lambda : pyval) (st : angular_state) (eta : pyval)
  : result angular_state :=
  let '(fp, angular_fingerprints) := st in
  fp' ← for_each (angular_pair Rc zeta _lambda eta) permutations fp;
  match fp' with
  | Some f => Ok (fp', angular_fingerprints ++ [f])
  | None => Raise UnboundLocalError
  end.

Definition angular_lambda (permutations : list (list string))
    (Rc : pyval) (etas : list pyval) (zeta : pyval)
    (st : angular_state) (_lambda : pyval) : result angular_state :=
  for_each (angular_eta permutations Rc zeta _lambda) etas st.

Definition angular_zeta (permutations : list (list string))
    (Rc : pyval) (etas lambdas : list pyval)
    (st : angular_state) (zeta : pyval) : result angular_state :=
  for_each (angular_lambda permutations Rc etas zeta) lambdas st.

Definition angular_loop (permutations : list (list string))
    (p : behler_parameters) (Rc : pyval) : result (list fingerprint) :=
  st ← for_each (angular_zeta permutations Rc (g4_etas p) (g4_lambdas p))
         (g4_zetas p) (None, []);
  Ok st.2.

(** The list [fingerprints] of line 227.  [symbols] are the [symbol]
    attributes of the elements of the algorithm.  The trailing comma of
    line 180 makes [Rc] a one-item tuple. *)
Definition behler_fingerprints `{SetOrder} (symbols : list string)
    (p : behler_parameters) : result (list fingerprint) :=
  let Rc := PyTuple [cutoff p] in
  let radial_fingerprints := radial_loop symbols (g2_etas p) Rc in
  let permutations :=
    set_iter (combinations_with_replacement symbols (length symbols)) in
  angular_fingerprints ← angular_loop permutations p Rc;
  Ok (radial_fingerprints ++ angular_fingerprints).

Definition param_line (f : fingerprint) : string :=
  join "  " (map (λ kv, kv.1 +:+ "=" +:+ pystr kv.2) f).

Definition behler `{SetOrder} (symbols : list string)
    (p : behler_parameters) : result (list string) :=
  fingerprints ← behler_fingerprints symbols p;
  let param_lines := join newline (map param_line fingerprints) in
  Ok ["SYMMFUNC type=Behler2011"; str_nat (length fingerprints);
      param_lines +:+ newline].

(** ** [chebyshev]

    [parameters] is the dictionary object that
    [self.inputs.algorithm.descriptor["parameters"]] evaluates to. *)
Definition chebyshev (parameters : loc) (h : heap)
  : result (list string) * heap :=
  let h := (setdefault parameters "radial cutoff" (PyFloat "4.0") h).2 in
  let h := (setdefault parameters "radial n" (PyInt 6) h).2 in
  let h := (setdefault parameters "angular cutoff" (PyFloat "4.0") h).2 in
  let h := (setdefault parameters "angular n" (PyInt 2) h).2 in
  let d := deref h parameters in
  (radial_cutoff ← getitem d "radial cutoff";
   radial_n ← getitem d "radial n";
   angular_cutoff ← getitem d "angular cutoff";
   angular_n ← getitem d "angular n";
   Ok ["BASIS type=Chebyshev";
       ("radial_Rc = " +:+ pystr radial_cutoff) +:+ " " +:+
       ("radial_N = " +:+ pystr radial_n) +:+ " " +:+
       ("angular_Rc = " +:+ pystr angular_cutoff) +:+ " " +:+
       ("angular_N = " +:+ pystr angular_n)], h).

(** ** [write_setups] *)

(** The method [getattr(self, descriptor['type'])] evaluates to,
    [behler] or [chebyshev]: called without arguments, it returns lines
    or raises, and may update dictionaries of the store. *)
Definition setup_method : Type := heap → result (list string) * heap.

(** Lines 126-137: the lines of the setup file of [element] that come
    before those of the descriptor.  [elements] are the keys of the
    dictionary of elements, [r_min] the attribute of that name. *)
Definition stp_head (elements : list string) (r_min : pyval)
    (element : string) : list string :=
  ["DESCR"; "Setup for " +:+ element; "END DESCR"; "";
   "ATOM " +:+ element; ""; "ENV " +:+ str_nat (length elements)]
  ++ elements
  ++ [""; "RMIN " +:+ pystr r_min +:+ "d0"; ""].

(** The loop of lines 124-142 over the elements still [todo].  The
    descriptor method is called before the file is opened. *)
Fixpoint write_setups_loop (descriptor : setup_method)
    (elements : list string) (r_min : pyval) (todo : list string)
    (c : calc) (h : heap) : result unit * calc * heap :=
  match todo with
  | [] => (Ok (), c, h)
  | element :: todo' =>
      let stp_lines := stp_head elements r_min element in
      match descriptor h with
      | (Ok lines, h') =>
          let c' :=
            (folder_write (element +:+ ".stp")
               (join newline (stp_lines ++ lines)) c).2 in
          write_setups_loop descriptor elements r_min todo' c' h'
      | (Raise e, h') => (Raise e, c, h')
      end
  end.

Definition write_setups (descriptor : setup_method) (alg : algorithm)
    (r_min : pyval) (c : calc) (h : heap) : result unit * calc * heap :=
  write_setups_loop descriptor (elements alg).*1 r_min (elements alg).*1 c h.

(** ** [prepare_for_submission]

    The value returned is the retrieve list of the [CalcInfo].  The file
    [generate.in] is opened before [write_input] is called: when the
    call raises, the file is left empty. *)
Definition prepare_for_submission (xsf_lines : Z → result (list string))
    (descriptor : setup_method) (alg : algorithm) (r_min : pyval)
    (reference_list : list Z) (c : calc) (h : heap)
  : result (list string) * calc * heap :=
  match write_xsfs xsf_lines reference_list c with
  | (Raise e, c1) => (Raise e, c1, h)
  | (Ok _, c1) =>
      match write_setups descriptor alg r_min c1 h with
      | (Raise e, c2, h2) => (Raise e, c2, h2)
      | (Ok _, c2, h2) =>
          match write_input alg reference_list c2 with
          | (Raise e, c3) =>
              (Raise e, (folder_write "generate.in" "" c3).2, h2)
          | (Ok text, c3) =>
              (Ok ["train.dat"], (folder_write "generate.in" text c3).2, h2)
          end
      end
  end.

End Generate.

(* ===================================================================== *)
(** * data/algorithm.py                                                   *)
(* ===================================================================== *)

Module Algorithm.

(** Rows of the tuple [defaults] of [set_parameters]. *)
Definition defaults : list (string * pyval) :=
  [("debug", PyBool true);
   ("timing", PyBool true);
   ("save_energies", PyBool true);
   ("predict_forces", PyBool false);
   ("predict_relax", PyBool false);
   ("test_percent", PyInt 10);
   ("epochs", PyInt 10);
   ("max_energy", PyFloat "0.0");
   ("r_min", PyFloat "0.75")].

(** The state [set_parameters] works on: the store holding the
    dictionary it was handed, and the attributes of the node under
    construction ([set_attribute] stores the value under the name). *)
Record state : Type := {
  store : heap;
  attributes : gmap string pyval;
}.

(** One turn of the loop of lines 168-171. *)
Definition set_parameter (parameter_dict : loc) (st : state)
    (row : string * pyval) : state :=
  let '(attr, default) := row in
  let '(value, h) := setdefault parameter_dict attr default (store st) in
  {| store := h; attributes := <[attr := value]> (attributes st) |}.

Definition set_parameters (parameter_dict : loc) (st : state) : state :=
  fold_left (set_parameter parameter_dict) defaults st.

(** ** [set_training] *)

(** The tuples [lm_defaults] and [gd_defaults]. *)
Definition lm_defaults : list (string * pyval) :=
  [("batchsize", PyInt 5000);
   ("learn_rate", PyFloat "0.1");
   ("rate_adjust", PyFloat "5.0");
   ("optimize_iterations", PyInt 3);
   ("converge_threshold", PyFloat "0.001")].

Definition gd_defaults : list (string * pyval) :=
  [("learn_rate", PyFloat "0.003");
   ("momentum_rate", PyFloat "0.05")].

(** The entries of [training_dict] that [set_training] reads: the value
    under ["type"], and the dictionary under ["parameters"]; [None] for
    an absent key. *)
Record training_dict : Type := {
  t_type : option pyval;
  t_parameters : option loc;
}.

(** The store, and the contents given to [set_attribute] under
    ["training_parameters"]. *)
Record training_state : Type := {
  t_store : heap;
  training_parameters : option (gmap string pyval);
}.

(** [locals()[name]] at line 145, where the local names that end in
    [_defaults] are [lm_defaults] and [gd_defaults]. *)
Definition locals_defaults (name : string)
  : result (list (string * pyval)) :=
  if decide (name = "lm_defaults") then Ok lm_defaults
  else if decide (name = "gd_defaults") then Ok gd_defaults
  else Raise KeyError.

Definition set_training (training : training_dict) (st : training_state)
  : result unit * training_state :=
  match t_type training with
  | None => (Raise KeyError, st)
  | Some type =>
      match locals_defaults (pystr type +:+ "_defaults") with
      | Raise e => (Raise e, st)
      | Ok default_tuple =>
          match t_parameters training with
          | None => (Raise KeyError, st)
          | Some parameters =>
              let h :=
                fold_left
                  (λ h '(attr, default),
                     (setdefault parameters attr default h).2)
                  default_tuple (t_store st) in
              (Ok (), {| t_store := h;
                         training_parameters := Some (deref h parameters) |})
          end
      end
  end.

(** ** [__init__]

    The argument [training] is a string, a dictionary, of which
    [__init__] itself reads the value under ["method"], or another
    object. *)
Inductive training_arg : Type :=
| TrainingStr (s : string)
| TrainingDict (method : option pyval) (d : training_dict)
| TrainingOther.

(** What [__init__] raises: the bare [Exception] of line 108, or the
    exception of a lookup. *)
Inductive init_exn : Type :=
| BareException
| Lookup (e : exn).

Inductive init_result : Type :=
| Built
| Failed (e : init_exn).

(** The node under construction: the elements and the descriptor as
    they were handed over, the store with the nine attributes of
    [set_parameters], the training method and the training
    parameters. *)
Record node (E D : Type) : Type := {
  n_elements : E;
  n_descriptor : D;
  n_parameters : state;
  n_train_method : option pyval;
  n_training_parameters : option (gmap string pyval);
}.
Global Arguments n_elements {E D} n.
Global Arguments n_descriptor {E D} n.
Global Arguments n_parameters {E D} n.
Global Arguments n_train_method {E D} n.
Global Arguments n_training_parameters {E D} n.

(** [training["method"] in self.training_methods]: equal to one of the
    strings ["lm"] and ["gd"]. *)
Definition in_training_methods (method : pyval) : bool :=
  match method with
  | PyStr s => bool_decide (s = "lm" ∨ s = "gd")
  | _ => false
  end.

(** Lines 97-108, on the store [h] that holds the dictionaries handed
    over; [parameters] is the identity of the parameter dictionary. *)
Definition init {E D} (elements : E) (descriptor : D)
    (training : training_arg) (parameters : loc) (h : heap)
  : init_result * node E D :=
  let st := set_parameters parameters {| store := h; attributes := ∅ |} in
  let base (method : option pyval) :=
    {| n_elements := elements; n_descriptor := descriptor;
       n_parameters := st; n_train_method := method;
       n_training_parameters := None |} in
  match training with
  | TrainingStr s =>
      if decide (s = "bfgs") then (Built, base (Some (PyStr s)))
      else (Failed BareException, base None)
  | TrainingDict None _ => (Failed (Lookup KeyError), base None)
  | TrainingDict (Some method) d =>
      if in_training_methods method then
        let '(r, ts) :=
          set_training d {| t_store := store st;
                            training_parameters := None |} in
        (match r with Ok _ => Built | Raise e => Failed (Lookup e) end,
         {| n_elements := elements; n_descriptor := descriptor;
            n_parameters := {| store := t_store ts;
                               attributes := attributes st |};
            n_train_method := Some method;
            n_training_parameters := training_parameters ts |})
      else (Failed BareException, base None)
  | TrainingOther => (Failed BareException, base None)
  end.

End Algorithm.

(* ===================================================================== *)
(** * calculations/train.py                                               *)
(* ===================================================================== *)

Module TrainCalc.

(** The attributes of the algorithm node that [write_input] reads.  Of
    the traits of an element it reads the list of layers under
    ["network"], [None] when the key is absent; a layer is a
    dictionary. *)
Record algorithm : Type := {
  elements : list (string * option (list (gmap string pyval)));
  test_percent : pyval;
  epochs : pyval;
  max_energy : pyval;
  save_energies : pyval;
  timing : pyval;
  debug : pyval;
  train_method : pyval;
}.

(** [f"{layer['nodes']}:{layer['activation']}"] *)
Definition layer_token (layer : gmap string pyval) : result string :=
  nodes ← getitem layer "nodes";
  activation ← getitem layer "activation";
  Ok (pystr nodes +:+ ":" +:+ pystr activation).

(** One turn of the loop of lines 117-130, on the lines appended so
    far.  The format [<7d] left-justifies the decimal text of an
    integer. *)
Definition network_line (acc : list string)
    (item : string * option (list (gmap string pyval)))
  : result (list string) :=
  let '(element, entry) := item in
  let file := element +:+ ".nn" in
  network ← match entry with Some x => Ok x | None => Raise KeyError end;
  let layers := length network in
  tokens ← for_each (λ ts layer, t ← layer_token layer; Ok (ts ++ [t]))
             network [];
  let network_str := join " " tokens in
  Ok (acc ++ [ljust 8 element +:+ " " +:+ ljust 15 file +:+ " " +:+
              ljust 7 (str_nat layers) +:+ " " +:+ network_str]).

(** [write_input]: the text of [train.in].  [method] is an item of the
    list that is joined at the end, where an item that is no [str]
    raises [TypeError]. *)
Definition write_input (alg : algorithm) : result string :=
  let input_lines :=
    ["TRAININGSET train.dat";
     "TESTPERCENT " +:+ pystr (test_percent alg);
     "ITERATIONS " +:+ pystr (epochs alg);
     "";
     "MAXENERGY " +:+ pystr (max_energy alg);
     ""] in
  let input_lines :=
    if truthy (save_energies alg) then input_lines ++ ["SAVE_ENERGIES"; ""]
    else input_lines in
  let input_lines :=
    if truthy (timing alg) then input_lines ++ ["TIMING"] else input_lines in
  let input_lines :=
    if truthy (debug alg) then input_lines ++ ["DEBUG"] else input_lines in
  let tail :=
    ["NETWORKS";
     "! atom   network         hidden";
     "! types  file-name       layers  nodes:activation"] in
  tail ← for_each network_line (elements alg) tail;
  match train_method alg with
  | PyStr method =>
      Ok (join newline (input_lines ++ [""; "METHOD"; method; ""] ++ tail))
  | _ => Raise TypeError
  end.

End TrainCalc.

(* ===================================================================== *)
(** * calculations/predict.py                                             *)
(* ===================================================================== *)

Module PredictCalc.

(** The attributes of the algorithm node that [write_input] reads;
    [elements] are the keys of the dictionary of elements. *)
Record algorithm : Type := {
  elements : list string;
  predict_forces : pyval;
  predict_relax : pyval;
  timing : pyval;
}.

(** [sep.join(items)]: [TypeError] when an item is no [str]. *)
Fixpoint strings (items : list pyval) : result (list string) :=
  match items with
  | [] => Ok []
  | PyStr s :: items' => rest ← strings items'; Ok (s :: rest)
  | _ :: _ => Raise TypeError
  end.

Definition py_join (sep : string) (items : list pyval) : result string :=
  parts ← strings items; Ok (join sep parts).

(** [write_input]: the text of [predict.in].  [write_xsfs] is that of
    the generate calculation, line for line, and leaves the file names
    in [self.xsf_file_list]. *)
Definition write_input (alg : algorithm) (reference_list : list Z)
  : Generate.method string :=
  λ c,
    let input_lines :=
      [PyStr "TYPES"; PyStr (str_nat (length (elements alg)))] in
    let input_lines := input_lines ++ map PyStr (elements alg) in
    let input_lines := input_lines ++ [PyStr ""; PyStr "NETWORKS"] in
    let input_lines :=
      input_lines
      ++ map (λ X, PyStr (ljust 3 X +:+ "  " +:+ X +:+ ".nn")) (elements alg) in
    let input_lines := input_lines ++ [PyStr ""] in
    let input_lines :=
      if truthy (predict_forces alg) then input_lines ++ [PyStr "FORCES"]
      else input_lines in
    let input_lines :=
      if truthy (predict_relax alg)
      then input_lines ++ [PyStr "RELAX"; predict_relax alg]
      else input_lines in
    let input_lines :=
      if truthy (timing alg) then input_lines ++ [PyStr "TIMING"]
      else input_lines in
    let input_lines :=
      input_lines
      ++ [PyStr ""; PyStr "FILES"; PyStr (str_nat (length reference_list))] in
    match Generate.xsf_file_list c with
    | None => (Raise AttributeError, c)
    | Some xsfs => (py_join newline (input_lines ++ map PyStr xsfs), c)
    end.

(** ** [write_potentials] and [prepare_for_submission]

    [potential_files] are the external files of the potential, each
    with its content.  The value returned is the retrieve list of the
    [CalcInfo].  The file [predict.in] is opened before [write_input]
    is called: when the call raises, the file is left empty. *)
Definition write_potentials (potential_files : list (string * string))
  : Generate.method unit :=
  Generate.for_in (λ '(file, binary), Generate.folder_write file binary)
    potential_files.

Definition prepare_for_submission (xsf_lines : Z → result (list string))
    (alg : algorithm) (potential_files : list (string * string))
    (reference_list : list Z) : Generate.method (list string) :=
  λ c,
    match Generate.write_xsfs xsf_lines reference_list c with
    | (Raise e, c1) => (Raise e, c1)
    | (Ok _, c1) =>
        match write_potentials potential_files c1 with
        | (Raise e, c2) => (Raise e, c2)
        | (Ok _, c2) =>
            match write_input alg reference_list c2 with
            | (Raise e, c3) =>
                (Raise e, (Generate.folder_write "predict.in" "" c3).2)
            | (Ok text, c3) =>
                (Ok ["predict.out"],
                 (Generate.folder_write "predict.in" text c3).2)
            end
        end
    end.

End PredictCalc.

(* ===================================================================== *)
(** * data/potentials                                                     *)
(* ===================================================================== *)

Module Potential.

(** [ANN.get_input_potential_lines] of [lammps.py]: the template of the
    pair style and pair coefficient lines. *)
Definition get_input_potential_lines : string :=
  "pair_style      aenet" +:+ newline +:+
  "pair_coeff      * * v-1 __kinds__ nn __kinds__" +:+ newline.

(** [AenetPotential.get_input_lines], on the [content] of the file of
    potential lines; [kind_symbols] is [None] by default, and an empty
    list is as good as none. *)
Definition get_input_lines (content : string)
    (kind_symbols : option (list string)) : string :=
  match kind_symbols with
  | Some (k :: ks) => replace "__kinds__" (join " " (k :: ks)) content
  | _ => content
  end.

End Potential.

(* ===================================================================== *)
(** * Floats and NumPy arrays read from program output                    *)
(* ===================================================================== *)

Module Numpy.

(** The parsers turn text into floating-point numbers and back.  The
    conversions are those of the interpreter and of NumPy; the parsers
    are modelled over any implementation of them. *)
Class Floats : Type := {
  float : Type;
  (** [float(s)], [None] when it raises [ValueError] *)
  float_of_str : string → option float;
  (** the converter [np.loadtxt] applies to a column of format ['i'],
      [None] when it raises [ValueError] *)
  int_of_column : string → option Z;
  (** [np.isnan] on one float *)
  isnan : float → bool;
  (** the text of a float cast to a string dtype *)
  float_str : float → string;
}.

(** An implementation that keeps a float as the literal it was read
    from: the not-a-number literals are [nan] in any letter case, with
    or without a sign. *)
Definition lower (c : ascii) : ascii :=
  let k := nat_of_ascii c in
  if (65 <=? k) && (k <=? 90) then ascii_of_nat (k + 32) else c.

Fixpoint lowercase (s : string) : string :=
  match s with
  | "" => ""
  | String c s' => String (lower c) (lowercase s')
  end.

Definition literal_isnan (s : string) : bool :=
  bool_decide (lowercase s ∈ ["nan"; "+nan"; "-nan"]).

Definition literal_int (s : string) : option Z :=
  match py_int s with
  | Ok z => Some z
  | Raise _ => None
  end.

Definition literal_floats : Floats := {|
  float := string;
  float_of_str := Some;
  int_of_column := literal_int;
  isnan := literal_isnan;
  float_str := id;
|}.

(** The float read from the literal [s]. *)
Definition literal (s : string) : @float literal_floats := s.

Definition convert {A} (o : option A) : result A :=
  match o with
  | Some a => Ok a
  | None => Raise ValueError
  end.

Section Arrays.
Context `{Floats}.

(** One entry of an array or of a list made from it. *)
Inductive scalar : Type :=
| NpInt (z : Z)
| NpFloat (x : float)
| NpStr (s : string).

(** A 0-d array holds one entry and has no axis to index or iterate;
    a 1-d array holds a sequence. *)
Inductive ndarray : Type :=
| Array0 (x : scalar)
| Array1 (xs : list scalar).

(** [a[:n]] for [n >= 0] *)
Definition take (n : nat) (a : ndarray) : result ndarray :=
  match a with
  | Array0 _ => Raise IndexError
  | Array1 xs => Ok (Array1 (firstn n xs))
  end.

Definition scalar_isnan (x : scalar) : bool :=
  match x with
  | NpFloat f => isnan f
  | _ => false
  end.

(** The text of an entry cast to a string dtype. *)
Definition scalar_str (x : scalar) : string :=
  match x with
  | NpInt z => str_int z
  | NpFloat f => float_str f
  | NpStr s => s
  end.

(** [np.where(np.isnan(a), s, a)] for a [str] [s] and a numeric [a]:
    the common dtype of a string and a number is a string dtype, so
    every entry of the result is text, [s] where the entry of [a] is
    not-a-number and the entry cast to text elsewhere. *)
Definition where_isnan_entry (s : string) (x : scalar) : scalar :=
  if scalar_isnan x then NpStr s else NpStr (scalar_str x).

Definition where_isnan (s : string) (a : ndarray) : ndarray :=
  match a with
  | Array0 x => Array0 (where_isnan_entry s x)
  | Array1 xs => Array1 (map (where_isnan_entry s) xs)
  end.

(** [list(a)] *)
Definition to_list (a : ndarray) : result (list scalar) :=
  match a with
  | Array0 _ => Raise TypeError
  | Array1 xs => Ok xs
  end.

(** ** [np.loadtxt] with the six-field dtype of the training parser *)

Record row : Type := {
  r_epoch : Z;
  r_train_mae : float;
  r_train_rmse : float;
  r_test_mae : float;
  r_test_rmse : float;
}.

(** Text up to the first [#]. *)
Fixpoint strip_comment (s : string) : string :=
  match s with
  | "" => ""
  | String c s' =>
      if decide (c = "#"%char) then "" else String c (strip_comment s')
  end.

(** The lines of a text: the pieces between line feeds. *)
Fixpoint split_lines_go (cur : string) (s : string) : list string :=
  match s with
  | "" => [String.rev cur]
  | String c s' =>
      if decide (c = "010"%char)
      then String.rev cur :: split_lines_go "" s'
      else split_lines_go (String c cur) s'
  end.
Definition split_lines (s : string) : list string := split_lines_go "" s.

(** A line without fields is skipped; any other must hold the six
    columns of the dtype.  The sixth, of format ['S1'], takes any
    text. *)
Definition load_row (line : string) : result (option row) :=
  match String.words (strip_comment line) with
  | [] => Ok None
  | [c0; c1; c2; c3; c4; _] =>
      epoch ← convert (int_of_column c0);
      train_mae ← convert (float_of_str c1);
      train_rmse ← convert (float_of_str c2);
      test_mae ← convert (float_of_str c3);
      test_rmse ← convert (float_of_str c4);
      Ok (Some {| r_epoch := epoch; r_train_mae := train_mae;
                  r_train_rmse := train_rmse; r_test_mae := test_mae;
                  r_test_rmse := test_rmse |})
  | _ => Raise ValueError
  end.

Definition load_rows (text : string) : result (list row) :=
  for_each
    (λ rows line, r ← load_row line;
                  Ok (match r with Some x => rows ++ [x] | None => rows end))
    (split_lines text) [].

(** With [unpack=True] one array per field is returned.  The reader
    squeezes its result: a single row comes back as a 0-d record and
    its fields as 0-d arrays. *)
Definition field (f : row → scalar) (rows : list row) : ndarray :=
  match rows with
  | [r] => Array0 (f r)
  | _ => Array1 (map f rows)
  end.

Definition loadtxt (text : string)
  : result (ndarray * ndarray * ndarray * ndarray * ndarray) :=
  rows ← load_rows text;
  Ok (field (λ r, NpInt (r_epoch r)) rows,
      field (λ r, NpFloat (r_train_mae r)) rows,
      field (λ r, NpFloat (r_train_rmse r)) rows,
      field (λ r, NpFloat (r_test_mae r)) rows,
      field (λ r, NpFloat (r_test_rmse r)) rows).

End Arrays.

End Numpy.

(* ===================================================================== *)
(** * parsers/train.py                                                    *)
(* ===================================================================== *)

Module TrainParser.
Import Numpy.

(** The header of the table of per-epoch errors,
    [f" epoch {11 * ' '} MAE {8 * ' '} <RMSE>"]. *)
Definition header : string :=
  " epoch " +:+ replicate_char 11 " " +:+ " MAE " +:+ replicate_char 8 " "
  +:+ " <RMSE>".

Definition converge_string : string :=
  " The optimization has converged. Training stopped." +:+ newline.

(** Lines 50-53: the value of [i] once the loop is over, [None] when the
    loop body never ran and [i] is unbound.  [last] is the value [i]
    holds on entry. *)
Fixpoint header_loop (i : nat) (lines : list string) (last : option nat)
  : option nat :=
  match lines with
  | [] => last
  | line :: rest =>
      if contains header line then Some i
      else header_loop (S i) rest (Some i)
  end.

(** [l[start:stop]]: a negative index counts from the end, and both
    are clipped to the list. *)
Definition slice {A} (l : list A) (start stop : Z) : list A :=
  let len := Z.of_nat (length l) in
  let norm (k : Z) : Z :=
    if (k <? 0)%Z then Z.max 0 (k + len) else Z.min k len in
  let a := norm start in
  let b := norm stop in
  firstn (Z.to_nat (b - a)) (skipn (Z.to_nat a) l).

(** [l.index(x)] *)
Fixpoint index (x : string) (l : list string) : result nat :=
  match l with
  | [] => Raise ValueError
  | y :: l' => if decide (y = x) then Ok 0 else i ← index x l'; Ok (S i)
  end.

(** [x in l] on a list *)
Definition mem (x : string) (l : list string) : bool :=
  bool_decide (x ∈ l).

(** Lines 50-63: the lines kept as epoch records. *)
Definition select_epoch_lines (lines : list string) (n_epochs : Z)
  : result (list string) :=
  match header_loop 0 lines None with
  | None => Raise UnboundLocalError
  | Some i =>
      let i := Z.of_nat i in
      let nth_epoch_line :=
        Z.min (i + n_epochs + 2) (Z.of_nat (length lines)) in
      let epoch_lines := slice lines (i + 1) nth_epoch_line in
      if mem converge_string epoch_lines then
        string_index ← index converge_string epoch_lines;
        Ok (firstn string_index epoch_lines)
      else Ok epoch_lines
  end.

(** The dictionary [results]: its five keys, in insertion order. *)
Record results (A : Type) : Type := {
  epochs : A;
  train_mae : A;
  train_rmse : A;
  test_mae : A;
  test_rmse : A;
}.
Global Arguments epochs {A} r.
Global Arguments train_mae {A} r.
Global Arguments train_rmse {A} r.
Global Arguments test_mae {A} r.
Global Arguments test_rmse {A} r.

Section ParseOutput.
Context `{Floats}.

(** Lines 96-97, for one key. *)
Definition checked_list (array : ndarray) : result (list scalar) :=
  to_list (where_isnan "NaN" array).

(** [lines] is what [readlines] returned, [n_epochs] the [epochs]
    attribute of the algorithm. *)
Definition parse_output (lines : list string) (n_epochs : Z)
  : result (results (list scalar)) :=
  epoch_lines ← select_epoch_lines lines n_epochs;
  let file_stream := join newline epoch_lines in
  '(epochs, train_mae, train_rmse, test_mae, test_rmse) ←
    loadtxt file_stream;
  epochs ← take (length epoch_lines) epochs;
  epochs ← checked_list epochs;
  train_mae ← checked_list train_mae;
  train_rmse ← checked_list train_rmse;
  test_mae ← checked_list test_mae;
  test_rmse ← checked_list test_rmse;
  Ok {| epochs := epochs; train_mae := train_mae;
        train_rmse := train_rmse; test_mae := test_mae;
        test_rmse := test_rmse |}.

End ParseOutput.

End TrainParser.

(* ===================================================================== *)
(** * parsers/predict.py                                                  *)
(* ===================================================================== *)

Module PredictParser.
Import Numpy.

(** [f" Total energy {13 * ' '} :"] *)
Definition total_energy : string :=
  " Total energy " +:+ replicate_char 13 " " +:+ " :".

(** ** [re.findall(r'[-+]?\d*\.\d+|\d+', line)] *)

(** The longest run of digits at the head of [s], and what follows. *)
Fixpoint span_digits (s : string) : string * string :=
  match s with
  | "" => ("", "")
  | String c s' =>
      if is_digit c
      then let '(d, rest) := span_digits s' in (String c d, rest)
      else ("", s)
  end.

(** A match of [[-+]?\d*\.\d+] at the head of [s]. *)
Definition match_decimal (s : string) : option string :=
  let '(sign, s1) :=
    match s with
    | String "-" s' => ("-", s')
    | String "+" s' => ("+", s')
    | _ => ("", s)
    end in
  let '(int_part, s2) := span_digits s1 in
  match s2 with
  | String "." s3 =>
      let '(frac, _) := span_digits s3 in
      if bool_decide (frac = "") then None
      else Some (sign +:+ int_part +:+ "." +:+ frac)
  | _ => None
  end.

(** A match of [\d+] at the head of [s]. *)
Definition match_digits (s : string) : option string :=
  let '(d, _) := span_digits s in
  if bool_decide (d = "") then None else Some d.

(** The first item of the list [findall] returns: the leftmost match,
    the first alternative tried first. *)
Fixpoint first_match (s : string) : option string :=
  match match_decimal s with
  | Some m => Some m
  | None =>
      match match_digits s with
      | Some m => Some m
      | None =>
          match s with
          | "" => None
          | String _ s' => first_match s'
          end
      end
  end.

(** ** [parse_output] *)

Section ParseOutput.
Context `{Floats}.

(** The inner record [{"n": n, "E": E}]. *)
Record entry : Type := { n : Z; E : float }.

(** The loop of lines 52-68 over the lines of the file. *)
Fixpoint scan (lines : list string) (energy_evaluation : bool)
    (natoms : list Z) (energies : list float)
  : result (list Z * list float) :=
  match lines with
  | [] => Ok (natoms, energies)
  | line :: rest =>
      let energy_evaluation :=
        if negb energy_evaluation && contains "Energy evaluation" line
        then true else energy_evaluation in
      if negb energy_evaluation
      then scan rest energy_evaluation natoms energies
      else
        natoms ←
          (if contains "Number of atoms" line
           then v ← py_int (replace " Number of atoms   :" "" line);
                Ok (natoms ++ [v])
           else Ok natoms);
        energies ←
          (if contains total_energy line
           then
             match first_match line with
             | None => Raise IndexError
             | Some m0 =>
                 x ← convert (float_of_str m0); Ok (energies ++ [x])
             end
           else Ok energies);
        if contains "Atomic Energy Network done." line
        then Ok (natoms, energies)
        else scan rest energy_evaluation natoms energies
  end.

(** [d[k] = v] on a dictionary kept in insertion order: a key already
    present keeps its place. *)
Fixpoint dict_set (k : string) (v : entry) (d : list (string * entry))
  : list (string * entry) :=
  match d with
  | [] => [(k, v)]
  | (k', v') :: d' =>
      if decide (k' = k) then (k, v) :: d' else (k', v') :: dict_set k v d'
  end.

(** [zip(pks, natoms, energies)] *)
Fixpoint zip3 (pks : list Z) (natoms : list Z) (energies : list float)
  : list (Z * Z * float) :=
  match pks, natoms, energies with
  | pk :: pks', a :: natoms', e :: energies' =>
      (pk, a, e) :: zip3 pks' natoms' energies'
  | _, _, _ => []
  end.

Definition pk_dict (pks : list Z) (natoms : list Z) (energies : list float)
  : list (string * entry) :=
  fold_left
    (λ d '(pk, a, e), dict_set (str_int pk) {| n := a; E := e |} d)
    (zip3 pks natoms energies) [].

(** [pks] is the reference list of the calculation, [lines] the lines
    of [predict.out]. *)
Definition parse_output (pks : list Z) (lines : list string)
  : result (list (string * entry)) :=
  '(natoms, energies) ← scan lines false [] [];
  Ok (pk_dict pks natoms energies).

End ParseOutput.

End PredictParser.

(* ===================================================================== *)
(** * Notions of the specification                                        *)
(* ===================================================================== *)

(** The decimal text of [k] with zeros in front up to [w] characters. *)
Definition zero_padded (w k : nat) : string :=
  replicate_char (w - String.length (str_nat k)) "0" +:+ str_nat k.

(** A two-body record is one whose first field is [G=2], a three-body
    record one whose first field is [G=4]. *)
Definition is_two_body (f : Generate.fingerprint) : bool :=
  match f with
  | ("G", PyInt 2%Z) :: _ => true
  | _ => false
  end.

Definition is_three_body (f : Generate.fingerprint) : bool :=
  match f with
  | ("G", PyInt 4%Z) :: _ => true
  | _ => false
  end.

(** What the angular loops keep true of their state: the fingerprint
    they hold and the records they have collected are three-body
    records. *)
Definition angular_inv (st : Generate.angular_state) : Prop :=
  (∀ f, st.1 = Some f → is_three_body f = true ∧ is_two_body f = false)
  ∧ Forall (λ f, is_three_body f = true ∧ is_two_body f = false) st.2.

(** The defaults of the Chebyshev descriptor: radial cutoff, radial
    count, angular cutoff, angular count. *)
Definition chebyshev_defaults : list (string * pyval) :=
  [("radial cutoff", PyFloat "4.0"); ("radial n", PyInt 6);
   ("angular cutoff", PyFloat "4.0"); ("angular n", PyInt 2)].

(** The lines of [l] strictly before the first occurrence of [x]; all
    of [l] when [x] does not occur. *)
Fixpoint lines_before (x : string) (l : list string) : list string :=
  match l with
  | [] => []
  | y :: l' => if decide (y = x) then [] else y :: lines_before x l'
  end.

(** The number a string of digits denotes, read on from [acc]. *)
Fixpoint digits_from (acc : nat) (s : string) : nat :=
  match s with
  | "" => acc
  | String c s' => digits_from (10 * acc + (nat_of_ascii c - 48)) s'
  end.

(** The result record of one structure: the text of its identifier, with
    its atom count and energy. *)
Definition prediction_record `{Numpy.Floats} (t : Z * Z * Numpy.float)
  : string * PredictParser.entry :=
  (str_int t.1.1, {| PredictParser.n := t.1.2; PredictParser.E := t.2 |}).


(** An entry of a list returned by the training parser is text. *)
Definition is_text `{Numpy.Floats} (x : Numpy.scalar) : bool :=
  match x with
  | Numpy.NpStr _ => true
  | _ => false
  end.

(** The lines of [generate.in], section by section: [n] is the number
    of reference structures and [xsfs] the names of their files. *)
Definition energy_line (item : string * gmap string pyval) : string :=
  ljust 3 item.1 +:+ " " +:+ pystr (default PyNone (item.2 !! "energy"))
  +:+ "  ! eV".

Definition setup_line (element : string) : string :=
  ljust 3 element +:+ " " +:+ element +:+ ".stp".

Definition generate_in_lines (alg : Generate.algorithm) (n : nat)
    (xsfs : list string) : list string :=
  ["OUTPUT train.dat"; ""]
  ++ (if truthy (Generate.debug alg) then ["DEBUG"] else [])
  ++ (if truthy (Generate.timing alg) then ["TIMING"] else [])
  ++ ["TYPES"; str_nat (length (Generate.elements alg))]
  ++ map energy_line (Generate.elements alg)
  ++ [""; "SETUPS"]
  ++ map setup_line (Generate.elements alg).*1
  ++ [""; "FILES"; str_nat n]
  ++ xsfs.

(** The setup file of [element]: its name and its text, where [lines]
    are those of the descriptor. *)
Definition stp_file (elements : list string) (r_min : pyval)
    (lines : list string) (element : string) : string * string :=
  (element +:+ ".stp",
   join newline (Generate.stp_head elements r_min element ++ lines)).

(** A layer that [write_input] of the train calculation can read holds
    its number of nodes and its activation; an element it can read has
    a list of such layers under its network. *)
Definition complete_layer (layer : gmap string pyval) : Prop :=
  is_Some (layer !! "nodes") ∧ is_Some (layer !! "activation").

Definition complete_network
    (item : string * option (list (gmap string pyval))) : Prop :=
  ∃ network, item.2 = Some network ∧ Forall complete_layer network.

(** The line of an element in the section of networks of [train.in]. *)
Definition layer_text (layer : gmap string pyval) : string :=
  pystr (default PyNone (layer !! "nodes")) +:+ ":" +:+
  pystr (default PyNone (layer !! "activation")).

Definition network_text
    (item : string * option (list (gmap string pyval))) : string :=
  let network := default [] item.2 in
  ljust 8 item.1 +:+ " " +:+ ljust 15 (item.1 +:+ ".nn") +:+ " " +:+
  ljust 7 (str_nat (length network)) +:+ " " +:+
  join " " (map layer_text network).

(** The lines of [train.in] for the training method [method]. *)
Definition train_in_lines (alg : TrainCalc.algorithm) (method : string)
  : list string :=
  ["TRAININGSET train.dat";
   "TESTPERCENT " +:+ pystr (TrainCalc.test_percent alg);
   "ITERATIONS " +:+ pystr (TrainCalc.epochs alg);
   "";
   "MAXENERGY " +:+ pystr (TrainCalc.max_energy alg);
   ""]
  ++ (if truthy (TrainCalc.save_energies alg) then ["SAVE_ENERGIES"; ""]
      else [])
  ++ (if truthy (TrainCalc.timing alg) then ["TIMING"] else [])
  ++ (if truthy (TrainCalc.debug alg) then ["DEBUG"] else [])
  ++ [""; "METHOD"; method; "";
      "NETWORKS";
      "! atom   network         hidden";
      "! types  file-name       layers  nodes:activation"]
  ++ map network_text (TrainCalc.elements alg).

(** The lines of [predict.in]: [relax] are the lines of the relaxation,
    [n] is the number of reference structures and [xsfs] the names of
    their files. *)
Definition predict_in_lines (alg : PredictCalc.algorithm)
    (relax : list string) (n : nat) (xsfs : list string) : list string :=
  ["TYPES"; str_nat (length (PredictCalc.elements alg))]
  ++ PredictCalc.elements alg
  ++ [""; "NETWORKS"]
  ++ map (λ X, ljust 3 X +:+ "  " +:+ X +:+ ".nn") (PredictCalc.elements alg)
  ++ [""]
  ++ (if truthy (PredictCalc.predict_forces alg) then ["FORCES"] else [])
  ++ relax
  ++ (if truthy (PredictCalc.timing alg) then ["TIMING"] else [])
  ++ [""; "FILES"; str_nat n]
  ++ xsfs.

(** Every character of a text passes the test [P]. *)
Fixpoint all_chars (P : ascii → bool) (s : string) : bool :=
  match s with
  | "" => true
  | String c s' => P c && all_chars P s'
  end.

(** A character that is no digit, no point and no sign. *)
Definition plain_char (c : ascii) : bool :=
  negb (is_digit c)
  && bool_decide (c ≠ "."%char ∧ c ≠ "-"%char ∧ c ≠ "+"%char).

(** The text starts with a character that passes the test [P]. *)
Definition starts_with (P : ascii → bool) (s : string) : bool :=
  match s with
  | "" => false
  | String c _ => P c
  end.

(** ** The output of [predict.x]

    A line that holds none of the words the predict parser looks for
    once the evaluation has started. *)
Definition quiet (line : string) : bool :=
  negb (contains "Number of atoms" line)
  && negb (contains PredictParser.total_energy line)
  && negb (contains "Atomic Energy Network done." line).

(** The line of the atom count and the line of the total energy, the
    values set off by [pad] blanks. *)
Definition atoms_line (pad k : nat) : string :=
  " Number of atoms   :" +:+ replicate_char pad " " +:+ str_nat k
  +:+ newline.

Definition total_energy_line (pad : nat) (number : string) : string :=
  PredictParser.total_energy +:+ replicate_char pad " " +:+ number
  +:+ " eV" +:+ newline.

(** A number written with an optional sign, digits, a point and at
    least one digit after it. *)
Definition decimal_text (s : string) : Prop :=
  ∃ sign ip fp,
    s = sign +:+ ip +:+ "." +:+ fp
    ∧ (sign = "" ∨ sign = "-" ∨ sign = "+")
    ∧ all_chars is_digit ip = true
    ∧ all_chars is_digit fp = true ∧ fp ≠ "".

(** What is written for one structure: the atom count and the text of
    the energy, among quiet lines. *)
Record structure_output : Type := {
  so_before : list string;
  so_pad_atoms : nat;
  so_atoms : nat;
  so_between : list string;
  so_pad_energy : nat;
  so_energy : string;
}.

Definition structure_lines (o : structure_output) : list string :=
  so_before o ++ [atoms_line (so_pad_atoms o) (so_atoms o)]
  ++ so_between o ++ [total_energy_line (so_pad_energy o) (so_energy o)].

Definition well_formed (o : structure_output) : Prop :=
  Forall (λ l, quiet l = true) (so_before o)
  ∧ Forall (λ l, quiet l = true) (so_between o)
  ∧ decimal_text (so_energy o).

(* ===================================================================== *)
(** * Properties of the string built-ins                                  *)
(* ===================================================================== *)

Section StringFacts.

Lemma app_cons (c : ascii) (s t : string) :
  String c s +:+ t = String c (s +:+ t).
Proof. reflexivity. Qed.


Lemma string_length_app (s t : string) :
  String.length (s +:+ t) = String.length s + String.length t.
Proof.
  induction s as [|c s IH]; [reflexivity|].
  rewrite app_cons. simpl. by rewrite IH.
Qed.

Lemma length_replicate_char (k : nat) (c : ascii) :
  String.length (replicate_char k c) = k.
Proof. induction k; simpl; congruence. Qed.

Lemma str_nat_aux_S (fuel k : nat) (acc : string) :
  str_nat_aux (S fuel) k acc
  = if k / 10 =? 0 then String (digit_char (k mod 10)) acc
    else str_nat_aux fuel (k / 10) (String (digit_char (k mod 10)) acc).
Proof. reflexivity. Qed.

(** The digits are laid in front of the accumulator. *)
Lemma str_nat_aux_length_ge (fuel k : nat) (acc : string) :
  String.length acc ≤ String.length (str_nat_aux fuel k acc).
Proof.
  revert k acc. induction fuel as [|fuel IH]; intros k acc; [simpl; lia|].
  rewrite str_nat_aux_S. destruct (k / 10 =? 0); [simpl; lia|].
  etrans; [|apply IH]. simpl. lia.
Qed.

Lemma str_nat_aux_length_mono (fuel1 fuel2 k1 k2 : nat) (acc1 acc2 : string) :
  k1 ≤ k2 → k1 < fuel1 → k2 < fuel2 →
  String.length acc1 ≤ String.length acc2 →
  String.length (str_nat_aux fuel1 k1 acc1)
  ≤ String.length (str_nat_aux fuel2 k2 acc2).
Proof.
  revert fuel2 k1 k2 acc1 acc2.
  induction fuel1 as [|fuel1 IH]; intros fuel2 k1 k2 acc1 acc2 Hk H1 H2 Hacc;
    [lia|].
  destruct fuel2 as [|fuel2]; [lia|]. rewrite !str_nat_aux_S.
  destruct (Nat.eqb_spec (k1 / 10) 0) as [Hz1|Hz1].
  - destruct (k2 / 10 =? 0); [simpl; lia|].
    etrans; [|apply str_nat_aux_length_ge]. simpl. lia.
  - assert (k1 / 10 ≤ k2 / 10) by (apply Nat.Div0.div_le_mono; lia).
    destruct (Nat.eqb_spec (k2 / 10) 0) as [Hz2|Hz2]; [lia|].
    assert (k1 / 10 < k1) by (apply Nat.div_lt; [|lia];
      destruct k1; [by rewrite Nat.Div0.div_0_l in Hz1|lia]).
    assert (k2 / 10 < k2) by (apply Nat.div_lt; [|lia];
      destruct k2; [by rewrite Nat.Div0.div_0_l in Hz2|lia]).
    apply IH; [lia|lia|lia|simpl; lia].
Qed.

(** A smaller number has no more digits. *)
Lemma str_nat_length_mono (k1 k2 : nat) :
  k1 ≤ k2 → String.length (str_nat k1) ≤ String.length (str_nat k2).
Proof.
  intros Hk. unfold str_nat. apply str_nat_aux_length_mono; simpl; lia.
Qed.

Lemma digit_char_not_sign (d : nat) :
  d < 10 → digit_char d ≠ "+"%char ∧ digit_char d ≠ "-"%char.
Proof.
  intros Hd. do 10 (destruct d as [|d]; [by split|]). lia.
Qed.

Lemma str_nat_aux_head (fuel k : nat) (acc : string) :
  0 < fuel →
  (∃ d s, acc = String (digit_char d) s ∧ d < 10) ∨ acc = "" →
  ∃ d s, str_nat_aux fuel k acc = String (digit_char d) s ∧ d < 10.
Proof.
  revert k acc. induction fuel as [|fuel IH]; intros k acc Hf Hacc; [lia|].
  rewrite str_nat_aux_S.
  assert (k mod 10 < 10) by (apply Nat.mod_upper_bound; lia).
  destruct (k / 10 =? 0); [by eauto|].
  destruct fuel as [|fuel]; [simpl; by eauto|].
  apply IH; [lia|]. left. eauto.
Qed.

(** The text of a natural number starts with a digit. *)
Lemma str_nat_head (k : nat) :
  ∃ d s, str_nat k = String (digit_char d) s ∧ d < 10.
Proof. apply str_nat_aux_head; [lia|by right]. Qed.

(** On the text of a natural number [zfill] only lays zeros in front. *)
Lemma zfill_str_nat (w k : nat) :
  zfill w (str_nat k)
  = replicate_char (w - String.length (str_nat k)) "0" +:+ str_nat k.
Proof.
  unfold zfill. destruct (Nat.leb_spec w (String.length (str_nat k))) as [Hw|Hw].
  - replace (w - _) with 0 by lia. reflexivity.
  - destruct (str_nat_head k) as (d & s & -> & Hd).
    destruct (digit_char_not_sign d Hd) as [Hp Hm].
    case_decide as Hc; [|reflexivity]. by destruct Hc.
Qed.

End StringFacts.

(* ===================================================================== *)
(** * Structure file names ([write_xsfs])                                 *)
(* ===================================================================== *)

Section FileNames.
Import Generate.
Variable xsf_lines : Z → result (list string).

Lemma xsf_file_name_zero_padded (n i : nat) :
  xsf_file_name n i
  = zero_padded (String.length (str_nat n)) (i + 1) +:+ ".xsf".
Proof. unfold xsf_file_name. by rewrite zfill_str_nat. Qed.

(** An index up to [n] padded to the digits of [n] has exactly the
    digits of [n]. *)
Lemma zero_padded_length (n k : nat) :
  k ≤ n →
  String.length (zero_padded (String.length (str_nat n)) k)
  = String.length (str_nat n).
Proof.
  intros Hk. unfold zero_padded.
  rewrite string_length_app, length_replicate_char.
  pose proof (str_nat_length_mono k n Hk). lia.
Qed.

Lemma write_xsf_ok (n i : nat) (pk : Z) (xsf : list string)
    (l : list string) (fo : list (string * string)) :
  xsf_lines pk = Ok xsf →
  write_xsf xsf_lines n (i, pk) {| xsf_file_list := Some l; folder := fo |}
  = (Ok (), {| xsf_file_list := Some (l ++ [xsf_file_name n i]);
               folder := fo ++ [(xsf_file_name n i, join newline xsf)] |}).
Proof.
  intros Hpk. unfold write_xsf, lift, mbind, method_bind. by rewrite Hpk.
Qed.

Lemma for_in_write_xsf (n k : nat) (refs : list Z) (xsfs : list (list string))
    (l : list string) (fo : list (string * string)) :
  Forall2 (λ pk xsf, xsf_lines pk = Ok xsf) refs xsfs →
  for_in (write_xsf xsf_lines n) (zip (seq k (length refs)) refs)
    {| xsf_file_list := Some l; folder := fo |}
  = (Ok (),
     {| xsf_file_list :=
          Some (l ++ map (xsf_file_name n) (seq k (length refs)));
        folder :=
          fo ++ zip (map (xsf_file_name n) (seq k (length refs)))
                    (map (join newline) xsfs) |}).
Proof.
  intros Hall. revert k l fo.
  induction Hall as [|pk xsf refs xsfs Hpk _ IH]; intros k l fo.
  - simpl. by rewrite !app_nil_r.
  - cbn [length seq zip zip_with for_in map].
    unfold mbind at 1, method_bind at 1.
    rewrite (write_xsf_ok _ _ _ _ _ _ Hpk), IH.
    by rewrite <- !app_assoc.
Qed.

End FileNames.

(** C8.  When every structure of the reference list loads, [write_xsfs]
    names the file of the i-th structure, counted from 1, by the decimal
    text of i with zeros in front up to the number of digits of the length
    N of the list, followed by [.xsf]; it writes the text of that
    structure under that name, and leaves the names, in order, in
    [xsf_file_list].  Every padded index has exactly the digits of N, and
    twelve structures get the names [01.xsf] to [12.xsf]. *)
Theorem write_xsfs_file_names (xsf_lines : Z → result (list string))
    (reference_list : list Z) (xsfs : list (list string))
    (c : Generate.calc) :
  Forall2 (λ pk xsf, xsf_lines pk = Ok xsf) reference_list xsfs →
  let N := length reference_list in
  let width := String.length (str_nat N) in
  let names := map (λ i, zero_padded width i +:+ ".xsf") (seq 1 N) in
  Generate.write_xsfs xsf_lines reference_list c
  = (Ok (), {| Generate.xsf_file_list := Some names;
               Generate.folder :=
                 Generate.folder c ++ zip names (map (join newline) xsfs) |})
  ∧ Forall (λ i, String.length (zero_padded width i) = width) (seq 1 N)
  ∧ (N = 12 →
     names = ["01.xsf"; "02.xsf"; "03.xsf"; "04.xsf"; "05.xsf"; "06.xsf";
              "07.xsf"; "08.xsf"; "09.xsf"; "10.xsf"; "11.xsf"; "12.xsf"]).
Proof.
  intros Hall N width names.
  assert (Hnames : map (Generate.xsf_file_name N) (seq 0 N) = names).
  { subst names. rewrite <- (fmap_S_seq 0 N), <- list_fmap_compose.
    apply list_fmap_ext. intros _ i _. simpl.
    rewrite xsf_file_name_zero_padded. by replace (i + 1) with (S i) by lia. }
  split; [|split].
  - unfold Generate.write_xsfs, mbind, Generate.method_bind. simpl.
    unfold Generate.enumerate.
    rewrite (for_in_write_xsf _ _ _ _ _ _ _ Hall). by rewrite <- Hnames.
  - apply Forall_forall. intros i Hi%elem_of_seq.
    apply zero_padded_length. lia.
  - intros HN. subst names width. by rewrite HN.
Qed.

(** The reference list of twelve calculations 101 ... 112, each loading
    to a two-line text. *)
Lemma write_xsfs_file_names_witness :
  let xsf_lines := λ pk : Z, Ok ["# structure"; str_int pk] in
  let reference_list :=
    [101; 102; 103; 104; 105; 106; 107; 108; 109; 110; 111; 112]%Z in
  Generate.xsf_file_list
    (Generate.write_xsfs xsf_lines reference_list
       {| Generate.xsf_file_list := None; Generate.folder := [] |}).2
  = Some ["01.xsf"; "02.xsf"; "03.xsf"; "04.xsf"; "05.xsf"; "06.xsf";
          "07.xsf"; "08.xsf"; "09.xsf"; "10.xsf"; "11.xsf"; "12.xsf"].
Proof.
  intros xsf_lines reference_list.
  destruct (write_xsfs_file_names xsf_lines reference_list
              (map (λ pk, ["# structure"; str_int pk]) reference_list)
              {| Generate.xsf_file_list := None; Generate.folder := [] |})
    as (Hrun & _ & H12).
  - repeat constructor.
  - rewrite Hrun. exact (f_equal Some (H12 eq_refl)).
Defined.

(* ===================================================================== *)
(** * The control file of generate.x ([write_input])                      *)
(* ===================================================================== *)

Section WriteInput.
Import Generate.

(** [write_input] assigns nothing: whatever it returns, [self] is as it
    was. *)
Lemma write_input_state (alg : algorithm) (reference_list : list Z)
    (c : calc) :
  (write_input alg reference_list c).2 = c.
Proof.
  unfold write_input, lift, mbind, method_bind, get_xsf_file_list.
  destruct (for_each input_element (elements alg) ([], []))
    as [[energies setups]|e]; [|reflexivity].
  by destruct (xsf_file_list c).
Qed.

(** Of [self] it reads [xsf_file_list] and nothing else. *)
Lemma write_input_reads (alg : algorithm) (reference_list : list Z)
    (c1 c2 : calc) :
  xsf_file_list c1 = xsf_file_list c2 →
  (write_input alg reference_list c1).1 = (write_input alg reference_list c2).1.
Proof.
  intros Heq.
  unfold write_input, lift, mbind, method_bind, get_xsf_file_list.
  destruct (for_each input_element (elements alg) ([], []))
    as [[energies setups]|e]; [|reflexivity].
  rewrite Heq. by destruct (xsf_file_list c2).
Qed.

(** What [write_xsfs] returns and the file list it leaves do not depend
    on the state it starts from: the list is assigned anew. *)
Lemma for_in_cons {A} (body : A → method unit) (x : A) (xs : list A)
    (c : calc) :
  for_in body (x :: xs) c
  = match body x c with
    | (Ok _, c') => for_in body xs c'
    | (Raise e, c') => (Raise e, c')
    end.
Proof. reflexivity. Qed.

Lemma write_xsf_reads xsf_lines (n : nat) (entry : nat * Z) (c1 c2 : calc) :
  xsf_file_list c1 = xsf_file_list c2 →
  (write_xsf xsf_lines n entry c1).1 = (write_xsf xsf_lines n entry c2).1
  ∧ xsf_file_list (write_xsf xsf_lines n entry c1).2
    = xsf_file_list (write_xsf xsf_lines n entry c2).2.
Proof.
  intros Heq. destruct entry as [i pk].
  unfold write_xsf, append_xsf_file, lift, get_xsf_file_list,
    set_xsf_file_list, folder_write, mbind, method_bind.
  destruct (xsf_lines pk) as [xsf|e]; [|by simpl].
  rewrite Heq. destruct (xsf_file_list c2) eqn:E2; simpl; [done|].
  by rewrite Heq, E2.
Qed.

Lemma for_in_write_xsf_reads xsf_lines (n : nat) (entries : list (nat * Z))
    (c1 c2 : calc) :
  xsf_file_list c1 = xsf_file_list c2 →
  (for_in (write_xsf xsf_lines n) entries c1).1
  = (for_in (write_xsf xsf_lines n) entries c2).1
  ∧ xsf_file_list (for_in (write_xsf xsf_lines n) entries c1).2
    = xsf_file_list (for_in (write_xsf xsf_lines n) entries c2).2.
Proof.
  revert c1 c2. induction entries as [|entry entries IH]; intros c1 c2 Heq;
    [done|].
  rewrite !for_in_cons.
  destruct (write_xsf_reads xsf_lines n entry c1 c2 Heq) as [Hr Hl].
  destruct (write_xsf xsf_lines n entry c1) as [[[]|e1] c1'],
    (write_xsf xsf_lines n entry c2) as [[[]|e2] c2']; simpl in *; try done.
  by apply IH.
Qed.

Lemma write_xsfs_reads xsf_lines (reference_list : list Z) (c1 c2 : calc) :
  (write_xsfs xsf_lines reference_list c1).1
  = (write_xsfs xsf_lines reference_list c2).1
  ∧ xsf_file_list (write_xsfs xsf_lines reference_list c1).2
    = xsf_file_list (write_xsfs xsf_lines reference_list c2).2.
Proof.
  unfold write_xsfs, mbind, method_bind, set_xsf_file_list.
  by apply for_in_write_xsf_reads.
Qed.

End WriteInput.

(** C9.  [write_input] is a function of the algorithm, the reference list
    and the list of structure files: two calculation objects holding the
    same file list get the same result, text or exception, byte for byte;
    the call leaves the object as it found it, so a second build on the
    same object repeats the first. *)
Theorem write_input_idempotent (alg : Generate.algorithm)
    (reference_list : list Z) (c1 c2 : Generate.calc) :
  Generate.xsf_file_list c1 = Generate.xsf_file_list c2 →
  (Generate.write_input alg reference_list c1).1
  = (Generate.write_input alg reference_list c2).1
  ∧ (Generate.write_input alg reference_list c1).2 = c1
  ∧ (Generate.write_input alg reference_list
       (Generate.write_input alg reference_list c1).2).1
    = (Generate.write_input alg reference_list c1).1.
Proof.
  intros Heq. split; [by apply write_input_reads|].
  split; [apply write_input_state|].
  by rewrite write_input_state.
Qed.

(** Two objects with the same three file names and different folders, for
    the nickel-phosphorus example of the documentation. *)
Lemma write_input_idempotent_witness :
  let alg := {| Generate.elements :=
                  [("Ni", {["energy" := PyFloat "-4676.3936784796315"]});
                   ("P", {["energy" := PyFloat "-194.14828627169916"]})];
                Generate.timing := PyBool true;
                Generate.debug := PyBool true |} in
  let c1 := {| Generate.xsf_file_list := Some ["1.xsf"; "2.xsf"; "3.xsf"];
               Generate.folder := [] |} in
  let c2 := {| Generate.xsf_file_list := Some ["1.xsf"; "2.xsf"; "3.xsf"];
               Generate.folder := [("1.xsf", "CRYSTAL")] |} in
  (Generate.write_input alg [7; 8; 9]%Z c1).1
  = (Generate.write_input alg [7; 8; 9]%Z c2).1.
Proof.
  intros alg c1 c2.
  exact (proj1 (write_input_idempotent alg [7; 8; 9]%Z c1 c2 eq_refl)).
Defined.

(** The whole build, [write_xsfs] and then [write_input], returns the
    same text from any state of the calculation object. *)
Lemma generate_in_rebuild xsf_lines (alg : Generate.algorithm)
    (reference_list : list Z) (c1 c2 : Generate.calc) :
  ((Generate.write_xsfs xsf_lines reference_list ;;
    Generate.write_input alg reference_list) c1).1
  = ((Generate.write_xsfs xsf_lines reference_list ;;
      Generate.write_input alg reference_list) c2).1.
Proof.
  unfold mbind at 1 2, Generate.method_bind at 1 2.
  destruct (write_xsfs_reads xsf_lines reference_list c1 c2) as [Hr Hl].
  destruct (Generate.write_xsfs xsf_lines reference_list c1) as [[[]|e1] c1'],
    (Generate.write_xsfs xsf_lines reference_list c2) as [[[]|e2] c2'];
    simpl in *; try done.
  - by apply write_input_reads.
  - congruence.
Qed.

(* ===================================================================== *)
(** * The Behler-Parrinello fingerprints ([behler])                       *)
(* ===================================================================== *)

Section Behler.
Import Generate.
Context `{SetOrder}.

(** A loop that never raises keeps what each turn keeps. *)
Lemma for_each_invariant {A S} (P : S → Prop) (body : S → A → result S)
    (xs : list A) (s s' : S) :
  (∀ s x s', P s → body s x = Ok s' → P s') →
  P s → for_each body xs s = Ok s' → P s'.
Proof.
  intros Hbody. revert s. induction xs as [|x xs IH]; intros s Hs Hrun.
  - by injection Hrun as <-.
  - simpl in Hrun. destruct (body s x) as [s1|e] eqn:Hx; [|done].
    simpl in Hrun. eauto.
Qed.

Lemma for_each_cons {A S} (body : S → A → result S) (x : A) (xs : list A)
    (s : S) :
  for_each body (x :: xs) s = body s x ≫= for_each body xs.
Proof. reflexivity. Qed.

Lemma bind_ok {A B} (a : A) (k : A → result B) : Ok a ≫= k = k a.
Proof. reflexivity. Qed.

(** ** The radial loop *)

Lemma radial_inner (Rc : pyval) (symbol : string) (etas : list pyval)
    (acc : list fingerprint) :
  fold_left (λ acc eta, acc ++ [radial_fingerprint Rc symbol eta]) etas acc
  = acc ++ map (radial_fingerprint Rc symbol) etas.
Proof.
  revert acc. induction etas as [|eta etas IH]; intros acc; simpl.
  - by rewrite app_nil_r.
  - by rewrite IH, <- app_assoc.
Qed.

Lemma radial_outer (Rc : pyval) (symbols : list string) (etas : list pyval)
    (acc : list fingerprint) :
  fold_left
    (λ acc symbol,
       fold_left (λ acc eta, acc ++ [radial_fingerprint Rc symbol eta])
         etas acc)
    symbols acc
  = acc ++ flat_map (λ symbol, map (radial_fingerprint Rc symbol) etas)
             symbols.
Proof.
  revert acc. induction symbols as [|symbol symbols IH]; intros acc; simpl.
  - by rewrite app_nil_r.
  - by rewrite IH, radial_inner, <- app_assoc.
Qed.

Lemma radial_loop_flat_map (symbols : list string) (etas : list pyval)
    (Rc : pyval) :
  radial_loop symbols etas Rc
  = flat_map (λ symbol, map (radial_fingerprint Rc symbol) etas) symbols.
Proof. unfold radial_loop. by rewrite radial_outer. Qed.

Lemma length_flat_map_const {A B} (f : A → list B) (k : nat) (l : list A) :
  (∀ a, length (f a) = k) → length (flat_map f l) = length l * k.
Proof.
  intros Hf. induction l as [|a l IH]; simpl; [done|].
  by rewrite length_app, Hf, IH.
Qed.

Lemma radial_records_two_body (symbols : list string) (etas : list pyval)
    (Rc : pyval) :
  Forall (λ f, is_two_body f = true ∧ is_three_body f = false)
    (flat_map (λ symbol, map (radial_fingerprint Rc symbol) etas) symbols).
Proof.
  apply Forall_forall. intros f Hf%list_elem_of_In.
  apply in_flat_map in Hf as (symbol & _ & Hf).
  apply in_map_iff in Hf as (eta & <- & _). done.
Qed.

(** ** The angular loops *)

(** The innermost loop over a non-empty sequence of pairs leaves the
    fingerprint of the pair visited last. *)
Lemma angular_pairs_last (Rc zeta _lambda eta : pyval)
    (front : list (list string)) (t2 t3 : string) (fp : option fingerprint) :
  Forall (λ t, length t = 2) front →
  for_each (angular_pair Rc zeta _lambda eta) (front ++ [[t2; t3]]) fp
  = Ok (Some (angular_fingerprint Rc t2 t3 eta _lambda zeta)).
Proof.
  intros Hfront. revert fp.
  induction Hfront as [|t front Ht _ IH]; intros fp; [done|].
  destruct t as [|a [|b [|? ?]]]; try done. simpl. apply IH.
Qed.

Section Pairs.
Variables (Rc : pyval) (front : list (list string)) (t2 t3 : string).
Hypothesis Hfront : Forall (λ t, length t = 2) front.

Let permutations := front ++ [[t2; t3]].

Lemma angular_eta_last (zeta _lambda eta : pyval) (st : angular_state) :
  angular_eta permutations Rc zeta _lambda st eta
  = Ok (Some (angular_fingerprint Rc t2 t3 eta _lambda zeta),
        st.2 ++ [angular_fingerprint Rc t2 t3 eta _lambda zeta]).
Proof.
  destruct st as [fp acc]. unfold angular_eta, permutations.
  by rewrite angular_pairs_last.
Qed.

Lemma angular_etas_last (zeta _lambda : pyval) (etas : list pyval)
    (st : angular_state) :
  ∃ fp', for_each (angular_eta permutations Rc zeta _lambda) etas st
         = Ok (fp', st.2 ++ map (λ eta, angular_fingerprint Rc t2 t3 eta
                                           _lambda zeta) etas).
Proof.
  revert st. induction etas as [|eta etas IH]; intros [fp acc].
  - exists fp. simpl. by rewrite app_nil_r.
  - rewrite for_each_cons, angular_eta_last, bind_ok.
    edestruct IH as [fp' ->]. exists fp'. simpl. by rewrite <- app_assoc.
Qed.

Lemma angular_lambdas_last (zeta : pyval) (etas lambdas : list pyval)
    (st : angular_state) :
  ∃ fp', for_each (angular_lambda permutations Rc etas zeta) lambdas st
         = Ok (fp', st.2 ++
             flat_map (λ _lambda,
               map (λ eta, angular_fingerprint Rc t2 t3 eta _lambda zeta)
                 etas) lambdas).
Proof.
  revert st. induction lambdas as [|_lambda lambdas IH]; intros [fp acc].
  - exists fp. simpl. by rewrite app_nil_r.
  - rewrite for_each_cons. unfold angular_lambda at 2.
    destruct (angular_etas_last zeta _lambda etas (fp, acc)) as [fp1 ->].
    rewrite bind_ok. edestruct IH as [fp' ->]. exists fp'. simpl.
    by rewrite <- app_assoc.
Qed.

Lemma angular_zetas_last (etas lambdas zetas : list pyval)
    (st : angular_state) :
  ∃ fp', for_each (angular_zeta permutations Rc etas lambdas) zetas st
         = Ok (fp', st.2 ++
             flat_map (λ zeta, flat_map (λ _lambda,
               map (λ eta, angular_fingerprint Rc t2 t3 eta _lambda zeta)
                 etas) lambdas) zetas).
Proof.
  revert st. induction zetas as [|zeta zetas IH]; intros [fp acc].
  - exists fp. simpl. by rewrite app_nil_r.
  - rewrite for_each_cons. unfold angular_zeta at 2.
    destruct (angular_lambdas_last zeta etas lambdas (fp, acc)) as [fp1 ->].
    rewrite bind_ok. edestruct IH as [fp' ->]. exists fp'. simpl.
    by rewrite <- app_assoc.
Qed.

(** One record for each (zeta, lambda, eta), all of the last pair. *)
Lemma angular_loop_last (p : behler_parameters) :
  angular_loop permutations p Rc
  = Ok (flat_map (λ zeta, flat_map (λ _lambda,
          map (λ eta, angular_fingerprint Rc t2 t3 eta _lambda zeta)
            (g4_etas p)) (g4_lambdas p)) (g4_zetas p)).
Proof.
  unfold angular_loop.
  by destruct (angular_zetas_last (g4_etas p) (g4_lambdas p) (g4_zetas p)
                 (None, [])) as [fp' ->].
Qed.

End Pairs.

Lemma angular_records_count (Rc : pyval) (t2 t3 : string)
    (etas lambdas zetas : list pyval) :
  length (flat_map (λ zeta, flat_map (λ _lambda,
            map (λ eta, angular_fingerprint Rc t2 t3 eta _lambda zeta)
              etas) lambdas) zetas)
  = length zetas * (length lambdas * length etas).
Proof.
  apply length_flat_map_const. intros zeta.
  apply length_flat_map_const. intros _lambda. apply length_map.
Qed.

(** Whatever the pairs, the records the angular loops collect are
    three-body records. *)
Lemma angular_eta_inv (permutations : list (list string))
    (Rc zeta _lambda : pyval) (st : angular_state) (eta : pyval)
    (st' : angular_state) :
  angular_inv st →
  angular_eta permutations Rc zeta _lambda st eta = Ok st' →
  angular_inv st'.
Proof.
  destruct st as [fp acc]. intros [Hfp Hacc] Hrun. simpl in *.
  destruct (for_each _ permutations fp) as [fp1|e] eqn:Hpairs; [|done].
  assert (Hfp1 : ∀ f, fp1 = Some f →
            is_three_body f = true ∧ is_two_body f = false).
  { apply (for_each_invariant
             (λ fp, ∀ f, fp = Some f →
                is_three_body f = true ∧ is_two_body f = false)
             _ _ _ _) with (3 := Hpairs); [|done].
    intros s t s' _. unfold angular_pair.
    destruct (unpack2 t) as [[a b]|e]; [|done]. simpl.
    intros [= <-] f [= <-]. done. }
  simpl in Hrun. destruct fp1 as [f|]; [|done]. injection Hrun as <-.
  split; [done|]. simpl. apply Forall_app. split; [done|].
  apply Forall_singleton. by apply Hfp1.
Qed.

Lemma angular_loop_three_body (permutations : list (list string))
    (p : behler_parameters) (Rc : pyval) (records : list fingerprint) :
  angular_loop permutations p Rc = Ok records →
  Forall (λ f, is_three_body f = true ∧ is_two_body f = false) records.
Proof.
  unfold angular_loop. intros Hrun.
  destruct (for_each (angular_zeta permutations Rc (g4_etas p) (g4_lambdas p))
              (g4_zetas p) (None, [])) as [st|e] eqn:Hz; [|done].
  injection Hrun as <-.
  enough (angular_inv st) as [_ ?] by done.
  apply (for_each_invariant angular_inv _ _ _ _) with (3 := Hz); [|by split].
  intros s zeta s' Hs Hzeta.
  apply (for_each_invariant angular_inv _ _ _ _) with (3 := Hzeta); [|done].
  intros s1 _lambda s1' Hs1 Hlambda.
  apply (for_each_invariant angular_inv _ _ _ _) with (3 := Hlambda); [|done].
  intros s2 eta s2'. apply angular_eta_inv.
Qed.

Lemma filter_all {A} (f : A → bool) (l : list A) :
  Forall (λ x, f x = true) l → List.filter f l = l.
Proof.
  induction 1 as [|x l Hx _ IH]; simpl; [done|]. by rewrite Hx, IH.
Qed.

Lemma filter_none {A} (f : A → bool) (l : list A) :
  Forall (λ x, f x = false) l → List.filter f l = [].
Proof.
  induction 1 as [|x l Hx _ IH]; simpl; [done|]. by rewrite Hx, IH.
Qed.

(** ** The pairs of a binary alloy *)

(** Of two symbols the set holds pairs only, and at least one. *)
Lemma binary_permutations (a b : string) :
  ∃ front t2 t3,
    set_iter (combinations_with_replacement [a; b] 2) = front ++ [[t2; t3]]
    ∧ Forall (λ t, length t = 2) front.
Proof.
  pose proof (set_iter_perm (combinations_with_replacement [a; b] 2)) as Hperm.
  assert (Hpairs : Forall (λ t, length t = 2)
            (set_iter (combinations_with_replacement [a; b] 2))).
  { apply Forall_forall. intros t Ht.
    rewrite Hperm, elem_of_remove_dups in Ht. simpl in Ht.
    rewrite !elem_of_cons, elem_of_nil in Ht.
    by destruct Ht as [->|[->|[->|[]]]]. }
  assert (Hne : set_iter (combinations_with_replacement [a; b] 2) ≠ []).
  { intros Hnil. rewrite Hnil in Hperm.
    apply Permutation_length in Hperm. simpl in Hperm.
    repeat case_decide; simpl in Hperm; lia. }
  destruct (exists_last Hne) as (front & t & Hset).
  rewrite Hset in Hpairs. apply Forall_app in Hpairs as [Hfront Hlast].
  apply List.Forall_inv in Hlast.
  destruct t as [|t2 [|t3 [|? ?]]]; try done. eauto.
Qed.

(** For a binary alloy [behler_fingerprints] returns, with one
    three-body record for each (zeta, lambda, eta). *)
Lemma behler_fingerprints_binary (a b : string) (p : behler_parameters) :
  ∃ t2 t3,
    behler_fingerprints [a; b] p
    = Ok (radial_loop [a; b] (g2_etas p) (PyTuple [cutoff p]) ++
          flat_map (λ zeta, flat_map (λ _lambda,
            map (λ eta, angular_fingerprint (PyTuple [cutoff p]) t2 t3 eta
                          _lambda zeta)
              (g4_etas p)) (g4_lambdas p)) (g4_zetas p)).
Proof.
  destruct (binary_permutations a b) as (front & t2 & t3 & Hset & Hfront).
  exists t2, t3. unfold behler_fingerprints.
  change (length [a; b]) with 2. rewrite Hset.
  by rewrite angular_loop_last.
Qed.

Lemma behler_fingerprints_split (symbols : list string)
    (p : behler_parameters) (fingerprints : list fingerprint) :
  behler_fingerprints symbols p = Ok fingerprints →
  List.filter is_two_body fingerprints
  = radial_loop symbols (g2_etas p) (PyTuple [cutoff p])
  ∧ ∃ angular, fingerprints
               = radial_loop symbols (g2_etas p) (PyTuple [cutoff p]) ++ angular
               ∧ List.filter is_three_body fingerprints = angular.
Proof.
  unfold behler_fingerprints. intros Hrun.
  destruct (angular_loop _ p _) as [angular|e] eqn:Hang; [|done].
  injection Hrun as <-.
  apply angular_loop_three_body in Hang.
  pose proof (radial_records_two_body symbols (g2_etas p) (PyTuple [cutoff p]))
    as Hrad.
  rewrite <- radial_loop_flat_map in Hrad.
  rewrite !List.filter_app. split.
  - rewrite filter_all, filter_none, app_nil_r; [done|..];
      (eapply Forall_impl; [eassumption|]; by intros ? [? ?]).
  - eexists; split; [done|].
    rewrite filter_none, filter_all; [done|..];
      (eapply Forall_impl; [eassumption|]; by intros ? [? ?]).
Qed.

(** ** Any other number of symbols *)

Lemma combinations_length {A} (pool : list A) (r : nat) (t : list A) :
  t ∈ combinations_with_replacement pool r → length t = r.
Proof.
  revert pool t. induction r as [|r IHr]; intros pool t Ht.
  - apply list_elem_of_singleton in Ht. by subst.
  - simpl in Ht. induction pool as [|x pool IHpool];
      [by apply elem_of_nil in Ht|].
    apply elem_of_app in Ht as [Ht|Ht]; [|by apply IHpool].
    apply list_elem_of_fmap in Ht as (t' & -> & Ht'). simpl.
    f_equal. by apply (IHr (x :: pool)).
Qed.

Lemma combinations_cons_nonempty {A} (x : A) (pool : list A) (r : nat) :
  combinations_with_replacement (x :: pool) r ≠ [].
Proof.
  induction r as [|r IH]; [done|]. simpl.
  destruct (combinations_with_replacement (x :: pool) r); [done|]. done.
Qed.

Lemma unpack2_other (t : list string) :
  length t ≠ 2 → unpack2 t = Raise ValueError.
Proof. by destruct t as [|a [|b [|? ?]]]. Qed.

(** With a different number of symbols the tuples of the set are no
    pairs: the first unpacking raises, as soon as there is a zeta, a
    lambda and an eta to reach it. *)
Lemma behler_fingerprints_not_binary (symbols : list string)
    (p : behler_parameters) :
  length symbols ≠ 2 →
  g4_zetas p ≠ [] → g4_lambdas p ≠ [] → g4_etas p ≠ [] →
  behler_fingerprints symbols p = Raise ValueError.
Proof.
  intros Hsym Hz Hl He. unfold behler_fingerprints.
  set (tuples := combinations_with_replacement symbols (length symbols)).
  pose proof (set_iter_perm tuples) as Hperm.
  assert (Hne : tuples ≠ []).
  { subst tuples. destruct symbols; [done|].
    apply combinations_cons_nonempty. }
  destruct (set_iter tuples) as [|t rest] eqn:Hset.
  { destruct tuples as [|t tuples]; [done|].
    assert (Ht : t ∈ remove_dups (t :: tuples))
      by (apply elem_of_remove_dups, list_elem_of_here).
    rewrite <- Hperm in Ht. by apply elem_of_nil in Ht. }
  assert (Ht : length t ≠ 2).
  { assert (Hin : t ∈ tuples).
    { apply elem_of_remove_dups. rewrite <- Hperm. apply list_elem_of_here. }
    by rewrite (combinations_length _ _ _ Hin). }
  unfold angular_loop.
  destruct (g4_zetas p) as [|zeta zetas]; [done|].
  destruct (g4_lambdas p) as [|_lambda lambdas]; [done|].
  destruct (g4_etas p) as [|eta etas]; [done|].
  rewrite for_each_cons. unfold angular_zeta at 2.
  rewrite for_each_cons. unfold angular_lambda at 2.
  rewrite for_each_cons. unfold angular_eta at 2.
  rewrite for_each_cons. unfold angular_pair at 2.
  by rewrite (unpack2_other t Ht).
Qed.

(** What [behler] returns: the header, the number of records, and one
    line for each record. *)
Lemma behler_lines (symbols : list string) (p : behler_parameters)
    (out : list string) :
  behler symbols p = Ok out ↔
  ∃ fingerprints,
    behler_fingerprints symbols p = Ok fingerprints
    ∧ out = ["SYMMFUNC type=Behler2011"; str_nat (length fingerprints);
             join newline (map param_line fingerprints) +:+ newline].
Proof.
  unfold behler. destruct (behler_fingerprints symbols p) as [fps|e]; simpl.
  - split; [intros [= <-]; eauto|]. by intros (? & [= <-] & ->).
  - split; [done|]. by intros (? & ? & _).
Qed.

End Behler.



(** For two symbols the number of three-body records is the number of
    (zeta, lambda, eta) triples: the pairs do not multiply it. *)
Lemma behler_three_body_count `{Generate.SetOrder} (a b : string)
    (p : Generate.behler_parameters) :
  ∃ fingerprints,
    Generate.behler_fingerprints [a; b] p = Ok fingerprints
    ∧ length (List.filter is_three_body fingerprints)
      = length (Generate.g4_zetas p)
        * (length (Generate.g4_lambdas p) * length (Generate.g4_etas p)).
Proof.
  destruct (behler_fingerprints_binary a b p) as (t2 & t3 & Hrun).
  eexists. split; [exact Hrun|].
  destruct (behler_fingerprints_split _ _ _ Hrun) as (_ & angular & Happ & ->).
  apply app_inv_head in Happ as <-. apply angular_records_count.
Qed.

(** C1.  With the symbols A, B there are three pairs with replacement;
    with one zeta, one lambda and one eta, [behler_fingerprints] returns
    a single three-body record, whatever the order of the set, and not
    the three that one record for each pair and triple would make. *)
Theorem behler_three_body_records_one_per_triple `{Generate.SetOrder} :
  let p := {| Generate.cutoff := PyFloat "6.5";
              Generate.g2_etas := [PyFloat "0.1"; PyFloat "0.2"];
              Generate.g4_etas := [PyFloat "0.01"];
              Generate.g4_lambdas := [PyFloat "1.0"];
              Generate.g4_zetas := [PyFloat "1.0"] |} in
  let pairs := remove_dups (Generate.combinations_with_replacement ["A"; "B"] 2) in
  length pairs = 3
  ∧ ∃ fingerprints,
      Generate.behler_fingerprints ["A"; "B"] p = Ok fingerprints
      ∧ length (List.filter is_three_body fingerprints) = 1
      ∧ length (List.filter is_three_body fingerprints)
        ≠ length pairs * length (Generate.g4_zetas p)
          * length (Generate.g4_lambdas p) * length (Generate.g4_etas p).
Proof.
  intros p pairs. split; [reflexivity|].
  destruct (behler_three_body_count "A" "B" p) as (fingerprints & Hrun & Hlen).
  exists fingerprints. split; [done|]. rewrite Hlen. split; [done|].
  by vm_compute.
Qed.

(* ===================================================================== *)
(** * Defaults written through [setdefault]                               *)
(* ===================================================================== *)

Section Setdefault.

(** After [d.setdefault(k, v)] the dictionary holds [v] under [k] if
    nothing was there, and what it held everywhere else. *)
Lemma setdefault_lookup (l : loc) (k : string) (v : pyval) (h : heap)
    (k' : string) :
  deref (setdefault l k v h).2 l !! k'
  = if decide (k' = k) then Some (default v (deref h l !! k))
    else deref h l !! k'.
Proof.
  unfold setdefault. destruct (deref h l !! k) as [x|] eqn:Hk; simpl.
  - case_decide; by subst.
  - unfold deref. rewrite lookup_total_insert_eq, lookup_insert.
    repeat case_decide; by subst.
Qed.

Lemma setdefault_deref (l : loc) (k : string) (v : pyval) (h : heap) :
  deref (setdefault l k v h).2 l = deref h l ∪ {[k := v]}.
Proof.
  apply map_eq. intros k'. rewrite setdefault_lookup, lookup_union.
  case_decide as Hk; [subst k'|].
  - rewrite lookup_singleton_eq. by destruct (deref h l !! k).
  - rewrite lookup_singleton_ne by done. by destruct (deref h l !! k').
Qed.

(** No other dictionary of the store is touched. *)
Lemma setdefault_frame (l l' : loc) (k : string) (v : pyval) (h : heap) :
  l' ≠ l → (setdefault l k v h).2 !! l' = h !! l'.
Proof.
  intros Hl. unfold setdefault. destruct (deref h l !! k); simpl; [done|].
  by rewrite lookup_insert_ne.
Qed.


(** Filling in defaults changes nothing exactly when every default key
    is already there. *)
Lemma union_defaults_unchanged (d m : gmap string pyval) :
  d ∪ m = d ↔ ∀ k, is_Some (m !! k) → is_Some (d !! k).
Proof.
  split.
  - intros Heq k [v Hk]. destruct (d !! k) as [x|] eqn:Hd; [by eauto|].
    rewrite <- Heq in Hd. apply lookup_union_None in Hd as [_ Hm]. congruence.
  - intros Hdom. apply map_eq. intros k. rewrite lookup_union.
    destruct (d !! k) as [x|] eqn:Hd, (m !! k) as [y|] eqn:Hm; try done.
    destruct (Hdom k) as [z Hz]; [by eauto|]. congruence.
Qed.

(** ** [set_parameters] *)

Lemma set_parameter_store (parameter_dict : loc) (st : Algorithm.state)
    (row : string * pyval) :
  Algorithm.store (Algorithm.set_parameter parameter_dict st row)
  = (setdefault parameter_dict row.1 row.2 (Algorithm.store st)).2.
Proof.
  destruct row as [attr value]. unfold Algorithm.set_parameter. simpl.
  by destruct (setdefault parameter_dict attr value (Algorithm.store st)).
Qed.

Lemma set_parameters_fold (parameter_dict : loc)
    (rows : list (string * pyval)) (st : Algorithm.state) :
  let st' := fold_left (Algorithm.set_parameter parameter_dict) rows st in
  deref (Algorithm.store st') parameter_dict
  = deref (Algorithm.store st) parameter_dict ∪ list_to_map rows
  ∧ ∀ l, l ≠ parameter_dict →
         Algorithm.store st' !! l = Algorithm.store st !! l.
Proof.
  revert st. induction rows as [|[attr value] rows IH]; intros st.
  - split; [|done]. simpl. by rewrite (right_id_L ∅ (∪)).
  - cbn [fold_left].
    destruct (IH (Algorithm.set_parameter parameter_dict st (attr, value)))
      as [Hd Hframe].
    rewrite set_parameter_store in Hd.
    split.
    + rewrite Hd, setdefault_deref, <- (assoc_L (∪)). simpl.
      by rewrite <- insert_union_singleton_l.
    + intros l Hl.
      by rewrite Hframe, set_parameter_store, setdefault_frame.
Qed.

(** ** [chebyshev] *)

Lemma chebyshev_store (parameters : loc) (h : heap) :
  deref (Generate.chebyshev parameters h).2 parameters
  = deref h parameters ∪ list_to_map chebyshev_defaults
  ∧ ∀ l, l ≠ parameters → (Generate.chebyshev parameters h).2 !! l = h !! l.
Proof.
  unfold Generate.chebyshev. cbn [snd]. split.
  - rewrite !setdefault_deref, <- !(assoc_L (∪)). by f_equal.
  - intros l Hl. by rewrite !setdefault_frame.
Qed.

(** [chebyshev] never raises: each of the four parameters is the value
    the mapping holds, or the default. *)
Lemma chebyshev_lines (parameters : loc) (h : heap) :
  let d := deref h parameters in
  let value k v := pystr (default v (d !! k)) in
  (Generate.chebyshev parameters h).1
  = Ok ["BASIS type=Chebyshev";
        ("radial_Rc = " +:+ value "radial cutoff" (PyFloat "4.0"))
        +:+ " " +:+ ("radial_N = " +:+ value "radial n" (PyInt 6))
        +:+ " " +:+ ("angular_Rc = " +:+ value "angular cutoff" (PyFloat "4.0"))
        +:+ " " +:+ ("angular_N = " +:+ value "angular n" (PyInt 2))].
Proof.
  intros d value. unfold Generate.chebyshev, getitem. cbn [fst].
  rewrite !setdefault_lookup.
  repeat (case_decide; try done).
Qed.

End Setdefault.

(** C7.  When the parameters mapping holds none of the four Chebyshev
    keys, [chebyshev] returns two lines: the first names the basis type,
    the second gives the radial cutoff 4.0, the radial count 6, the
    angular cutoff 4.0 and the angular count 2. *)
Theorem chebyshev_defaults_applied (parameters : loc) (h : heap) :
  (∀ k, k ∈ chebyshev_defaults.*1 → deref h parameters !! k = None) →
  (Generate.chebyshev parameters h).1
  = Ok ["BASIS type=Chebyshev";
        "radial_Rc = 4.0 radial_N = 6 angular_Rc = 4.0 angular_N = 2"].
Proof.
  intros Hunset. rewrite chebyshev_lines.
  rewrite !Hunset; [done|..]; simpl; set_solver.
Qed.

(** A descriptor whose parameters are the empty dictionary. *)
Lemma chebyshev_defaults_applied_witness :
  (Generate.chebyshev 1%positive {[1%positive := ∅]}).1
  = Ok ["BASIS type=Chebyshev";
        "radial_Rc = 4.0 radial_N = 6 angular_Rc = 4.0 angular_N = 2"].
Proof.
  apply chebyshev_defaults_applied. intros k _.
  unfold deref. rewrite lookup_total_singleton. apply lookup_empty.
Defined.

(** Counterexample to C5: a caller that passes a dictionary
    with the epoch count alone finds the default minimum radius in it
    once [set_parameters] has run. *)
Lemma set_parameters_mutates_argument :
  let caller_dict : gmap string pyval := {["epochs" := PyInt 50]} in
  let st := {| Algorithm.store := {[1%positive := caller_dict]};
               Algorithm.attributes := ∅ |} in
  deref (Algorithm.store st) 1%positive = caller_dict
  ∧ deref (Algorithm.store (Algorithm.set_parameters 1%positive st)) 1%positive
    ≠ caller_dict
  ∧ deref (Algorithm.store (Algorithm.set_parameters 1%positive st)) 1%positive
    !! "r_min" = Some (PyFloat "0.75").
Proof.
  intros caller_dict st.
  assert (Hr : deref (Algorithm.store (Algorithm.set_parameters 1%positive st))
                 1%positive !! "r_min" = Some (PyFloat "0.75"))
    by (by vm_compute).
  split; [by vm_compute|]. split; [|done].
  intros Heq. rewrite Heq in Hr. by vm_compute in Hr.
Qed.

(** C5, amended.  [set_parameters] stores into the dictionary it was
    handed every default whose key is absent and keeps the entries that
    are there; [chebyshev] does the same, with its four defaults, to the
    parameters mapping it reads.  Neither touches another dictionary, and
    the mapping is left as it was exactly when it holds every default
    key already. *)
Theorem setdefault_fills_mapping_in_place (parameter_dict : loc)
    (st : Algorithm.state) (parameters : loc) (h : heap) :
  let st' := Algorithm.set_parameters parameter_dict st in
  let d := deref (Algorithm.store st) parameter_dict in
  let d' := deref (Algorithm.store st') parameter_dict in
  let c := deref h parameters in
  let c' := deref (Generate.chebyshev parameters h).2 parameters in
  d' = d ∪ list_to_map Algorithm.defaults
  ∧ (∀ k v, d !! k = Some v → d' !! k = Some v)
  ∧ (∀ k v, d !! k = None → (k, v) ∈ Algorithm.defaults → d' !! k = Some v)
  ∧ (d' = d ↔ ∀ k, k ∈ Algorithm.defaults.*1 → is_Some (d !! k))
  ∧ (∀ l, l ≠ parameter_dict →
          Algorithm.store st' !! l = Algorithm.store st !! l)
  ∧ c' = c ∪ list_to_map chebyshev_defaults
  ∧ (∀ k v, c !! k = Some v → c' !! k = Some v)
  ∧ (c' = c ↔ ∀ k, k ∈ chebyshev_defaults.*1 → is_Some (c !! k))
  ∧ (∀ l, l ≠ parameters → (Generate.chebyshev parameters h).2 !! l = h !! l).
Proof.
  intros st' d d' c c'.
  destruct (set_parameters_fold parameter_dict Algorithm.defaults st)
    as [Hd0 Hframe].
  destruct (chebyshev_store parameters h) as [Hc0 Hcframe].
  assert (Hd : d' = d ∪ list_to_map Algorithm.defaults) by exact Hd0.
  assert (Hc : c' = c ∪ list_to_map chebyshev_defaults) by exact Hc0.
  clear Hd0 Hc0. clearbody d' c' d c.
  assert (Hdom : ∀ (rows : list (string * pyval)) k,
            NoDup rows.*1 →
            is_Some ((list_to_map rows : gmap string pyval) !! k) ↔ k ∈ rows.*1).
  { intros rows k Hnd. rewrite <- elem_of_dom, dom_list_to_map_L.
    by rewrite elem_of_list_to_set. }
  assert (Hnd : NoDup Algorithm.defaults.*1) by compute_done.
  assert (Hcnd : NoDup chebyshev_defaults.*1) by compute_done.
  repeat split; try done.
  - intros k v Hk. rewrite Hd. by apply lookup_union_Some_l.
  - intros k v Hk Hin. rewrite Hd, lookup_union_r by done.
    by apply elem_of_list_to_map.
  - intros Heq k Hk. rewrite Hd in Heq.
    eapply union_defaults_unchanged; [exact Heq|]. by apply Hdom.
  - intros Hall. rewrite Hd. apply union_defaults_unchanged.
    intros k Hk. apply Hall. by apply Hdom.
  - intros k v Hk. rewrite Hc. by apply lookup_union_Some_l.
  - intros Heq k Hk. rewrite Hc in Heq.
    eapply union_defaults_unchanged; [exact Heq|]. by apply Hdom.
  - intros Hall. rewrite Hc. apply union_defaults_unchanged.
    intros k Hk. apply Hall. by apply Hdom.
Qed.

(** The caller's dictionary with the epoch count alone: the entry stays,
    the minimum radius is filled in. *)
Lemma setdefault_fills_mapping_in_place_witness :
  let caller_dict : gmap string pyval := {["epochs" := PyInt 50]} in
  let st := {| Algorithm.store := {[1%positive := caller_dict]};
               Algorithm.attributes := ∅ |} in
  let d' := deref (Algorithm.store (Algorithm.set_parameters 1%positive st))
              1%positive in
  d' !! "epochs" = Some (PyInt 50) ∧ d' !! "r_min" = Some (PyFloat "0.75").
Proof.
  intros caller_dict st d'.
  destruct (setdefault_fills_mapping_in_place 1%positive st 1%positive ∅)
    as (_ & Hkeep & Hfill & _).
  split.
  - apply Hkeep. by vm_compute.
  - apply Hfill; [by vm_compute|]. unfold Algorithm.defaults.
    do 8 apply list_elem_of_further. apply list_elem_of_here.
Defined.

(* ===================================================================== *)
(** * The epoch lines of train.out ([select_epoch_lines])                 *)
(* ===================================================================== *)

Section EpochLines.
Import TrainParser.

(** The loop stops at the first line that holds the header. *)
Lemma header_loop_found (i : nat) (before after : list string) (h : string)
    (last : option nat) :
  Forall (λ l, contains header l = false) before →
  contains header h = true →
  header_loop i (before ++ h :: after) last = Some (i + length before).
Proof.
  intros Hbefore Hh. revert i last.
  induction Hbefore as [|l before Hl _ IH]; intros i last; simpl.
  - rewrite Hh. f_equal. lia.
  - rewrite Hl, IH. f_equal. lia.
Qed.

(** Without a header the loop runs to the end and leaves [i] at the
    last line. *)
Lemma header_loop_missing (i : nat) (lines : list string) (last : option nat) :
  Forall (λ l, contains header l = false) lines →
  lines ≠ [] →
  header_loop i lines last = Some (i + length lines - 1).
Proof.
  intros Hlines. revert i last.
  induction Hlines as [|l lines Hl _ IH]; intros i last Hne; [done|].
  simpl. rewrite Hl. destruct lines as [|l' lines].
  - simpl. f_equal. lia.
  - rewrite IH by done. simpl. f_equal. lia.
Qed.

(** A slice between two positions of the list. *)
Lemma slice_inside {A} (l : list A) (a b : nat) :
  a ≤ length l → b ≤ length l →
  slice l (Z.of_nat a) (Z.of_nat b) = take (b - a) (drop a l).
Proof.
  intros Ha Hb. unfold slice.
  destruct (Z.ltb_spec (Z.of_nat a) 0) as [?|_]; [lia|].
  destruct (Z.ltb_spec (Z.of_nat b) 0) as [?|_]; [lia|].
  rewrite !Z.min_l by lia. rewrite Nat2Z.id.
  by replace (Z.to_nat (Z.of_nat b - Z.of_nat a)) with (b - a) by lia.
Qed.

(** [l.index(x)] is the position of the first [x], and the lines in
    front of it are those before the first [x]. *)
Lemma index_lines_before (x : string) (l : list string) :
  x ∈ l →
  ∃ j, index x l = Ok j ∧ take j l = lines_before x l.
Proof.
  induction l as [|y l IH]; intros Hx; [by apply elem_of_nil in Hx|].
  simpl. case_decide as Hy; [by exists 0|].
  apply elem_of_cons in Hx as [->|Hx]; [done|].
  destruct (IH Hx) as (j & -> & Htake). exists (S j). simpl. by rewrite Htake.
Qed.

Lemma lines_before_absent (x : string) (l : list string) :
  x ∉ l → lines_before x l = l.
Proof.
  induction l as [|y l IH]; intros Hx; [done|]. simpl.
  apply not_elem_of_cons in Hx as [Hy Hx].
  case_decide; [by subst|]. by rewrite IH.
Qed.


Lemma lines_before_prefix (x : string) (l : list string) :
  lines_before x l `prefix_of` l.
Proof.
  induction l as [|y l IH]; simpl; [done|].
  case_decide; [apply prefix_nil|]. by apply prefix_cons.
Qed.


(** The lines kept: those of the window of [n_epochs + 1] lines behind
    the header that come before the first convergence line. *)
Lemma select_epoch_lines_found (before after : list string) (h : string)
    (n_epochs : Z) :
  Forall (λ l, contains header l = false) before →
  contains header h = true →
  (0 ≤ n_epochs)%Z →
  select_epoch_lines (before ++ h :: after) n_epochs
  = Ok (lines_before converge_string (take (Z.to_nat (n_epochs + 1)) after)).
Proof.
  intros Hbefore Hh Hn. unfold select_epoch_lines.
  rewrite (header_loop_found 0 before after h None Hbefore Hh). simpl.
  set (i := length before). set (lines := before ++ h :: after).
  assert (Hlen : length lines = i + 1 + length after).
  { subst lines i. rewrite length_app. simpl. lia. }
  set (stop := Z.to_nat (Z.min (Z.of_nat i + n_epochs + 2)
                           (Z.of_nat (length lines)))).
  replace (Z.of_nat i + 1)%Z with (Z.of_nat (i + 1)) by lia.
  replace (Z.min (Z.of_nat i + n_epochs + 2) (Z.of_nat (length lines)))
    with (Z.of_nat stop) by (subst stop; lia).
  rewrite slice_inside by (subst stop; lia).
  assert (Hdrop : drop (i + 1) lines = after).
  { subst lines i. rewrite cons_middle, app_assoc.
    replace (length before + 1) with (length (before ++ [h]))
      by (rewrite length_app; simpl; lia).
    apply drop_app_length. }
  rewrite Hdrop.
  assert (Hwin : take (stop - (i + 1)) after
                 = take (Z.to_nat (n_epochs + 1)) after).
  { destruct (Z.le_gt_cases (Z.of_nat i + n_epochs + 2)
                (Z.of_nat (length lines))) as [Hle|Hgt].
    - f_equal. subst stop. lia.
    - rewrite !take_ge; [done|lia|subst stop; lia]. }
  rewrite Hwin. unfold mem. case_bool_decide as Hmem.
  - destruct (index_lines_before _ _ Hmem) as (j & -> & Htake).
    simpl. by rewrite Htake.
  - by rewrite lines_before_absent.
Qed.

(** Without a header in a non-empty output the window starts behind
    the last line, and is empty. *)
Lemma select_epoch_lines_missing (lines : list string) (n_epochs : Z) :
  Forall (λ l, contains header l = false) lines →
  lines ≠ [] →
  select_epoch_lines lines n_epochs = Ok [].
Proof.
  intros Hlines Hne. unfold select_epoch_lines.
  rewrite (header_loop_missing 0 lines None Hlines Hne). simpl.
  assert (0 < length lines) by (destruct lines; [done|simpl; lia]).
  assert (Hslice : ∀ stop,
            slice lines (Z.of_nat (length lines - 1) + 1) stop = []).
  { intros stop. unfold slice.
    destruct (Z.ltb_spec (Z.of_nat (length lines - 1) + 1) 0); [lia|].
    rewrite (Z.min_l (Z.of_nat (length lines - 1) + 1)) by lia.
    replace (Z.to_nat (Z.of_nat (length lines - 1) + 1))
      with (length lines) by lia.
    by rewrite drop_all, take_nil. }
  by rewrite Hslice.
Qed.

End EpochLines.

Lemma lines_before_take_at (x : string) (l : list string) (m j : nat) :
  j ≤ m → l !! j = Some x → (∀ k, k < j → l !! k ≠ Some x) →
  lines_before x (take m l) = take j l.
Proof.
  revert m j. induction l as [|y l IH]; intros m j Hm Hj Hfirst; [done|].
  destruct j as [|j].
  - injection Hj as ->. destruct m; simpl; [done|]. by case_decide.
  - destruct m as [|m]; [lia|]. simpl. case_decide as Hy.
    + subst y. by destruct (Hfirst 0 ltac:(lia)).
    + f_equal. apply IH; [lia|done|].
      intros k Hk. apply (Hfirst (S k)). lia.
Qed.

(** Counterexample to C4: the epoch count is not checked, and a
    negative end of the slice counts from the end of the output.  With
    the header on the first line of five and an epoch count of -3 the
    parser keeps three lines behind the header, more than
    [epochs + 2]. *)
Lemma epoch_lines_negative_count :
  let line0 := "     0   1.0E-01   2.0E-01   3.0E-01   4.0E-01 <" +:+ newline in
  let line1 := "     1   1.1E-01   2.1E-01   3.1E-01   4.1E-01 <" +:+ newline in
  let line2 := "     2   1.2E-01   2.2E-01   3.2E-01   4.2E-01 <" +:+ newline in
  let line3 := "     3   1.3E-01   2.3E-01   3.3E-01   4.3E-01 <" +:+ newline in
  let lines := [TrainParser.header +:+ newline; line0; line1; line2; line3] in
  contains TrainParser.header (TrainParser.header +:+ newline) = true
  ∧ TrainParser.select_epoch_lines lines (-3) = Ok [line0; line1; line2]
  ∧ (Z.of_nat (length [line0; line1; line2]) > -3 + 2)%Z.
Proof.
  intros line0 line1 line2 line3 lines.
  split; [reflexivity|]. split; [reflexivity|]. simpl. lia.
Qed.

(** C4, amended.  In an output whose first line holding the header is
    [h], with a non-negative epoch count, the lines kept as epoch
    records are the first lines behind [h], at most [epochs + 2] of
    them; when the first convergence line stands among the
    [epochs + 2] lines behind [h], the lines kept are exactly those
    strictly before it. *)
Theorem epoch_lines_window (before after : list string) (h : string)
    (n_epochs : Z) :
  Forall (λ l, contains TrainParser.header l = false) before →
  contains TrainParser.header h = true →
  (0 ≤ n_epochs)%Z →
  ∃ kept,
    TrainParser.select_epoch_lines (before ++ h :: after) n_epochs = Ok kept
    ∧ kept `prefix_of` after
    ∧ length kept ≤ Z.to_nat (n_epochs + 2)
    ∧ (∀ j, j < Z.to_nat (n_epochs + 2) →
            after !! j = Some TrainParser.converge_string →
            (∀ k, k < j → after !! k ≠ Some TrainParser.converge_string) →
            kept = take j after).
Proof.
  intros Hbefore Hh Hn. eexists. split; [by apply select_epoch_lines_found|].
  set (window := take (Z.to_nat (n_epochs + 1)) after).
  assert (Hprefix : lines_before TrainParser.converge_string window
                    `prefix_of` window) by apply lines_before_prefix.
  split; [|split].
  - etrans; [exact Hprefix|]. apply prefix_take.
  - apply prefix_length in Hprefix. subst window.
    rewrite length_take in Hprefix. lia.
  - intros j Hj Hat Hfirst. apply lines_before_take_at; [lia|done..].
Qed.

(** A header, three epoch lines, the convergence line and a trailer,
    with ten epochs asked for. *)
Lemma epoch_lines_window_witness :
  let line0 := "     0   1.0E-01   2.0E-01   3.0E-01   4.0E-01 <" +:+ newline in
  let line1 := "     1   1.1E-01   2.1E-01   3.1E-01   4.1E-01 <" +:+ newline in
  let line2 := "     2   1.2E-01   2.2E-01   3.2E-01   4.2E-01 <" +:+ newline in
  TrainParser.select_epoch_lines
    ([" Training" +:+ newline] ++ (TrainParser.header +:+ newline) ::
       [line0; line1; line2; TrainParser.converge_string;
        " Training done." +:+ newline]) 10
  = Ok [line0; line1; line2].
Proof.
  intros line0 line1 line2.
  destruct (epoch_lines_window
              [" Training" +:+ newline] 
              [line0; line1; line2; TrainParser.converge_string;
               " Training done." +:+ newline]
              (TrainParser.header +:+ newline) 10)
    as (kept & -> & _ & _ & Hcut).
  - by repeat constructor.
  - reflexivity.
  - lia.
  - f_equal. apply (Hcut 3); [lia|reflexivity|].
    intros [|[|[|k]]] Hk; [done..|lia].
Defined.

(* ===================================================================== *)
(** * The training curve ([TrainParser.parse_output])                     *)
(* ===================================================================== *)

Section TrainOutput.
Import Numpy TrainParser.
Context `{Floats}.

Lemma bind_raise {A B} (m : result A) (k : A → result B) (e : exn) :
  m ≫= k = Raise e → m = Raise e ∨ ∃ a, m = Ok a ∧ k a = Raise e.
Proof. destruct m as [a|e']; simpl; [by eauto|]. intros [= ->]. by left. Qed.

(** A loop raises what one of its turns raises. *)
Lemma for_each_raise {A S} (body : S → A → result S) (xs : list A) (s : S)
    (e : exn) :
  for_each body xs s = Raise e → ∃ s' x, body s' x = Raise e.
Proof.
  revert s. induction xs as [|x xs IH]; intros s Hrun; [done|].
  simpl in Hrun. apply bind_raise in Hrun as [Hx|(s' & _ & Hrest)]; eauto.
Qed.

Lemma convert_raise {A} (o : option A) (e : exn) :
  convert o = Raise e → e = ValueError.
Proof. destruct o; [done|]. by intros [= <-]. Qed.

Lemma load_row_raise (line : string) (e : exn) :
  load_row line = Raise e → e = ValueError.
Proof.
  unfold load_row.
  destruct (String.words (strip_comment line))
    as [|c0 [|c1 [|c2 [|c3 [|c4 [|c5 [|? ?]]]]]]]; try by intros [= <-].
  intros Hrun.
  repeat (apply bind_raise in Hrun as [Hrun|(? & _ & Hrun)];
          [by apply convert_raise in Hrun|]).
  done.
Qed.

Lemma loadtxt_raise (text : string) (e : exn) :
  loadtxt text = Raise e → e = ValueError.
Proof.
  unfold loadtxt, load_rows. intros Hrun.
  apply bind_raise in Hrun as [Hrun|(? & _ & Hrun)]; [|done].
  apply for_each_raise in Hrun as (rows & line & Hrun).
  apply bind_raise in Hrun as [Hrun|(? & _ & Hrun)]; [|done].
  by apply load_row_raise in Hrun.
Qed.

Lemma index_raise (x : string) (l : list string) (e : exn) :
  index x l = Raise e → e = ValueError.
Proof.
  induction l as [|y l IH]; simpl; [by intros [= <-]|].
  case_decide; [done|]. intros Hrun.
  apply bind_raise in Hrun as [Hrun|(? & _ & Hrun)]; [by apply IH|done].
Qed.

Lemma select_epoch_lines_raise (lines : list string) (n_epochs : Z) (e : exn) :
  select_epoch_lines lines n_epochs = Raise e →
  e = UnboundLocalError ∨ e = ValueError.
Proof.
  unfold select_epoch_lines.
  destruct (header_loop 0 lines None) as [i|]; [|intros [= <-]; by left].
  destruct (mem _ _); [|done]. intros Hrun.
  apply bind_raise in Hrun as [Hrun|(? & _ & Hrun)]; [|done].
  right. by apply index_raise in Hrun.
Qed.

Lemma take_raise (k : nat) (a : ndarray) (e : exn) :
  take k a = Raise e → e = IndexError.
Proof. destruct a; [|done]. by intros [= <-]. Qed.

Lemma checked_list_raise (a : ndarray) (e : exn) :
  checked_list a = Raise e → e = TypeError.
Proof. destruct a; [|done]. by intros [= <-]. Qed.

Lemma checked_list_ok (a : ndarray) (xs : list scalar) :
  checked_list a = Ok xs →
  ∃ ys, a = Array1 ys ∧ xs = map (where_isnan_entry "NaN") ys.
Proof. destruct a as [y|ys]; [done|]. intros [= <-]. eauto. Qed.

Lemma take_ok (k : nat) (a b : ndarray) :
  take k a = Ok b → ∃ ys, a = Array1 ys ∧ b = Array1 (firstn k ys).
Proof. destruct a as [y|ys]; [done|]. intros [= <-]. eauto. Qed.

(** The exceptions of the training parser are those of the interpreter
    and of NumPy. *)
Lemma parse_output_raise (lines : list string) (n_epochs : Z) (e : exn) :
  parse_output lines n_epochs = Raise e →
  e = UnboundLocalError ∨ e = ValueError ∨ e = IndexError ∨ e = TypeError.
Proof.
  unfold parse_output. intros Hrun.
  apply bind_raise in Hrun as [Hrun|(kept & _ & Hrun)].
  { apply select_epoch_lines_raise in Hrun as [->| ->]; auto. }
  apply bind_raise in Hrun as [Hrun|([[[[e0 a] b] c] d] & _ & Hrun)].
  { apply loadtxt_raise in Hrun as ->. auto. }
  apply bind_raise in Hrun as [Hrun|(? & _ & Hrun)].
  { apply take_raise in Hrun as ->. auto. }
  repeat (apply bind_raise in Hrun as [Hrun|(? & _ & Hrun)];
          [apply checked_list_raise in Hrun as ->; by auto|]).
  done.
Qed.

Lemma where_isnan_entry_text (s : string) (x : scalar) :
  is_text (where_isnan_entry s x) = true.
Proof. unfold where_isnan_entry. by destruct (scalar_isnan x). Qed.

Lemma where_isnan_entries_text (s : string) (xs : list scalar) :
  Forall (λ x, is_text x = true) (map (where_isnan_entry s) xs).
Proof.
  apply Forall_forall. intros y Hy%list_elem_of_In.
  apply in_map_iff in Hy as (x & <- & _). apply where_isnan_entry_text.
Qed.

(** What a successful run returns. *)
Lemma parse_output_ok (lines : list string) (n_epochs : Z)
    (r : results (list scalar)) :
  parse_output lines n_epochs = Ok r →
  ∃ kept e a b c d,
    select_epoch_lines lines n_epochs = Ok kept
    ∧ loadtxt (join newline kept)
      = Ok (Array1 e, Array1 a, Array1 b, Array1 c, Array1 d)
    ∧ epochs r = map (where_isnan_entry "NaN") (firstn (length kept) e)
    ∧ train_mae r = map (where_isnan_entry "NaN") a
    ∧ train_rmse r = map (where_isnan_entry "NaN") b
    ∧ test_mae r = map (where_isnan_entry "NaN") c
    ∧ test_rmse r = map (where_isnan_entry "NaN") d.
Proof.
  unfold parse_output. intros Hrun.
  destruct (select_epoch_lines lines n_epochs) as [kept|] eqn:Hsel; [|done].
  rewrite bind_ok in Hrun.
  destruct (loadtxt (join newline kept)) as [[[[[e0 a0] b0] c0] d0]|]
    eqn:Hload; [|done].
  rewrite bind_ok in Hrun.
  destruct (take (length kept) e0) as [e1|] eqn:He; [|done].
  apply take_ok in He as (e & -> & ->). rewrite bind_ok in Hrun.
  destruct (checked_list (Array1 (firstn (length kept) e))) as [e2|] eqn:He2;
    [|done].
  apply checked_list_ok in He2 as (? & [= <-] & ->). rewrite bind_ok in Hrun.
  destruct (checked_list a0) as [a2|] eqn:Ha; [|done].
  apply checked_list_ok in Ha as (a & -> & ->). rewrite bind_ok in Hrun.
  destruct (checked_list b0) as [b2|] eqn:Hb; [|done].
  apply checked_list_ok in Hb as (b & -> & ->). rewrite bind_ok in Hrun.
  destruct (checked_list c0) as [c2|] eqn:Hc; [|done].
  apply checked_list_ok in Hc as (c & -> & ->). rewrite bind_ok in Hrun.
  destruct (checked_list d0) as [d2|] eqn:Hd; [|done].
  apply checked_list_ok in Hd as (d & -> & ->). rewrite bind_ok in Hrun.
  injection Hrun as <-. by exists kept, e, a, b, c, d.
Qed.

End TrainOutput.

(** Counterexample to C3: on two lines of output without the
    header the parser returns five empty sequences and raises nothing. *)
Lemma parse_output_missing_header_returns :
  let lines := [" Training process" +:+ newline;
                " Number of iterations : 10" +:+ newline] in
  Forall (λ l, contains TrainParser.header l = false) lines
  ∧ @TrainParser.parse_output Numpy.literal_floats lines 10
    = Ok {| TrainParser.epochs := []; TrainParser.train_mae := [];
            TrainParser.train_rmse := []; TrainParser.test_mae := [];
            TrainParser.test_rmse := [] |}
  ∧ @TrainParser.parse_output Numpy.literal_floats lines 10
    ≠ Raise MalformedOutputError.
Proof.
  intros lines. split; [by repeat constructor|].
  assert (Hrun : @TrainParser.parse_output Numpy.literal_floats lines 10
                 = Ok {| TrainParser.epochs := []; TrainParser.train_mae := [];
                         TrainParser.train_rmse := []; TrainParser.test_mae := [];
                         TrainParser.test_rmse := [] |}) by reflexivity.
  split; [done|]. by rewrite Hrun.
Qed.

(** C3, amended.  On a non-empty output in which no line holds the
    header, the parser takes the last line for the header, keeps no
    epoch line and returns five empty sequences; and on no output at all
    does it raise [MalformedOutputError]. *)
Theorem parse_output_without_header `{Numpy.Floats} (lines : list string)
    (n_epochs : Z) :
  Forall (λ l, contains TrainParser.header l = false) lines →
  lines ≠ [] →
  TrainParser.select_epoch_lines lines n_epochs = Ok []
  ∧ TrainParser.parse_output lines n_epochs
    = Ok {| TrainParser.epochs := []; TrainParser.train_mae := [];
            TrainParser.train_rmse := []; TrainParser.test_mae := [];
            TrainParser.test_rmse := [] |}
  ∧ ∀ lines' n', TrainParser.parse_output lines' n' ≠ Raise MalformedOutputError.
Proof.
  intros Hlines Hne.
  pose proof (select_epoch_lines_missing lines n_epochs Hlines Hne) as Hsel.
  split; [done|]. split.
  - unfold TrainParser.parse_output. by rewrite Hsel.
  - intros lines' n' Hrun.
    by apply parse_output_raise in Hrun as [?|[?|[?|?]]].
Qed.

(** Two lines of output without the header. *)
Lemma parse_output_without_header_witness :
  @TrainParser.parse_output Numpy.literal_floats
    [" Training process" +:+ newline;
     " Number of iterations : 10" +:+ newline] 10
  = Ok {| TrainParser.epochs := []; TrainParser.train_mae := [];
          TrainParser.train_rmse := []; TrainParser.test_mae := [];
          TrainParser.test_rmse := [] |}.
Proof.
  apply (@parse_output_without_header Numpy.literal_floats);
    [by repeat constructor|done].
Defined.

(** C10.  Whenever the training parser returns, each of its five
    sequences is the image, entry by entry, of a column read by
    [loadtxt] under the conversion of [np.where]: an entry that is
    not-a-number becomes the text NaN, any other the text of its value;
    so every entry returned is text, and none a number. *)
Theorem parse_output_entries_are_text `{Numpy.Floats} (lines : list string)
    (n_epochs : Z) (r : TrainParser.results (list Numpy.scalar)) :
  TrainParser.parse_output lines n_epochs = Ok r →
  (∃ kept e a b c d,
     TrainParser.select_epoch_lines lines n_epochs = Ok kept
     ∧ Numpy.loadtxt (join newline kept)
       = Ok (Numpy.Array1 e, Numpy.Array1 a, Numpy.Array1 b, Numpy.Array1 c,
             Numpy.Array1 d)
     ∧ TrainParser.epochs r
       = map (Numpy.where_isnan_entry "NaN") (firstn (length kept) e)
     ∧ TrainParser.train_mae r = map (Numpy.where_isnan_entry "NaN") a
     ∧ TrainParser.train_rmse r = map (Numpy.where_isnan_entry "NaN") b
     ∧ TrainParser.test_mae r = map (Numpy.where_isnan_entry "NaN") c
     ∧ TrainParser.test_rmse r = map (Numpy.where_isnan_entry "NaN") d)
  ∧ (∀ x, Numpy.where_isnan_entry "NaN" x
          = if Numpy.scalar_isnan x then Numpy.NpStr "NaN"
            else Numpy.NpStr (Numpy.scalar_str x))
  ∧ Forall (λ x, is_text x = true) (TrainParser.epochs r)
  ∧ Forall (λ x, is_text x = true) (TrainParser.train_mae r)
  ∧ Forall (λ x, is_text x = true) (TrainParser.train_rmse r)
  ∧ Forall (λ x, is_text x = true) (TrainParser.test_mae r)
  ∧ Forall (λ x, is_text x = true) (TrainParser.test_rmse r).
Proof.
  intros Hrun.
  pose proof (parse_output_ok lines n_epochs r Hrun)
    as (kept & e & a & b & c & d & Hsel & Hload & He & Ha & Hb & Hc & Hd).
  split; [by exists kept, e, a, b, c, d|]. split; [done|].
  rewrite He, Ha, Hb, Hc, Hd.
  repeat split; apply where_isnan_entries_text.
Qed.

(** A table of three epochs; the training RMSE of the second is
    not-a-number. *)
Lemma parse_output_entries_are_text_witness :
  let lines :=
    [" Training" +:+ newline;
     TrainParser.header +:+ "             MAE          <RMSE>" +:+ newline;
     "     0   1.0E-01   2.0E-01   3.0E-01   4.0E-01 <" +:+ newline;
     "     1   1.1E-01   NaN   3.1E-01   4.1E-01 <" +:+ newline;
     "     2   1.2E-01   2.2E-01   3.2E-01   4.2E-01 <" +:+ newline;
     TrainParser.converge_string] in
  ∃ r, @TrainParser.parse_output Numpy.literal_floats lines 10 = Ok r
       ∧ TrainParser.train_rmse r
         = [@Numpy.NpStr Numpy.literal_floats "2.0E-01";
            @Numpy.NpStr Numpy.literal_floats "NaN";
            @Numpy.NpStr Numpy.literal_floats "2.2E-01"]
       ∧ Forall (λ x, @is_text Numpy.literal_floats x = true)
           (TrainParser.epochs r).
Proof.
  intros lines. eexists. split; [reflexivity|]. split; [reflexivity|].
  exact (proj1 (proj2 (proj2
    (@parse_output_entries_are_text Numpy.literal_floats lines 10 _ eq_refl)))).
Defined.

(* ===================================================================== *)
(** * Decimal text determines the integer                                 *)
(* ===================================================================== *)

Section DecimalText.

Lemma digit_char_value (d : nat) : d < 10 → nat_of_ascii (digit_char d) - 48 = d.
Proof. intros Hd. do 10 (destruct d as [|d]; [reflexivity|]). lia. Qed.

Lemma digits_from_str_nat_aux (fuel k : nat) (acc : string) :
  k < fuel → digits_from 0 (str_nat_aux fuel k acc) = digits_from k acc.
Proof.
  revert k acc. induction fuel as [|fuel IH]; intros k acc Hk; [lia|].
  rewrite str_nat_aux_S.
  assert (Hd : k mod 10 < 10) by (apply Nat.mod_upper_bound; lia).
  pose proof (Nat.div_mod_eq k 10) as Hk10.
  destruct (Nat.eqb_spec (k / 10) 0) as [Hz|Hz].
  - cbn [digits_from]. rewrite digit_char_value by done. f_equal. lia.
  - rewrite IH by lia. cbn [digits_from].
    rewrite digit_char_value by done. f_equal. lia.
Qed.

(** Reading the text of a natural number gives the number back. *)
Lemma digits_from_str_nat (k : nat) : digits_from 0 (str_nat k) = k.
Proof. unfold str_nat. by rewrite digits_from_str_nat_aux by lia. Qed.

Lemma str_nat_inj (k1 k2 : nat) : str_nat k1 = str_nat k2 → k1 = k2.
Proof.
  intros Heq. by rewrite <- (digits_from_str_nat k1), Heq, digits_from_str_nat.
Qed.

(** Two integers with the same text are the same integer. *)
Lemma str_int_inj (z1 z2 : Z) : str_int z1 = str_int z2 → z1 = z2.
Proof.
  unfold str_int.
  destruct (Z.ltb_spec z1 0), (Z.ltb_spec z2 0); intros Heq.
  - injection Heq as Heq%str_nat_inj. lia.
  - destruct (str_nat_head (Z.to_nat z2)) as (d & s & Hs & Hd).
    rewrite Hs in Heq. injection Heq as Hc _.
    by destruct (digit_char_not_sign d Hd) as [_ []].
  - destruct (str_nat_head (Z.to_nat z1)) as (d & s & Hs & Hd).
    rewrite Hs in Heq. injection Heq as Hc _.
    by destruct (digit_char_not_sign d Hd) as [_ []].
  - apply str_nat_inj in Heq. lia.
Qed.

End DecimalText.

(* ===================================================================== *)
(** * The predicted energies ([PredictParser.parse_output])               *)
(* ===================================================================== *)

Section PredictOutput.
Import Numpy PredictParser.
Context `{Floats}.

Lemma NoDup_firstn {A} (k : nat) (l : list A) : NoDup l → NoDup (firstn k l).
Proof.
  intros Hnd. rewrite <- (firstn_skipn k l) in Hnd.
  by apply NoDup_app in Hnd as [? _].
Qed.

Lemma dict_set_fresh (k : string) (v : entry) (d : list (string * entry)) :
  k ∉ d.*1 → dict_set k v d = d ++ [(k, v)].
Proof.
  induction d as [|[k' v'] d IH]; intros Hk; [done|]. simpl in *.
  apply not_elem_of_cons in Hk as [Hne Hk].
  case_decide; [by subst|]. by rewrite IH.
Qed.

(** Distinct keys are appended in the order they are set. *)
Lemma fold_dict_set_fresh (items : list (Z * Z * float))
    (d : list (string * entry)) :
  NoDup (d.*1 ++ (prediction_record <$> items).*1) →
  fold_left (λ d '(pk, a, e), dict_set (str_int pk) {| n := a; E := e |} d)
    items d
  = d ++ (prediction_record <$> items).
Proof.
  revert d. induction items as [|[[pk a] e] items IH]; intros d Hnd.
  - by rewrite app_nil_r.
  - cbn [fold_left fmap list_fmap] in *. 
    change (prediction_record (pk, a, e))
      with (str_int pk, {| n := a; E := e |}) in *.
    rewrite dict_set_fresh.
    + rewrite IH; [by rewrite <- app_assoc|].
      by rewrite fmap_app, <- app_assoc.
    + apply NoDup_app in Hnd as (_ & Hdis & _). intros Hin.
      apply (Hdis _ Hin). simpl. apply list_elem_of_here.
Qed.

Lemma zip3_pks (pks natoms : list Z) (energies : list float) :
  (zip3 pks natoms energies).*1.*1
  = firstn (length (zip3 pks natoms energies)) pks.
Proof.
  revert natoms energies.
  induction pks as [|pk pks IH]; intros [|a natoms] [|e energies];
    simpl; try done.
  by rewrite IH.
Qed.

Lemma length_zip3 (pks natoms : list Z) (energies : list float) :
  length (zip3 pks natoms energies)
  = length pks `min` (length natoms `min` length energies).
Proof.
  revert natoms energies.
  induction pks as [|pk pks IH]; intros [|a natoms] [|e energies];
    simpl; try done.
  by rewrite IH.
Qed.

(** With distinct identifiers, the dictionary lists the items of the
    [zip] in order. *)
Lemma pk_dict_items (pks natoms : list Z) (energies : list float) :
  NoDup pks →
  pk_dict pks natoms energies = prediction_record <$> zip3 pks natoms energies.
Proof.
  intros Hnd. unfold pk_dict. rewrite fold_dict_set_fresh; [done|]. simpl.
  replace ((prediction_record <$> zip3 pks natoms energies).*1)
    with (str_int <$> (zip3 pks natoms energies).*1.*1)
    by (rewrite <- !list_fmap_compose; by apply list_fmap_ext).
  assert (Inj (=) (=) str_int) by (intros ???; by apply str_int_inj).
  apply (NoDup_fmap_2 str_int). rewrite zip3_pks. by apply NoDup_firstn.
Qed.

(** The exceptions of the scan are those of [int] and of indexing an
    empty list of matches. *)
Lemma scan_raise (lines : list string) (energy_evaluation : bool)
    (natoms : list Z) (energies : list float) (e : exn) :
  scan lines energy_evaluation natoms energies = Raise e →
  e = ValueError ∨ e = IndexError.
Proof.
  revert energy_evaluation natoms energies.
  induction lines as [|line lines IH]; intros ee natoms energies; [done|].
  cbn [scan].
  destruct (negb (if negb ee && contains "Energy evaluation" line
                  then true else ee)); [by apply IH|].
  intros Hrun.
  apply bind_raise in Hrun as [Hrun|(natoms' & _ & Hrun)].
  { destruct (contains "Number of atoms" line); [|done].
    apply bind_raise in Hrun as [Hrun|(? & _ & Hrun)]; [|done].
    left. unfold py_int in Hrun.
    destruct (match strip _ with String "-" d => _ | _ => _ end) as [neg ds].
    destruct (digits_value false 0 ds); [done|]. by injection Hrun as <-. }
  apply bind_raise in Hrun as [Hrun|(energies' & _ & Hrun)].
  { destruct (contains total_energy line); [|done].
    destruct (first_match line); [|injection Hrun as <-; by right].
    apply bind_raise in Hrun as [Hrun|(? & _ & Hrun)]; [|done].
    left. by apply convert_raise in Hrun. }
  destruct (contains "Atomic Energy Network done." line); [done|].
  by apply IH in Hrun.
Qed.

End PredictOutput.

(** Counterexample to C2: with three structures and an output
    that holds three atom counts and two total energies, the parser
    returns the records of the first two structures and raises
    nothing. *)
Lemma parse_output_count_mismatch_returns :
  let pks := [101; 102; 103]%Z in
  let lines :=
    [" Energy evaluation" +:+ newline;
     " Number of atoms   :     4" +:+ newline;
     PredictParser.total_energy +:+ "     -10.5 eV" +:+ newline;
     " Number of atoms   :     8" +:+ newline;
     PredictParser.total_energy +:+ "     -20.25 eV" +:+ newline;
     " Number of atoms   :     2" +:+ newline;
     " Atomic Energy Network done." +:+ newline] in
  @PredictParser.scan Numpy.literal_floats lines false [] []
  = Ok ([4; 8; 2]%Z, [Numpy.literal "-10.5"; Numpy.literal "-20.25"])
  ∧ @PredictParser.parse_output Numpy.literal_floats pks lines
    = Ok [("101",
           {| PredictParser.n := 4%Z;
              PredictParser.E := Numpy.literal "-10.5" |});
          ("102",
           {| PredictParser.n := 8%Z;
              PredictParser.E := Numpy.literal "-20.25" |})]
  ∧ @PredictParser.parse_output Numpy.literal_floats pks lines
    ≠ Raise ResultCountMismatchError.
Proof.
  intros pks lines.
  assert (Hrun : @PredictParser.parse_output Numpy.literal_floats pks lines
            = Ok [("101", {| PredictParser.n := 4%Z;
                             PredictParser.E := Numpy.literal "-10.5" |});
                  ("102", {| PredictParser.n := 8%Z;
                             PredictParser.E := Numpy.literal "-20.25" |})])
    by reflexivity.
  split; [reflexivity|]. split; [done|]. by rewrite Hrun.
Qed.

(** C2, amended.  When the scan of the output succeeds, the parser pairs
    the structure identifiers, in submission order, with the atom counts
    and the energies extracted, as far as the shortest of the three
    sequences goes: with distinct identifiers it returns exactly one
    record for each identifier so paired, keyed in that order, hence one
    for every identifier when as many counts and energies were
    extracted.  It never raises [ResultCountMismatchError]. *)
Theorem parse_output_records_in_order `{Numpy.Floats} (pks : list Z)
    (lines : list string) (natoms : list Z) (energies : list Numpy.float) :
  PredictParser.scan lines false [] [] = Ok (natoms, energies) →
  NoDup pks →
  let paired := PredictParser.zip3 pks natoms energies in
  PredictParser.parse_output pks lines = Ok (prediction_record <$> paired)
  ∧ length paired = length pks `min` (length natoms `min` length energies)
  ∧ paired.*1.*1 = firstn (length paired) pks
  ∧ (length natoms = length pks → length energies = length pks →
     paired.*1.*1 = pks)
  ∧ ∀ pks' lines',
      PredictParser.parse_output pks' lines' ≠ Raise ResultCountMismatchError.
Proof.
  intros Hscan Hnd paired.
  assert (Hlen : length paired
                 = length pks `min` (length natoms `min` length energies))
    by apply length_zip3.
  assert (Hkeys : paired.*1.*1 = firstn (length paired) pks)
    by apply zip3_pks.
  split; [|split; [done|split; [done|split]]].
  - unfold PredictParser.parse_output. rewrite Hscan, bind_ok.
    by rewrite pk_dict_items.
  - intros Hn He. rewrite Hkeys, Hlen, Hn, He, !Nat.min_id.
    apply firstn_all.
  - intros pks' lines' Hrun. unfold PredictParser.parse_output in Hrun.
    apply bind_raise in Hrun as [Hrun|([? ?] & _ & Hrun)]; [|done].
    by apply scan_raise in Hrun as [?|?].
Qed.

(** Three structures, and an output with the atom count and the total
    energy of each. *)
Lemma parse_output_records_in_order_witness :
  let lines :=
    [" Energy evaluation" +:+ newline;
     " Number of atoms   :     4" +:+ newline;
     PredictParser.total_energy +:+ "     -10.5 eV" +:+ newline;
     " Number of atoms   :     8" +:+ newline;
     PredictParser.total_energy +:+ "     -20.25 eV" +:+ newline;
     " Number of atoms   :     2" +:+ newline;
     PredictParser.total_energy +:+ "     -5.125 eV" +:+ newline;
     " Atomic Energy Network done." +:+ newline] in
  @PredictParser.parse_output Numpy.literal_floats [101; 102; 103]%Z lines
  = Ok [("101",
         {| PredictParser.n := 4%Z;
            PredictParser.E := Numpy.literal "-10.5" |});
        ("102",
         {| PredictParser.n := 8%Z;
            PredictParser.E := Numpy.literal "-20.25" |});
        ("103",
         {| PredictParser.n := 2%Z;
            PredictParser.E := Numpy.literal "-5.125" |})].
Proof.
  intros lines.
  refine (proj1 (@parse_output_records_in_order Numpy.literal_floats
                   [101; 102; 103]%Z lines [4; 8; 2]%Z
                   [Numpy.literal "-10.5"; Numpy.literal "-20.25";
                    Numpy.literal "-5.125"] _ _)).
  - reflexivity.
  - apply (bool_decide_unpack _). vm_compute. exact I.
Defined.

(* ===================================================================== *)
(** * More on the structure files ([write_xsfs])                          *)
(* ===================================================================== *)

Section StructureFiles.
Import Generate.

(** Zeros in front do not change the number read. *)
Lemma digits_from_zeros (k : nat) (s : string) :
  digits_from 0 (replicate_char k "0" +:+ s) = digits_from 0 s.
Proof.
  induction k as [|k IH]; [done|].
  change (replicate_char (S k) "0" +:+ s)
    with (String "0" (replicate_char k "0" +:+ s)).
  exact IH.
Qed.

Lemma digits_from_zero_padded (w k : nat) :
  digits_from 0 (zero_padded w k) = k.
Proof.
  unfold zero_padded. by rewrite digits_from_zeros, digits_from_str_nat.
Qed.

Lemma string_app_inv_tail (s1 s2 t : string) :
  s1 +:+ t = s2 +:+ t → s1 = s2.
Proof.
  revert s2. induction s1 as [|c1 s1 IH]; intros [|c2 s2] Heq; [done|..].
  - apply (f_equal String.length) in Heq. rewrite app_cons in Heq.
    simpl in Heq. rewrite !string_length_app in Heq. simpl in Heq. lia.
  - apply (f_equal String.length) in Heq. rewrite app_cons in Heq.
    simpl in Heq. rewrite !string_length_app in Heq. simpl in Heq. lia.
  - rewrite !app_cons in Heq. injection Heq as -> Heq. f_equal. by apply IH.
Qed.

Lemma xsf_file_name_inj (n i j : nat) :
  xsf_file_name n i = xsf_file_name n j → i = j.
Proof.
  rewrite !xsf_file_name_zero_padded. intros Heq%string_app_inv_tail.
  apply (f_equal (digits_from 0)) in Heq.
  rewrite !digits_from_zero_padded in Heq. lia.
Qed.

Lemma xsf_file_names_NoDup (n k m : nat) :
  NoDup (map (xsf_file_name n) (seq k m)).
Proof.
  apply NoDup_fmap_2_strong; [|apply NoDup_seq].
  intros i j _ _. apply xsf_file_name_inj.
Qed.

Lemma for_in_app {A} (body : A → method unit) (l1 l2 : list A) (c : calc) :
  for_in body (l1 ++ l2) c
  = match for_in body l1 c with
    | (Ok _, c') => for_in body l2 c'
    | (Raise e, c') => (Raise e, c')
    end.
Proof.
  revert c. induction l1 as [|x l1 IH]; intros c; [done|].
  rewrite <- app_comm_cons, !for_in_cons.
  destruct (body x c) as [[[]|e] c']; [apply IH|done].
Qed.

Lemma enumerate_app {A} (l1 l2 : list A) :
  enumerate (l1 ++ l2)
  = zip (seq 0 (length l1)) l1 ++ zip (seq (length l1) (length l2)) l2.
Proof.
  unfold enumerate. rewrite length_app, seq_app.
  by rewrite zip_with_app by (by rewrite length_seq).
Qed.

End StructureFiles.

(** X1.  The name of a structure file determines the structure: the
    digits in front of [.xsf] read back as the position counted from 1,
    so two positions never share a name, and the files [write_xsfs]
    writes have pairwise distinct names. *)
Theorem xsf_file_names_distinct (xsf_lines : Z → result (list string))
    (reference_list : list Z) (xsfs : list (list string))
    (c : Generate.calc) :
  Forall2 (λ pk xsf, xsf_lines pk = Ok xsf) reference_list xsfs →
  (∀ n i, ∃ stem, Generate.xsf_file_name n i = stem +:+ ".xsf"
                  ∧ digits_from 0 stem = i + 1)
  ∧ (∀ n i j, Generate.xsf_file_name n i = Generate.xsf_file_name n j → i = j)
  ∧ ∃ names,
      Generate.xsf_file_list
        (Generate.write_xsfs xsf_lines reference_list c).2 = Some names
      ∧ length names = length reference_list
      ∧ NoDup names.
Proof.
  intros Hall. split; [|split].
  - intros n i. eexists. split; [apply xsf_file_name_zero_padded|].
    apply digits_from_zero_padded.
  - apply xsf_file_name_inj.
  - unfold Generate.write_xsfs, mbind, Generate.method_bind. simpl.
    unfold Generate.enumerate.
    rewrite (for_in_write_xsf _ _ _ _ _ _ _ Hall). simpl.
    eexists. split; [done|]. split.
    + by rewrite length_map, length_seq.
    + apply xsf_file_names_NoDup.
Qed.

(** A reference list of three calculations. *)
Lemma xsf_file_names_distinct_witness :
  ∃ names,
    Generate.xsf_file_list
      (Generate.write_xsfs (λ pk, Ok ["# structure"; str_int pk])
         [7; 8; 9]%Z
         {| Generate.xsf_file_list := None; Generate.folder := [] |}).2
    = Some names
    ∧ length names = 3 ∧ NoDup names.
Proof.
  refine (proj2 (proj2 (xsf_file_names_distinct
            (λ pk, Ok ["# structure"; str_int pk]) [7; 8; 9]%Z
            (map (λ pk, ["# structure"; str_int pk]) [7; 8; 9]%Z) _ _))).
  repeat constructor.
Defined.

(** X2.  When the structure at some position fails to load,
    [write_xsfs] raises its exception there: the files of the
    structures before it are written, named as in a complete run,
    [xsf_file_list] holds their names, and nothing is written for the
    structures behind. *)
Theorem write_xsfs_first_failure (xsf_lines : Z → result (list string))
    (good : list Z) (xsfs : list (list string)) (bad : Z) (rest : list Z)
    (e : exn) (c : Generate.calc) :
  Forall2 (λ pk xsf, xsf_lines pk = Ok xsf) good xsfs →
  xsf_lines bad = Raise e →
  let N := length (good ++ bad :: rest) in
  let names := map (Generate.xsf_file_name N) (seq 0 (length good)) in
  Generate.write_xsfs xsf_lines (good ++ bad :: rest) c
  = (Raise e,
     {| Generate.xsf_file_list := Some names;
        Generate.folder :=
          Generate.folder c ++ zip names (map (join newline) xsfs) |}).
Proof.
  intros Hgood Hbad N names.
  unfold Generate.write_xsfs, mbind, Generate.method_bind. simpl.
  rewrite enumerate_app, for_in_app.
  rewrite (for_in_write_xsf _ _ _ _ _ _ _ Hgood). simpl.
  unfold Generate.write_xsf, Generate.lift, mbind, Generate.method_bind.
  by rewrite Hbad.
Qed.

(** Three calculations of which the second does not load. *)
Lemma write_xsfs_first_failure_witness :
  let xsf_lines := λ pk : Z,
    if (pk =? 8)%Z then Raise KeyError else Ok ["# structure"; str_int pk] in
  Generate.write_xsfs xsf_lines [7; 8; 9]%Z
    {| Generate.xsf_file_list := None; Generate.folder := [] |}
  = (Raise KeyError,
     {| Generate.xsf_file_list := Some ["1.xsf"];
        Generate.folder :=
          [("1.xsf", "# structure" +:+ newline +:+ "7")] |}).
Proof.
  intros xsf_lines.
  exact (write_xsfs_first_failure xsf_lines [7%Z] [["# structure"; "7"]]
           8%Z [9%Z] KeyError
           {| Generate.xsf_file_list := None; Generate.folder := [] |}
           ltac:(repeat constructor) eq_refl).
Defined.

(* ===================================================================== *)
(** * More on the control file of generate.x ([write_input])              *)
(* ===================================================================== *)

Section GenerateInput.
Import Generate.

Lemma input_element_step (energies setups : list string) (element : string)
    (traits : gmap string pyval) :
  input_element (energies, setups) (element, traits)
  = match traits !! "energy" with
    | Some energy =>
        Ok (energies
            ++ [ljust 3 element +:+ " " +:+ pystr energy +:+ "  ! eV"],
            setups ++ [ljust 3 element +:+ " " +:+ element +:+ ".stp"])
    | None => Raise KeyError
    end.
Proof. unfold input_element, getitem. by destruct (traits !! "energy"). Qed.

(** The loop over the elements, when each has its energy. *)
Lemma input_elements_ok (items : list (string * gmap string pyval))
    (energies setups : list string) :
  Forall (λ item, is_Some (item.2 !! "energy")) items →
  for_each input_element items (energies, setups)
  = Ok (energies ++ map energy_line items,
        setups ++ map setup_line items.*1).
Proof.
  intros Hall. revert energies setups.
  induction Hall as [|[element traits] items [v Hv] _ IH];
    intros energies setups.
  - simpl. by rewrite !app_nil_r.
  - rewrite for_each_cons, input_element_step. simpl in Hv.
    rewrite Hv, bind_ok, IH. simpl.
    unfold energy_line at 2, setup_line at 2. simpl. rewrite Hv. simpl.
    by rewrite <- !app_assoc.
Qed.

(** The loop raises [KeyError] at the first element without energy. *)
Lemma input_elements_missing (items : list (string * gmap string pyval))
    (acc : list string * list string) :
  Exists (λ item, item.2 !! "energy" = None) items →
  for_each input_element items acc = Raise KeyError.
Proof.
  intros Hex. revert acc.
  induction items as [|[element traits] items IH]; intros [energies setups];
    [by apply Exists_nil in Hex|].
  rewrite for_each_cons, input_element_step.
  destruct (traits !! "energy") as [v|] eqn:Hv; [|done].
  rewrite bind_ok. apply IH.
  apply Exists_cons in Hex as [Hex|Hex]; [|done]. simpl in Hex. congruence.
Qed.

Lemma write_input_ok (alg : algorithm) (reference_list : list Z) (c : calc)
    (xsfs : list string) :
  Forall (λ item, is_Some (item.2 !! "energy")) (elements alg) →
  xsf_file_list c = Some xsfs →
  write_input alg reference_list c
  = (Ok (join newline
           (generate_in_lines alg (length reference_list) xsfs)), c).
Proof.
  intros Hall Hxsfs.
  unfold write_input, lift, mbind, method_bind, get_xsf_file_list,
    generate_in_lines.
  rewrite (input_elements_ok _ [] [] Hall), Hxsfs. simpl.
  destruct (truthy (debug alg)), (truthy (timing alg)); simpl;
    by rewrite <- ?app_assoc.
Qed.

End GenerateInput.

(** X3.  When every element has an energy and [write_xsfs] has left its
    list of file names, [write_input] returns the sections of
    [generate.in] in order: the output file, the flags [DEBUG] and
    [TIMING] when set, under [TYPES] the number of elements and one line
    of symbol and energy for each, under [SETUPS] one line of symbol and
    setup file for each, under [FILES] the number of reference
    structures and the file names. *)
Theorem write_input_sections (alg : Generate.algorithm)
    (reference_list : list Z) (c : Generate.calc) (xsfs : list string) :
  Forall (λ item, is_Some (item.2 !! "energy")) (Generate.elements alg) →
  Generate.xsf_file_list c = Some xsfs →
  (Generate.write_input alg reference_list c).1
  = Ok (join newline
          (["OUTPUT train.dat"; ""]
           ++ (if truthy (Generate.debug alg) then ["DEBUG"] else [])
           ++ (if truthy (Generate.timing alg) then ["TIMING"] else [])
           ++ ["TYPES"; str_nat (length (Generate.elements alg))]
           ++ map energy_line (Generate.elements alg)
           ++ [""; "SETUPS"]
           ++ map setup_line (Generate.elements alg).*1
           ++ [""; "FILES"; str_nat (length reference_list)]
           ++ xsfs)).
Proof.
  intros Hall Hxsfs. by rewrite (write_input_ok _ _ _ _ Hall Hxsfs).
Qed.

(** The nickel-phosphorus example of the documentation, with timing
    alone. *)
Lemma write_input_sections_witness :
  (Generate.write_input
     {| Generate.elements :=
          [("Ni", {["energy" := PyFloat "-4676.3936784796315"]});
           ("P", {["energy" := PyFloat "-194.14828627169916"]})];
        Generate.timing := PyBool true;
        Generate.debug := PyBool false |}
     [7; 8]%Z
     {| Generate.xsf_file_list := Some ["1.xsf"; "2.xsf"];
        Generate.folder := [] |}).1
  = Ok (join newline
          ["OUTPUT train.dat"; ""; "TIMING"; "TYPES"; "2";
           "Ni  -4676.3936784796315  ! eV"; "P   -194.14828627169916  ! eV";
           ""; "SETUPS"; "Ni  Ni.stp"; "P   P.stp";
           ""; "FILES"; "2"; "1.xsf"; "2.xsf"]).
Proof.
  refine (write_input_sections
            {| Generate.elements :=
                 [("Ni", {["energy" := PyFloat "-4676.3936784796315"]});
                  ("P", {["energy" := PyFloat "-194.14828627169916"]})];
               Generate.timing := PyBool true;
               Generate.debug := PyBool false |}
            [7; 8]%Z
            {| Generate.xsf_file_list := Some ["1.xsf"; "2.xsf"];
               Generate.folder := [] |}
            ["1.xsf"; "2.xsf"] _ eq_refl).
  repeat constructor; by eexists.
Defined.

(** X4.  [write_input] raises [KeyError] as soon as one element has no
    energy, whether or not the structure files were written; with an
    energy for every element it raises [AttributeError] when
    [write_xsfs] has not run before.  It returns in no other case than
    that of X3. *)
Theorem write_input_errors (alg : Generate.algorithm)
    (reference_list : list Z) (c : Generate.calc) :
  (Exists (λ item, item.2 !! "energy" = None) (Generate.elements alg) →
   (Generate.write_input alg reference_list c).1 = Raise KeyError)
  ∧ (Forall (λ item, is_Some (item.2 !! "energy")) (Generate.elements alg) →
     Generate.xsf_file_list c = None →
     (Generate.write_input alg reference_list c).1 = Raise AttributeError)
  ∧ (∀ text, (Generate.write_input alg reference_list c).1 = Ok text →
       Forall (λ item, is_Some (item.2 !! "energy")) (Generate.elements alg)
       ∧ is_Some (Generate.xsf_file_list c)).
Proof.
  split; [|split].
  - intros Hex.
    unfold Generate.write_input, Generate.lift, mbind, Generate.method_bind.
    by rewrite (input_elements_missing _ _ Hex).
  - intros Hall Hnone.
    unfold Generate.write_input, Generate.lift, mbind, Generate.method_bind,
      Generate.get_xsf_file_list.
    by rewrite (input_elements_ok _ [] [] Hall), Hnone.
  - intros text Hrun.
    assert (Hall : Forall (λ item, is_Some (item.2 !! "energy"))
                     (Generate.elements alg)).
    { apply Forall_forall. intros item Hin.
      destruct (item.2 !! "energy") as [v|] eqn:Hv; [by eexists|].
      assert (Hex : Exists (λ item, item.2 !! "energy" = None)
                      (Generate.elements alg))
        by (apply Exists_exists; eauto).
      unfold Generate.write_input, Generate.lift, mbind,
        Generate.method_bind in Hrun.
      by rewrite (input_elements_missing _ _ Hex) in Hrun. }
    split; [done|].
    destruct (Generate.xsf_file_list c) as [xsfs|] eqn:Hxsfs; [by eexists|].
    unfold Generate.write_input, Generate.lift, mbind, Generate.method_bind,
      Generate.get_xsf_file_list in Hrun.
    by rewrite (input_elements_ok _ [] [] Hall), Hxsfs in Hrun.
Qed.

(** An element without energy, on an object that holds no file list. *)
Lemma write_input_errors_witness :
  (Generate.write_input
     {| Generate.elements := [("Ni", {["energy" := PyFloat "-4676.39"]});
                              ("P", ∅)];
        Generate.timing := PyBool true;
        Generate.debug := PyBool true |}
     [7; 8]%Z
     {| Generate.xsf_file_list := None; Generate.folder := [] |}).1
  = Raise KeyError.
Proof.
  apply write_input_errors.
  apply Exists_cons_tl, Exists_cons_hd. reflexivity.
Defined.

(* ===================================================================== *)
(** * Setup files and the whole preparation                               *)
(* ===================================================================== *)

Section Preparation.
Import Generate.

Lemma setdefault_present (l : loc) (k : string) (v x : pyval) (h : heap) :
  deref h l !! k = Some x → setdefault l k v h = (x, h).
Proof. intros Hk. unfold setdefault. by rewrite Hk. Qed.

(** Once the four keys are there, [chebyshev] changes nothing. *)
Lemma chebyshev_filled (parameters : loc) (h : heap) :
  (∀ k, k ∈ chebyshev_defaults.*1 → is_Some (deref h parameters !! k)) →
  (chebyshev parameters h).2 = h.
Proof.
  intros Hkeys. unfold chebyshev. cbn [snd].
  destruct (Hkeys "radial cutoff") as [x1 H1];
    [apply list_elem_of_here|].
  destruct (Hkeys "radial n") as [x2 H2];
    [apply list_elem_of_further, list_elem_of_here|].
  destruct (Hkeys "angular cutoff") as [x3 H3];
    [do 2 apply list_elem_of_further; apply list_elem_of_here|].
  destruct (Hkeys "angular n") as [x4 H4];
    [do 3 apply list_elem_of_further; apply list_elem_of_here|].
  rewrite (setdefault_present _ _ _ _ _ H1). cbn [snd].
  rewrite (setdefault_present _ _ _ _ _ H2). cbn [snd].
  rewrite (setdefault_present _ _ _ _ _ H3). cbn [snd].
  by rewrite (setdefault_present _ _ _ _ _ H4).
Qed.

Lemma chebyshev_twice (parameters : loc) (h : heap) :
  chebyshev parameters (chebyshev parameters h).2 = chebyshev parameters h.
Proof.
  destruct (chebyshev_store parameters h) as [Hd _].
  assert (Hkeys : ∀ k, k ∈ chebyshev_defaults.*1 →
            is_Some (deref (chebyshev parameters h).2 parameters !! k)).
  { intros k Hk. rewrite Hd. apply lookup_union_is_Some. right.
    apply elem_of_dom. rewrite dom_list_to_map_L.
    by apply elem_of_list_to_set. }
  apply injective_projections.
  - rewrite !chebyshev_lines, Hd. cbv zeta.
    destruct (deref h parameters !! "radial cutoff") eqn:E1,
      (deref h parameters !! "radial n") eqn:E2,
      (deref h parameters !! "angular cutoff") eqn:E3,
      (deref h parameters !! "angular n") eqn:E4;
      rewrite !lookup_union, ?E1, ?E2, ?E3, ?E4; reflexivity.
  - rewrite (chebyshev_filled _ _ Hkeys).
    symmetry. reflexivity.
Qed.

(** A descriptor method that, called again on the store it left, returns
    the same lines and leaves the store alone, gives every element the
    same descriptor lines. *)
Lemma write_setups_loop_settled (descriptor : setup_method)
    (elements todo : list string) (r_min : pyval) (c : calc) (h : heap)
    (lines : list string) :
  descriptor h = (Ok lines, h) →
  write_setups_loop descriptor elements r_min todo c h
  = (Ok (),
     {| xsf_file_list := xsf_file_list c;
        folder := folder c ++ map (stp_file elements r_min lines) todo |},
     h).
Proof.
  intros Hsettled. revert c.
  induction todo as [|element todo IH]; intros c; simpl.
  - rewrite app_nil_r. by destruct c.
  - rewrite Hsettled, IH. simpl. by rewrite <- app_assoc.
Qed.

Lemma write_setups_loop_first (descriptor : setup_method)
    (elements todo : list string) (r_min : pyval) (c : calc) (h h1 : heap)
    (lines : list string) :
  descriptor h = (Ok lines, h1) →
  descriptor h1 = (Ok lines, h1) →
  todo ≠ [] →
  write_setups_loop descriptor elements r_min todo c h
  = (Ok (),
     {| xsf_file_list := xsf_file_list c;
        folder := folder c ++ map (stp_file elements r_min lines) todo |},
     h1).
Proof.
  intros Hfirst Hsettled Hne. destruct todo as [|element todo]; [done|].
  simpl. rewrite Hfirst.
  rewrite (write_setups_loop_settled _ _ _ _ _ _ _ Hsettled). simpl.
  by rewrite <- app_assoc.
Qed.

(** A descriptor method that raises at its first call leaves the folder
    as it was. *)
Lemma write_setups_loop_raise (descriptor : setup_method)
    (elements todo : list string) (r_min : pyval) (c : calc) (h h1 : heap)
    (e : exn) :
  descriptor h = (Raise e, h1) →
  todo ≠ [] →
  write_setups_loop descriptor elements r_min todo c h = (Raise e, c, h1).
Proof.
  intros Hraise Hne. destruct todo as [|element todo]; [done|].
  simpl. by rewrite Hraise.
Qed.

End Preparation.


Section PreparationRuns.
Import Generate.

Lemma write_xsfs_ok (xsf_lines : Z → result (list string))
    (reference_list : list Z) (xsfs : list (list string)) (c : calc) :
  Forall2 (λ pk xsf, xsf_lines pk = Ok xsf) reference_list xsfs →
  let N := length reference_list in
  let names := map (xsf_file_name N) (seq 0 N) in
  write_xsfs xsf_lines reference_list c
  = (Ok (), {| xsf_file_list := Some names;
               folder := folder c ++ zip names (map (join newline) xsfs) |}).
Proof.
  intros Hall N names. unfold write_xsfs, mbind, method_bind. simpl.
  unfold enumerate. by rewrite (for_in_write_xsf _ _ _ _ _ _ _ Hall).
Qed.

Lemma chebyshev_returns (parameters : loc) (h : heap) :
  ∃ lines, chebyshev parameters h
           = (Ok lines, (chebyshev parameters h).2).
Proof.
  pose proof (chebyshev_lines parameters h) as Hlines. cbv zeta in Hlines.
  eexists. apply injective_projections; [exact Hlines|done].
Qed.

End PreparationRuns.

(** X6.  With the Chebyshev descriptor, structures that load and an
    energy for every element, [prepare_for_submission] returns the
    retrieve list [train.dat] after writing, in this order, one
    structure file for each reference structure, one setup file for each
    element, all with the same two descriptor lines, and [generate.in];
    every file that [generate.in] names under [SETUPS] and [FILES] is
    among the files written. *)
Theorem prepare_for_submission_files (xsf_lines : Z → result (list string))
    (alg : Generate.algorithm) (r_min : pyval) (parameters : loc)
    (reference_list : list Z) (xsfs : list (list string))
    (c : Generate.calc) (h : heap) :
  Forall2 (λ pk xsf, xsf_lines pk = Ok xsf) reference_list xsfs →
  Forall (λ item, is_Some (item.2 !! "energy")) (Generate.elements alg) →
  Generate.elements alg ≠ [] →
  let N := length reference_list in
  let xsf_names := map (Generate.xsf_file_name N) (seq 0 N) in
  let keys := (Generate.elements alg).*1 in
  ∃ lines written,
    (Generate.chebyshev parameters h).1 = Ok lines
    ∧ written
      = Generate.folder c
        ++ zip xsf_names (map (join newline) xsfs)
        ++ map (stp_file keys r_min lines) keys
        ++ [("generate.in",
             join newline (generate_in_lines alg N xsf_names))]
    ∧ Generate.prepare_for_submission xsf_lines
        (Generate.chebyshev parameters) alg r_min reference_list c h
      = (Ok ["train.dat"],
         {| Generate.xsf_file_list := Some xsf_names;
            Generate.folder := written |},
         (Generate.chebyshev parameters h).2)
    ∧ ∀ name, name ∈ xsf_names ++ map (λ X, X +:+ ".stp") keys →
              name ∈ written.*1.
Proof.
  intros Hload Henergy Hne N xsf_names keys.
  destruct (chebyshev_returns parameters h) as [lines Hlines].
  exists lines. eexists. split; [by rewrite Hlines|]. split; [reflexivity|].
  split.
  - unfold Generate.prepare_for_submission.
    rewrite (write_xsfs_ok _ _ _ _ Hload). unfold Generate.write_setups.
    rewrite (write_setups_loop_first _ _ _ _ _ _ _ lines Hlines); cycle 1.
    { by rewrite chebyshev_twice. }
    { destruct (Generate.elements alg); [done|]. done. }
    cbn [Generate.xsf_file_list Generate.folder].
    erewrite write_input_ok; [|done|reflexivity].
    cbn [Generate.folder_write snd Generate.xsf_file_list Generate.folder].
    by rewrite <- !app_assoc.
  - intros name Hname. rewrite !fmap_app.
    apply elem_of_app in Hname as [Hname|Hname].
    + apply elem_of_app. right. apply elem_of_app. left.
      rewrite fst_zip; [done|]. subst xsf_names N.
      by rewrite !length_map, length_seq, (Forall2_length _ _ _ Hload).
    + apply elem_of_app. right. apply elem_of_app. right.
      apply elem_of_app. left.
      rewrite <- list_fmap_compose. exact Hname.
Qed.

(** Two structures and the two elements of the documented example. *)
Lemma prepare_for_submission_files_witness :
  (Generate.prepare_for_submission (λ pk, Ok ["# structure"; str_int pk])
     (Generate.chebyshev 1%positive)
     {| Generate.elements :=
          [("Ni", {["energy" := PyFloat "-4676.3936784796315"]});
           ("P", {["energy" := PyFloat "-194.14828627169916"]})];
        Generate.timing := PyBool true;
        Generate.debug := PyBool true |}
     (PyFloat "0.75") [7; 8]%Z
     {| Generate.xsf_file_list := None; Generate.folder := [] |} ∅).1.1
  = Ok ["train.dat"].
Proof.
  destruct (prepare_for_submission_files
              (λ pk, Ok ["# structure"; str_int pk])
              {| Generate.elements :=
                   [("Ni", {["energy" := PyFloat "-4676.3936784796315"]});
                    ("P", {["energy" := PyFloat "-194.14828627169916"]})];
                 Generate.timing := PyBool true;
                 Generate.debug := PyBool true |}
              (PyFloat "0.75") 1%positive [7; 8]%Z
              [["# structure"; "7"]; ["# structure"; "8"]]
              {| Generate.xsf_file_list := None; Generate.folder := [] |} ∅)
    as (lines & written & _ & _ & -> & _).
  - repeat constructor.
  - repeat constructor; by eexists.
  - done.
  - reflexivity.
Defined.

(** X7.  When an element has no energy, [prepare_for_submission] with
    the Chebyshev descriptor raises [KeyError] only after the structure
    files and the setup files are written, and it leaves an empty
    [generate.in] beside them. *)
Theorem prepare_for_submission_missing_energy
    (xsf_lines : Z → result (list string))
    (alg : Generate.algorithm) (r_min : pyval) (parameters : loc)
    (reference_list : list Z) (xsfs : list (list string))
    (c : Generate.calc) (h : heap) :
  Forall2 (λ pk xsf, xsf_lines pk = Ok xsf) reference_list xsfs →
  Exists (λ item, item.2 !! "energy" = None) (Generate.elements alg) →
  let N := length reference_list in
  let xsf_names := map (Generate.xsf_file_name N) (seq 0 N) in
  let keys := (Generate.elements alg).*1 in
  ∃ lines,
    (Generate.chebyshev parameters h).1 = Ok lines
    ∧ Generate.prepare_for_submission xsf_lines
        (Generate.chebyshev parameters) alg r_min reference_list c h
      = (Raise KeyError,
         {| Generate.xsf_file_list := Some xsf_names;
            Generate.folder :=
              Generate.folder c
              ++ zip xsf_names (map (join newline) xsfs)
              ++ map (stp_file keys r_min lines) keys
              ++ [("generate.in", "")] |},
         (Generate.chebyshev parameters h).2).
Proof.
  intros Hload Hmissing N xsf_names keys.
  destruct (chebyshev_returns parameters h) as [lines Hlines].
  exists lines. split; [by rewrite Hlines|].
  unfold Generate.prepare_for_submission.
  rewrite (write_xsfs_ok _ _ _ _ Hload). unfold Generate.write_setups.
  rewrite (write_setups_loop_first _ _ _ _ _ _ _ lines Hlines); cycle 1.
  { by rewrite chebyshev_twice. }
  { destruct (Generate.elements alg); [by apply Exists_nil in Hmissing|done]. }
  cbn [Generate.xsf_file_list Generate.folder].
  unfold Generate.write_input, Generate.lift, mbind, Generate.method_bind.
  rewrite (input_elements_missing _ _ Hmissing).
  cbn [Generate.folder_write snd Generate.xsf_file_list Generate.folder].
  by rewrite <- !app_assoc.
Qed.

(** Two structures; phosphorus has no energy. *)
Lemma prepare_for_submission_missing_energy_witness :
  (Generate.prepare_for_submission (λ pk, Ok ["# structure"; str_int pk])
     (Generate.chebyshev 1%positive)
     {| Generate.elements :=
          [("Ni", {["energy" := PyFloat "-4676.3936784796315"]}); ("P", ∅)];
        Generate.timing := PyBool true;
        Generate.debug := PyBool true |}
     (PyFloat "0.75") [7; 8]%Z
     {| Generate.xsf_file_list := None; Generate.folder := [] |} ∅).1.1
  = Raise KeyError.
Proof.
  destruct (prepare_for_submission_missing_energy
              (λ pk, Ok ["# structure"; str_int pk])
              {| Generate.elements :=
                   [("Ni", {["energy" := PyFloat "-4676.3936784796315"]});
                    ("P", ∅)];
                 Generate.timing := PyBool true;
                 Generate.debug := PyBool true |}
              (PyFloat "0.75") 1%positive [7; 8]%Z
              [["# structure"; "7"]; ["# structure"; "8"]]
              {| Generate.xsf_file_list := None; Generate.folder := [] |} ∅)
    as (lines & _ & ->).
  - repeat constructor.
  - apply Exists_cons_tl, Exists_cons_hd. reflexivity.
  - reflexivity.
Defined.

(** X8.  When the descriptor method raises at its first call,
    [prepare_for_submission] raises the same exception with the
    structure files written and nothing else: no setup file and no
    [generate.in]. *)
Theorem prepare_for_submission_descriptor_raises
    (xsf_lines : Z → result (list string))
    (descriptor : Generate.setup_method)
    (alg : Generate.algorithm) (r_min : pyval)
    (reference_list : list Z) (xsfs : list (list string))
    (c : Generate.calc) (h h1 : heap) (e : exn) :
  Forall2 (λ pk xsf, xsf_lines pk = Ok xsf) reference_list xsfs →
  descriptor h = (Raise e, h1) →
  Generate.elements alg ≠ [] →
  let N := length reference_list in
  let xsf_names := map (Generate.xsf_file_name N) (seq 0 N) in
  Generate.prepare_for_submission xsf_lines descriptor alg r_min
    reference_list c h
  = (Raise e,
     {| Generate.xsf_file_list := Some xsf_names;
        Generate.folder :=
          Generate.folder c ++ zip xsf_names (map (join newline) xsfs) |},
     h1).
Proof.
  intros Hload Hraise Hne N xsf_names.
  unfold Generate.prepare_for_submission.
  rewrite (write_xsfs_ok _ _ _ _ Hload). unfold Generate.write_setups.
  rewrite (write_setups_loop_raise _ _ _ _ _ _ _ _ Hraise); [done|].
  by destruct (Generate.elements alg).
Qed.

(** The Behler descriptor of a ternary alloy, which raises
    [ValueError]. *)
Lemma prepare_for_submission_descriptor_raises_witness :
  let p := {| Generate.cutoff := PyFloat "6.5";
              Generate.g2_etas := [PyFloat "0.1"];
              Generate.g4_etas := [PyFloat "0.01"];
              Generate.g4_lambdas := [PyFloat "1.0"];
              Generate.g4_zetas := [PyFloat "1.0"] |} in
  let descriptor : Generate.setup_method :=
    λ h, (@Generate.behler Generate.first_seen_order ["A"; "B"; "C"] p, h) in
  (Generate.prepare_for_submission (λ pk, Ok ["# structure"; str_int pk])
     descriptor
     {| Generate.elements :=
          [("A", {["energy" := PyFloat "-1.0"]});
           ("B", {["energy" := PyFloat "-2.0"]});
           ("C", {["energy" := PyFloat "-3.0"]})];
        Generate.timing := PyBool true;
        Generate.debug := PyBool true |}
     (PyFloat "0.75") [7; 8]%Z
     {| Generate.xsf_file_list := None; Generate.folder := [] |} ∅)
  = (Raise ValueError,
     {| Generate.xsf_file_list := Some ["1.xsf"; "2.xsf"];
        Generate.folder :=
          [("1.xsf", "# structure" +:+ newline +:+ "7");
           ("2.xsf", "# structure" +:+ newline +:+ "8")] |},
     ∅).
Proof.
  intros p descriptor.
  refine (prepare_for_submission_descriptor_raises
            (λ pk, Ok ["# structure"; str_int pk]) descriptor _
            (PyFloat "0.75") [7; 8]%Z
            [["# structure"; "7"]; ["# structure"; "8"]]
            {| Generate.xsf_file_list := None; Generate.folder := [] |}
            ∅ ∅ ValueError _ _ _).
  - repeat constructor.
  - reflexivity.
  - done.
Defined.

(* ===================================================================== *)
(** * More on the Behler-Parrinello fingerprints                          *)
(* ===================================================================== *)

Section BehlerMore.
Import Generate.
Context `{SetOrder}.






End BehlerMore.



(** X10.  With a number of symbols other than two, and at least one
    zeta, one lambda and one eta of G4, [behler] raises [ValueError]:
    the tuples of the set have as many items as there are symbols, and
    the first that is unpacked does not fit a pair. *)
Theorem behler_other_than_two_symbols `{Generate.SetOrder}
    (symbols : list string) (p : Generate.behler_parameters) :
  length symbols ≠ 2 →
  Generate.g4_zetas p ≠ [] → Generate.g4_lambdas p ≠ [] →
  Generate.g4_etas p ≠ [] →
  Generate.behler symbols p = Raise ValueError
  ∧ ∀ t, t ∈ Generate.set_iter
             (Generate.combinations_with_replacement symbols (length symbols)) →
         length t = length symbols.
Proof.
  intros Hsym Hz Hl He. split.
  - unfold Generate.behler.
    by rewrite (behler_fingerprints_not_binary _ _ Hsym Hz Hl He).
  - intros t Ht. rewrite Generate.set_iter_perm, elem_of_remove_dups in Ht.
    by apply combinations_length in Ht.
Qed.

(** A single symbol. *)
Lemma behler_other_than_two_symbols_witness :
  @Generate.behler Generate.first_seen_order ["A"]
    {| Generate.cutoff := PyFloat "6.5";
       Generate.g2_etas := [PyFloat "0.1"];
       Generate.g4_etas := [PyFloat "0.01"];
       Generate.g4_lambdas := [PyFloat "1.0"];
       Generate.g4_zetas := [PyFloat "1.0"] |}
  = Raise ValueError.
Proof.
  by apply (@behler_other_than_two_symbols Generate.first_seen_order).
Defined.


(* ===================================================================== *)
(** * The attributes of the algorithm node                                *)
(* ===================================================================== *)

Section AlgorithmAttributes.

(** One turn of the loop stores under the name the value the dictionary
    holds under it afterwards. *)
Lemma set_parameter_attributes (parameter_dict : loc) (st : Algorithm.state)
    (attr : string) (value : pyval) :
  let st1 := Algorithm.set_parameter parameter_dict st (attr, value) in
  Algorithm.attributes st1
  = <[attr := default value
                (deref (Algorithm.store st) parameter_dict !! attr)]>
      (Algorithm.attributes st)
  ∧ deref (Algorithm.store st1) parameter_dict !! attr
    = Some (default value (deref (Algorithm.store st) parameter_dict !! attr)).
Proof.
  intros st1. split.
  - subst st1. unfold Algorithm.set_parameter, setdefault.
    by destruct (deref (Algorithm.store st) parameter_dict !! attr).
  - subst st1. rewrite set_parameter_store. cbn [fst snd].
    rewrite setdefault_lookup. by case_decide.
Qed.

Lemma set_parameters_fold_attributes (parameter_dict : loc)
    (rows : list (string * pyval)) (st : Algorithm.state) (k : string) :
  let st' := fold_left (Algorithm.set_parameter parameter_dict) rows st in
  Algorithm.attributes st' !! k
  = if decide (k ∈ rows.*1)
    then deref (Algorithm.store st') parameter_dict !! k
    else Algorithm.attributes st !! k.
Proof.
  revert st. induction rows as [|[attr value] rows IH]; intros st.
  - cbn [fold_left]. rewrite decide_False; [done|]. intros Hk. inversion Hk.
  - cbn [fold_left]. cbn zeta in IH.
    set (st1 := Algorithm.set_parameter parameter_dict st (attr, value)).
    rewrite (IH st1).
    destruct (set_parameter_attributes parameter_dict st attr value)
      as [Hattrs Hdict]. fold st1 in Hattrs, Hdict.
    destruct (set_parameters_fold parameter_dict rows st1) as [Hd _].
    cbn zeta in Hd.
    rewrite fmap_cons. cbn [fst].
    destruct (decide (k ∈ rows.*1)) as [Hin|Hout].
    + rewrite decide_True; [done|]. by apply list_elem_of_further.
    + destruct (decide (k = attr)) as [->|Hne].
      * rewrite decide_True by apply list_elem_of_here.
        rewrite Hattrs, lookup_insert_eq, Hd.
        symmetry. by apply lookup_union_Some_l.
      * rewrite decide_False.
        -- by rewrite Hattrs, lookup_insert_ne.
        -- intros [->|Hin]%elem_of_cons; done.
Qed.

(** A turn of the loop on a name that the dictionary and the attributes
    hold alike changes nothing. *)
Lemma set_parameter_settled (parameter_dict : loc) (st : Algorithm.state)
    (attr : string) (value x : pyval) :
  deref (Algorithm.store st) parameter_dict !! attr = Some x →
  Algorithm.attributes st !! attr = Some x →
  Algorithm.set_parameter parameter_dict st (attr, value) = st.
Proof.
  intros Hd Ha. unfold Algorithm.set_parameter, setdefault. rewrite Hd.
  destruct st as [h attrs]. simpl in *. f_equal. by apply insert_id.
Qed.

Lemma set_parameters_fold_settled (parameter_dict : loc)
    (rows : list (string * pyval)) (st : Algorithm.state) :
  (∀ k, k ∈ rows.*1 →
        is_Some (Algorithm.attributes st !! k)
        ∧ Algorithm.attributes st !! k
          = deref (Algorithm.store st) parameter_dict !! k) →
  fold_left (Algorithm.set_parameter parameter_dict) rows st = st.
Proof.
  induction rows as [|[attr value] rows IH]; intros Hall; [done|].
  cbn [fold_left].
  destruct (Hall attr) as [[x Hx] Heq]; [apply list_elem_of_here|].
  rewrite (set_parameter_settled _ _ _ _ x); [|by rewrite <- Heq|done].
  apply IH. intros k Hk. apply Hall. rewrite fmap_cons.
  by apply list_elem_of_further.
Qed.

(** The dictionary holds every default name once the loop has run. *)
Lemma set_parameters_fold_holds (parameter_dict : loc)
    (rows : list (string * pyval)) (st : Algorithm.state) (k : string) :
  k ∈ rows.*1 →
  is_Some (deref (Algorithm.store
                    (fold_left (Algorithm.set_parameter parameter_dict) rows st))
             parameter_dict !! k).
Proof.
  intros Hk. destruct (set_parameters_fold parameter_dict rows st) as [Hd _].
  cbn zeta in Hd. rewrite Hd.
  destruct (deref (Algorithm.store st) parameter_dict !! k) as [x|] eqn:Hx.
  - exists x. by apply lookup_union_Some_l.
  - rewrite lookup_union_r by done.
    apply list_elem_of_fmap in Hk as [[k' v] [-> Hin]].
    apply elem_of_dom. rewrite dom_list_to_map_L.
    apply elem_of_list_to_set, list_elem_of_fmap. by exists (k', v).
Qed.

(** The loop of [set_training] is a union with the defaults, on the one
    dictionary. *)
Lemma set_training_fold (parameters : loc) (rows : list (string * pyval))
    (h : heap) :
  let h' := fold_left (λ h '(attr, default),
                         (setdefault parameters attr default h).2) rows h in
  deref h' parameters = deref h parameters ∪ list_to_map rows
  ∧ ∀ l, l ≠ parameters → h' !! l = h !! l.
Proof.
  revert h. induction rows as [|[attr value] rows IH]; intros h.
  - split; [|done]. simpl. by rewrite (right_id_L ∅ (∪)).
  - cbn [fold_left].
    destruct (IH (setdefault parameters attr value h).2) as [Hd Hframe].
    split.
    + rewrite Hd, setdefault_deref, <- (assoc_L (∪)). simpl.
      by rewrite <- insert_union_singleton_l.
    + intros l Hl. by rewrite Hframe, setdefault_frame.
Qed.

Lemma locals_defaults_ok (name : string) (rows : list (string * pyval)) :
  Algorithm.locals_defaults name = Ok rows ↔
  (name = "lm_defaults" ∧ rows = Algorithm.lm_defaults)
  ∨ (name = "gd_defaults" ∧ rows = Algorithm.gd_defaults).
Proof.
  unfold Algorithm.locals_defaults. repeat case_decide; subst.
  - split; [intros [= <-]; by left|]. intros [[_ ->]|[? _]]; done.
  - split; [intros [= <-]; by right|]. intros [[? _]|[_ ->]]; done.
  - split; [done|]. intros [[? _]|[? _]]; done.
Qed.

End AlgorithmAttributes.

(** X12.  [set_parameters] sets each of the nine attributes to the value
    the caller's dictionary held under that name, or to the default when
    it held none; this is the value the dictionary holds afterwards.
    Attributes of other names are left as they were. *)
Theorem set_parameters_attributes (parameter_dict : loc)
    (st : Algorithm.state) (attr : string) (value : pyval) :
  (attr, value) ∈ Algorithm.defaults →
  let st' := Algorithm.set_parameters parameter_dict st in
  Algorithm.attributes st' !! attr
  = Some (default value
            (deref (Algorithm.store st) parameter_dict !! attr))
  ∧ Algorithm.attributes st' !! attr
    = deref (Algorithm.store st') parameter_dict !! attr
  ∧ ∀ k, k ∉ Algorithm.defaults.*1 →
         Algorithm.attributes st' !! k = Algorithm.attributes st !! k.
Proof.
  intros Hin st'.
  assert (Hkey : attr ∈ Algorithm.defaults.*1).
  { apply list_elem_of_fmap. by exists (attr, value). }
  pose proof (set_parameters_fold_attributes parameter_dict
                Algorithm.defaults st) as Hattrs. cbn zeta in Hattrs.
  fold (Algorithm.set_parameters parameter_dict st) in Hattrs. fold st' in Hattrs.
  assert (Hsame : Algorithm.attributes st' !! attr
                  = deref (Algorithm.store st') parameter_dict !! attr).
  { by rewrite Hattrs, decide_True. }
  split; [|split; [done|]].
  - rewrite Hsame.
    destruct (set_parameters_fold parameter_dict Algorithm.defaults st)
      as [Hd _]. cbn zeta in Hd.
    fold (Algorithm.set_parameters parameter_dict st) in Hd. fold st' in Hd.
    rewrite Hd.
    destruct (deref (Algorithm.store st) parameter_dict !! attr) as [x|] eqn:Hx.
    + by apply lookup_union_Some_l.
    + rewrite lookup_union_r by done.
      apply elem_of_list_to_map; [compute_done|done].
  - intros k Hk. by rewrite Hattrs, decide_False.
Qed.

(** The epoch count of the caller is kept. *)
Lemma set_parameters_attributes_witness :
  let st := {| Algorithm.store := {[1%positive := {["epochs" := PyInt 50]}]};
               Algorithm.attributes := ∅ |} in
  Algorithm.attributes (Algorithm.set_parameters 1%positive st) !! "epochs"
  = Some (PyInt 50).
Proof.
  intros st.
  refine (proj1 (set_parameters_attributes 1%positive st "epochs" (PyInt 10) _)).
  unfold Algorithm.defaults.
  do 6 apply list_elem_of_further. apply list_elem_of_here.
Defined.

(** X13.  [set_parameters] is idempotent: a second call with the same
    dictionary changes neither the dictionary nor an attribute. *)
Theorem set_parameters_idempotent (parameter_dict : loc)
    (st : Algorithm.state) :
  Algorithm.set_parameters parameter_dict
    (Algorithm.set_parameters parameter_dict st)
  = Algorithm.set_parameters parameter_dict st.
Proof.
  unfold Algorithm.set_parameters at 1.
  apply set_parameters_fold_settled. intros k Hk.
  pose proof (set_parameters_fold_attributes parameter_dict
                Algorithm.defaults st k) as Hattrs. cbn zeta in Hattrs.
  rewrite decide_True in Hattrs by done.
  unfold Algorithm.set_parameters. rewrite Hattrs. split; [|done].
  by apply set_parameters_fold_holds.
Qed.

(** X14.  For the type [lm] or [gd] and a parameters dictionary,
    [set_training] returns; the dictionary is the one it was handed,
    with the defaults of the type filled in under the absent names and
    its own entries kept, and these contents are what is set as the
    training parameters.  No other dictionary is touched. *)
Theorem set_training_fills_defaults (training : Algorithm.training_dict)
    (st : Algorithm.training_state) (type : pyval) (parameters : loc)
    (rows : list (string * pyval)) :
  Algorithm.t_type training = Some type →
  Algorithm.t_parameters training = Some parameters →
  (pystr type = "lm" ∧ rows = Algorithm.lm_defaults)
  ∨ (pystr type = "gd" ∧ rows = Algorithm.gd_defaults) →
  let d := deref (Algorithm.t_store st) parameters in
  let st' := (Algorithm.set_training training st).2 in
  (Algorithm.set_training training st).1 = Ok ()
  ∧ deref (Algorithm.t_store st') parameters = d ∪ list_to_map rows
  ∧ Algorithm.training_parameters st' = Some (d ∪ list_to_map rows)
  ∧ (∀ k v, d !! k = Some v → (d ∪ list_to_map rows) !! k = Some v)
  ∧ (∀ k v, d !! k = None → (k, v) ∈ rows →
            (d ∪ list_to_map rows) !! k = Some v)
  ∧ ∀ l, l ≠ parameters →
         Algorithm.t_store st' !! l = Algorithm.t_store st !! l.
Proof.
  intros Htype Hparams Hrows d st'.
  assert (Hlocals : Algorithm.locals_defaults (pystr type +:+ "_defaults")
                    = Ok rows).
  { apply locals_defaults_ok. destruct Hrows as [[-> ->]|[-> ->]]; auto. }
  assert (Hnd : NoDup rows.*1).
  { destruct Hrows as [[_ ->]|[_ ->]]; compute_done. }
  subst st'. unfold Algorithm.set_training.
  rewrite Htype, Hlocals, Hparams. cbn [fst snd Algorithm.t_store
    Algorithm.training_parameters].
  destruct (set_training_fold parameters rows (Algorithm.t_store st))
    as [Hd Hframe]. cbn zeta in Hd, Hframe.
  split; [done|]. split; [exact Hd|]. split; [by rewrite Hd|].
  split; [|split; [|exact Hframe]].
  - intros k v Hk. by apply lookup_union_Some_l.
  - intros k v Hk Hin. rewrite lookup_union_r by done.
    by apply elem_of_list_to_map.
Qed.

(** Gradient descent with a learning rate of the caller: the rate stays,
    the momentum rate is filled in. *)
Lemma set_training_fills_defaults_witness :
  let training := {| Algorithm.t_type := Some (PyStr "gd");
                     Algorithm.t_parameters := Some 1%positive |} in
  let st := {| Algorithm.t_store :=
                 {[1%positive := {["learn_rate" := PyFloat "0.01"]}]};
               Algorithm.training_parameters := None |} in
  Algorithm.training_parameters (Algorithm.set_training training st).2
  = Some (deref (Algorithm.t_store st) 1%positive
          ∪ list_to_map Algorithm.gd_defaults).
Proof.
  intros training st.
  refine (proj1 (proj2 (proj2
    (set_training_fills_defaults training st (PyStr "gd") 1%positive
       Algorithm.gd_defaults eq_refl eq_refl _)))).
  right. split; reflexivity.
Defined.

(** X15.  [set_training] raises, and then [KeyError], exactly when the
    dictionary has no type, or a type other than [lm] and [gd], or no
    parameters; the store and the attribute are then as they were. *)
Theorem set_training_raises (training : Algorithm.training_dict)
    (st : Algorithm.training_state) :
  ((Algorithm.set_training training st).1 = Raise KeyError ↔
   (Algorithm.set_training training st).1 ≠ Ok ())
  ∧ ((Algorithm.set_training training st).1 = Raise KeyError ↔
     Algorithm.t_type training = None
     ∨ (∃ type, Algorithm.t_type training = Some type
                ∧ pystr type ≠ "lm" ∧ pystr type ≠ "gd")
     ∨ Algorithm.t_parameters training = None)
  ∧ ((Algorithm.set_training training st).1 = Raise KeyError →
     (Algorithm.set_training training st).2 = st).
Proof.
  unfold Algorithm.set_training.
  destruct (Algorithm.t_type training) as [type|] eqn:Htype; cycle 1.
  { cbn. repeat split; auto; try done. }
  unfold Algorithm.locals_defaults.
  destruct (decide (pystr type = "lm")) as [Hlm|Hlm].
  { rewrite Hlm. cbn [decide]. rewrite decide_True by done.
    destruct (Algorithm.t_parameters training) as [l|]; cbn.
    - repeat split; try done.
      intros [?|[(ty & [= <-] & ? & _)|?]]; done.
    - repeat split; auto; done. }
  destruct (decide (pystr type = "gd")) as [Hgd|Hgd].
  { rewrite Hgd. rewrite decide_False by done. rewrite decide_True by done.
    destruct (Algorithm.t_parameters training) as [l|]; cbn.
    - repeat split; try done.
      intros [?|[(ty & [= <-] & _ & ?)|?]]; done.
    - repeat split; auto; done. }
  assert (Hne : ∀ s, pystr type ≠ s →
            pystr type +:+ "_defaults" ≠ s +:+ "_defaults").
  { intros s Hs Heq. apply Hs. by apply string_app_inv_tail in Heq. }
  rewrite decide_False by (exact (Hne "lm" Hlm)).
  rewrite decide_False by (exact (Hne "gd" Hgd)). cbn.
  repeat split; try done. intros _. right. left. by exists type.
Qed.

(** A dictionary with a method and no type. *)
Lemma set_training_raises_witness :
  let training := {| Algorithm.t_type := None;
                     Algorithm.t_parameters := Some 1%positive |} in
  let st := {| Algorithm.t_store := ∅;
               Algorithm.training_parameters := None |} in
  Algorithm.set_training training st = (Raise KeyError, st).
Proof.
  intros training st.
  destruct (set_training_raises training st) as (_ & [_ Hraise] & Hstate).
  assert (Hrun : (Algorithm.set_training training st).1 = Raise KeyError)
    by (apply Hraise; by left).
  specialize (Hstate Hrun).
  destruct (Algorithm.set_training training st) as [r st'].
  simpl in *. by subst.
Defined.

(* ===================================================================== *)
(** * The input file of the train calculation                             *)
(* ===================================================================== *)

Section TrainInput.
Import TrainCalc.

Lemma layer_token_cases (layer : gmap string pyval) :
  (complete_layer layer ∧ layer_token layer = Ok (layer_text layer))
  ∨ (¬ complete_layer layer ∧ layer_token layer = Raise KeyError).
Proof.
  unfold complete_layer, layer_token, layer_text, getitem.
  destruct (layer !! "nodes") as [n|]; cbn.
  - destruct (layer !! "activation") as [a|]; cbn.
    + left. eauto.
    + right. split; [|done]. by intros [_ [? ?]].
  - right. split; [|done]. by intros [[? ?] _].
Qed.

Lemma tokens_cases (network : list (gmap string pyval)) (acc : list string) :
  let loop :=
    for_each (λ ts layer, t ← layer_token layer; Ok (ts ++ [t])) network acc in
  (Forall complete_layer network ∧ loop = Ok (acc ++ map layer_text network))
  ∨ (¬ Forall complete_layer network ∧ loop = Raise KeyError).
Proof.
  revert acc. induction network as [|layer network IH]; intros acc.
  - left. split; [constructor|]. simpl. by rewrite app_nil_r.
  - cbn zeta. rewrite for_each_cons.
    destruct (layer_token_cases layer) as [[Hl ->]|[Hl ->]].
    + rewrite bind_ok. cbn.
      destruct (IH (acc ++ [layer_text layer])) as [[Hn Hrun]|[Hn Hrun]];
        cbn zeta in Hrun; rewrite Hrun.
      * left. split; [by constructor|]. by rewrite <- app_assoc.
      * right. split; [|done]. intros Hall. apply Hn.
        by apply Forall_cons_1 in Hall as [_ ?].
    + right. split; [|done]. intros Hall.
      by apply Forall_cons_1 in Hall as [? _].
Qed.

Lemma network_line_cases (acc : list string)
    (item : string * option (list (gmap string pyval))) :
  (complete_network item
   ∧ network_line acc item = Ok (acc ++ [network_text item]))
  ∨ (¬ complete_network item ∧ network_line acc item = Raise KeyError).
Proof.
  destruct item as [element [network|]]; unfold network_line, complete_network.
  - cbn [snd]. rewrite bind_ok.
    destruct (tokens_cases network []) as [[Hn Hrun]|[Hn Hrun]];
      cbn zeta in Hrun; rewrite Hrun.
    + left. split; [by exists network|done].
    + right. split; [|done]. intros (network' & [= <-] & Hall). by apply Hn.
  - right. split; [|done]. by intros (network' & [=] & _).
Qed.

Lemma networks_cases
    (items : list (string * option (list (gmap string pyval))))
    (acc : list string) :
  (Forall complete_network items
   ∧ for_each network_line items acc = Ok (acc ++ map network_text items))
  ∨ (¬ Forall complete_network items
     ∧ for_each network_line items acc = Raise KeyError).
Proof.
  revert acc. induction items as [|item items IH]; intros acc.
  - left. split; [constructor|]. simpl. by rewrite app_nil_r.
  - rewrite for_each_cons.
    destruct (network_line_cases acc item) as [[Hi ->]|[Hi ->]].
    + rewrite bind_ok. destruct (IH (acc ++ [network_text item]))
        as [[Hn ->]|[Hn ->]].
      * left. split; [by constructor|]. by rewrite <- app_assoc.
      * right. split; [|done]. intros Hall. apply Hn.
        by apply Forall_cons_1 in Hall as [_ ?].
    + right. split; [|done]. intros Hall.
      by apply Forall_cons_1 in Hall as [? _].
Qed.

End TrainInput.

(** X16.  [write_input] of the train calculation raises [KeyError]
    exactly when an element has no network or a layer of a network
    lacks its nodes or its activation; it raises [TypeError] exactly
    when every network is complete and the training method is no
    string; it raises nothing else. *)
Theorem train_write_input_errors (alg : TrainCalc.algorithm) :
  (TrainCalc.write_input alg = Raise KeyError ↔
   ¬ Forall complete_network (TrainCalc.elements alg))
  ∧ (TrainCalc.write_input alg = Raise TypeError ↔
     Forall complete_network (TrainCalc.elements alg)
     ∧ ∀ method, TrainCalc.train_method alg ≠ PyStr method)
  ∧ ∀ e, TrainCalc.write_input alg = Raise e → e = KeyError ∨ e = TypeError.
Proof.
  unfold TrainCalc.write_input.
  destruct (networks_cases (TrainCalc.elements alg)
              ["NETWORKS"; "! atom   network         hidden";
               "! types  file-name       layers  nodes:activation"])
    as [[Hn ->]|[Hn ->]].
  - rewrite bind_ok. split; [|split].
    + split; [by destruct (TrainCalc.train_method alg)|].
      intros Hnot. by destruct (Hnot Hn).
    + split.
      * intros Hrun. split; [done|]. intros method Hm.
        by rewrite Hm in Hrun.
      * intros [_ Hne]. destruct (TrainCalc.train_method alg) as [| | | |m|];
          try done. by destruct (Hne m).
    + intros e Hrun. right.
      destruct (TrainCalc.train_method alg); congruence.
  - cbn. split; [done|]. split.
    + split; [done|]. by intros [Hall _].
    + intros e [= <-]. by left.
Qed.

(** An element without a network; a method that is a number. *)
Lemma train_write_input_errors_witness :
  let alg elements method :=
    {| TrainCalc.elements := elements;
       TrainCalc.test_percent := PyInt 10;
       TrainCalc.epochs := PyInt 10;
       TrainCalc.max_energy := PyFloat "0.0";
       TrainCalc.save_energies := PyBool true;
       TrainCalc.timing := PyBool false;
       TrainCalc.debug := PyBool false;
       TrainCalc.train_method := method |} in
  TrainCalc.write_input (alg [("Ni", None)] (PyStr "bfgs")) = Raise KeyError
  ∧ TrainCalc.write_input (alg [] (PyInt 1)) = Raise TypeError.
Proof.
  intros alg. split.
  - apply (proj1 (train_write_input_errors _)). intros Hall.
    apply Forall_singleton in Hall as (network & Hnone & _). discriminate Hnone.
  - apply (proj1 (proj2 (train_write_input_errors _))).
    split; [constructor|]. intros method. discriminate.
Defined.

(** X17.  When every network is complete and the training method is a
    string, [write_input] of the train calculation returns the lines of
    [train.in] joined by newlines: the settings, the method, and one
    line per element in the order of the elements, with the file of the
    element, the number of its layers and their nodes and activations. *)
Theorem train_write_input_lines (alg : TrainCalc.algorithm)
    (method : string) :
  Forall complete_network (TrainCalc.elements alg) →
  TrainCalc.train_method alg = PyStr method →
  TrainCalc.write_input alg = Ok (join newline (train_in_lines alg method)).
Proof.
  intros Hall Hm. unfold TrainCalc.write_input.
  destruct (networks_cases (TrainCalc.elements alg)
              ["NETWORKS"; "! atom   network         hidden";
               "! types  file-name       layers  nodes:activation"])
    as [[_ ->]|[Hn _]]; [|done].
  rewrite bind_ok, Hm. unfold train_in_lines. do 2 f_equal.
  destruct (truthy (TrainCalc.save_energies alg)),
    (truthy (TrainCalc.timing alg)), (truthy (TrainCalc.debug alg));
    reflexivity.
Qed.

(** One element with two layers, trained with [bfgs]. *)
Lemma train_write_input_lines_witness :
  let layer : gmap string pyval :=
    {["nodes" := PyInt 2; "activation" := PyStr "tanh"]} in
  let alg := {| TrainCalc.elements := [("Ni", Some [layer; layer])];
                TrainCalc.test_percent := PyInt 10;
                TrainCalc.epochs := PyInt 10;
                TrainCalc.max_energy := PyFloat "0.0";
                TrainCalc.save_energies := PyBool true;
                TrainCalc.timing := PyBool false;
                TrainCalc.debug := PyBool false;
                TrainCalc.train_method := PyStr "bfgs" |} in
  TrainCalc.write_input alg = Ok (join newline (train_in_lines alg "bfgs")).
Proof.
  intros layer alg. apply train_write_input_lines; [|reflexivity].
  apply Forall_singleton. exists [layer; layer]. split; [reflexivity|].
  assert (Hl : complete_layer layer) by (split; by eexists).
  by repeat constructor.
Defined.

(* ===================================================================== *)
(** * The input file of the predict calculation                           *)
(* ===================================================================== *)

Section PredictInput.
Import PredictCalc.

Lemma strings_PyStr (items : list string) :
  strings (map PyStr items) = Ok items.
Proof.
  induction items as [|s items IH]; [done|]. simpl. by rewrite IH.
Qed.

Lemma strings_app_PyStr (front : list string) (items : list pyval) :
  strings (map PyStr front ++ items)
  = rest ← strings items; Ok (front ++ rest).
Proof.
  induction front as [|s front IH]; simpl.
  - by destruct (strings items).
  - rewrite IH. by destruct (strings items).
Qed.

(** An item that is no string makes the join raise. *)
Lemma strings_not_str (front : list string) (v : pyval) (items : list pyval) :
  (∀ s, v ≠ PyStr s) → strings (map PyStr front ++ v :: items) = Raise TypeError.
Proof.
  intros Hv. rewrite strings_app_PyStr.
  destruct v as [| | | |s|]; try done. by destruct (Hv s).
Qed.

Lemma py_join_not_str (sep : string) (front : list string) (v : pyval)
    (items : list pyval) :
  (∀ s, v ≠ PyStr s) →
  py_join sep (map PyStr front ++ PyStr "RELAX" :: v :: items)
  = Raise TypeError.
Proof.
  intros Hv. unfold py_join. rewrite strings_app_PyStr. cbn.
  destruct v as [| | | |s|]; try done. by destruct (Hv s).
Qed.

Lemma py_join_strings (sep : string) (front mid back : list string) :
  py_join sep (map PyStr front ++ map PyStr mid ++ map PyStr back)
  = Ok (join sep (front ++ mid ++ back)).
Proof. unfold py_join. by rewrite <- !map_app, strings_PyStr. Qed.

Lemma str_or_not (v : pyval) : (∃ s, v = PyStr s) ∨ ∀ s, v ≠ PyStr s.
Proof. destruct v; eauto. Qed.

(** The items of the list that [write_input] joins, for a relaxation
    entry [relax]: all but [relax] are strings. *)
Lemma write_input_items (alg : algorithm) (reference_list : list Z)
    (c : Generate.calc) (xsfs : list string) :
  Generate.xsf_file_list c = Some xsfs →
  ∃ front back : list string,
    front = ["TYPES"; str_nat (length (elements alg))] ++ elements alg
            ++ [""; "NETWORKS"]
            ++ map (λ X, ljust 3 X +:+ "  " +:+ X +:+ ".nn") (elements alg)
            ++ [""]
            ++ (if truthy (predict_forces alg) then ["FORCES"] else [])
    ∧ back = (if truthy (timing alg) then ["TIMING"] else [])
             ++ [""; "FILES"; str_nat (length reference_list)] ++ xsfs
    ∧ write_input alg reference_list c
      = (py_join newline
           (map PyStr front
            ++ (if truthy (predict_relax alg)
                then [PyStr "RELAX"; predict_relax alg] else [])
            ++ map PyStr back), c).
Proof.
  intros Hx. eexists. eexists. split; [reflexivity|]. split; [reflexivity|].
  unfold write_input. rewrite Hx. f_equal. f_equal.
  destruct (truthy (predict_forces alg)), (truthy (predict_relax alg)),
    (truthy (timing alg));
    rewrite ?map_app, ?map_map, <- ?app_assoc; reflexivity.
Qed.

End PredictInput.

(** X18.  [write_input] of the predict calculation never changes the
    calculation.  It raises [AttributeError] exactly when no list of
    file names was set; with a list set it raises [TypeError] exactly
    when the relaxation flag is true in a condition and is no string,
    as the flag [True] is, and returns otherwise. *)
Theorem predict_write_input_errors (alg : PredictCalc.algorithm)
    (reference_list : list Z) (c : Generate.calc) :
  let run := PredictCalc.write_input alg reference_list c in
  run.2 = c
  ∧ (run.1 = Raise AttributeError ↔ Generate.xsf_file_list c = None)
  ∧ (run.1 = Raise TypeError ↔
     is_Some (Generate.xsf_file_list c)
     ∧ truthy (PredictCalc.predict_relax alg) = true
     ∧ ∀ s, PredictCalc.predict_relax alg ≠ PyStr s)
  ∧ ((∃ text, run.1 = Ok text) ↔
     is_Some (Generate.xsf_file_list c)
     ∧ (truthy (PredictCalc.predict_relax alg) = false
        ∨ ∃ s, PredictCalc.predict_relax alg = PyStr s)).
Proof.
  intros run. subst run.
  destruct (Generate.xsf_file_list c) as [xsfs|] eqn:Hx; cycle 1.
  { unfold PredictCalc.write_input. rewrite Hx. cbn [fst snd].
    split; [done|]. split; [done|]. split.
    - split; [done|]. by intros [[? ?] _].
    - split; [by intros [? ?]|]. by intros [[? ?] _]. }
  destruct (write_input_items alg reference_list c xsfs Hx)
    as (front & back & _ & _ & ->). cbn [fst snd].
  split; [done|].
  destruct (truthy (PredictCalc.predict_relax alg)) eqn:Ht.
  - destruct (str_or_not (PredictCalc.predict_relax alg)) as [[s Hr]|Hr].
    + rewrite Hr. change [PyStr "RELAX"; PyStr s] with (map PyStr ["RELAX"; s]).
      rewrite py_join_strings.
      split; [split; [done|by intros [=]]|].
      split; [split; [done|]; intros (_ & _ & Hne); by destruct (Hne s)|].
      split; [|by eauto]. intros _. split; [by eauto|]. right. by exists s.
    + change ([PyStr "RELAX"; ?v] ++ ?l) with (PyStr "RELAX" :: v :: l).
      rewrite py_join_not_str by done.
      split; [split; [done|by intros [=]]|].
      split; [split; [by eauto|done]|].
      split; [by intros [? ?]|].
      intros [_ [?|[s Hs]]]; [done|]. by destruct (Hr s).
  - change (map PyStr front ++ [] ++ map PyStr back)
      with (map PyStr front ++ map PyStr [] ++ map PyStr back).
    rewrite py_join_strings.
    split; [split; [done|by intros [=]]|].
    split; [split; [done|]; by intros (_ & ? & _)|].
    split; [|by eauto]. intros _. split; [by eauto|]. by left.
Qed.

(** The flag [True] for the relaxation. *)
Lemma predict_write_input_errors_witness :
  let alg := {| PredictCalc.elements := ["Ni"];
                PredictCalc.predict_forces := PyBool false;
                PredictCalc.predict_relax := PyBool true;
                PredictCalc.timing := PyBool false |} in
  let c := {| Generate.xsf_file_list := Some ["1.xsf"];
              Generate.folder := [] |} in
  (PredictCalc.write_input alg [7%Z] c).1 = Raise TypeError.
Proof.
  intros alg c.
  apply (proj1 (proj2 (proj2 (predict_write_input_errors alg [7%Z] c)))).
  split; [by eexists|]. split; [reflexivity|]. intros s. discriminate.
Defined.

(** X19.  With the list of file names set and a relaxation flag that is
    false in a condition, [write_input] of the predict calculation
    returns the lines of [predict.in] joined by newlines, without a
    line of relaxation; with a non-empty string for the flag, the lines
    hold [RELAX] and the string after it. *)
Theorem predict_write_input_lines (alg : PredictCalc.algorithm)
    (reference_list : list Z) (c : Generate.calc) (xsfs relax : list string) :
  Generate.xsf_file_list c = Some xsfs →
  (truthy (PredictCalc.predict_relax alg) = false ∧ relax = [])
  ∨ (∃ s, PredictCalc.predict_relax alg = PyStr s ∧ s ≠ ""
          ∧ relax = ["RELAX"; s]) →
  PredictCalc.write_input alg reference_list c
  = (Ok (join newline
           (predict_in_lines alg relax (length reference_list) xsfs)), c).
Proof.
  intros Hx Hrelax.
  destruct (write_input_items alg reference_list c xsfs Hx)
    as (front & back & -> & -> & ->).
  f_equal. unfold predict_in_lines.
  destruct Hrelax as [[-> ->]|(s & Hr & Hs & ->)].
  - change (map PyStr ?f ++ [] ++ map PyStr ?b)
      with (map PyStr f ++ map PyStr [] ++ map PyStr b).
    rewrite py_join_strings. by rewrite <- !app_assoc.
  - rewrite Hr. cbn [truthy]. rewrite bool_decide_eq_false_2 by done.
    cbn [negb]. change [PyStr "RELAX"; PyStr s] with (map PyStr ["RELAX"; s]).
    rewrite py_join_strings. by rewrite <- !app_assoc.
Qed.

(** Two elements, forces, no relaxation, two structures. *)
Lemma predict_write_input_lines_witness :
  let alg := {| PredictCalc.elements := ["Ni"; "P"];
                PredictCalc.predict_forces := PyBool true;
                PredictCalc.predict_relax := PyBool false;
                PredictCalc.timing := PyBool false |} in
  let c := {| Generate.xsf_file_list := Some ["1.xsf"; "2.xsf"];
              Generate.folder := [] |} in
  (PredictCalc.write_input alg [7%Z; 9%Z] c).1
  = Ok (join newline
          ["TYPES"; "2"; "Ni"; "P"; ""; "NETWORKS"; "Ni   Ni.nn"; "P    P.nn";
           ""; "FORCES"; ""; "FILES"; "2"; "1.xsf"; "2.xsf"]).
Proof.
  intros alg c.
  refine (f_equal fst (predict_write_input_lines alg [7%Z; 9%Z] c
                         ["1.xsf"; "2.xsf"] [] eq_refl _)).
  left. split; reflexivity.
Defined.

(* ===================================================================== *)
(** * The input lines of a potential                                      *)
(* ===================================================================== *)

Section PotentialLines.

Lemma prefix_strip_prefix (p s : string) :
  String.prefix p s = false → strip_prefix p s = None.
Proof.
  revert s. induction p as [|a p IH]; intros [|b s]; simpl; try done.
  destruct (Ascii.ascii_dec a b) as [->|Hne].
  - rewrite decide_True by done. apply IH.
  - by rewrite decide_False.
Qed.

(** A text without the old string is left as it is. *)
Lemma replace_fuel_absent (fuel : nat) (old new s : string) :
  contains old s = false → replace_fuel fuel old new s = s.
Proof.
  revert s. induction fuel as [|fuel IH]; intros s Hs; [done|].
  cbn [replace_fuel]. destruct s as [|c s].
  - change (String.prefix old "" || false = false) in Hs.
    apply orb_false_elim in Hs as [Hp _].
    by rewrite (prefix_strip_prefix _ _ Hp).
  - change (String.prefix old (String c s) || contains old s = false) in Hs.
    apply orb_false_elim in Hs as [Hp Hrest].
    rewrite (prefix_strip_prefix _ _ Hp). f_equal. by apply IH.
Qed.

End PotentialLines.

(** X20.  [get_input_lines] returns the content of the file as it is
    when no symbols are given, when the list of symbols is empty, and
    when the content does not hold the placeholder.  On the template of
    the [ANN] potential it puts the symbols, separated by spaces, in
    the place of both placeholders. *)
Theorem get_input_lines_placeholders (content : string)
    (kind_symbols : list string) :
  Potential.get_input_lines content None = content
  ∧ Potential.get_input_lines content (Some []) = content
  ∧ (contains "__kinds__" content = false →
     Potential.get_input_lines content (Some kind_symbols) = content)
  ∧ (kind_symbols ≠ [] →
     Potential.get_input_lines Potential.get_input_potential_lines
       (Some kind_symbols)
     = "pair_style      aenet" +:+ newline +:+
       "pair_coeff      * * v-1 " +:+ join " " kind_symbols +:+ " nn " +:+
       join " " kind_symbols +:+ newline).
Proof.
  split; [done|]. split; [done|]. split.
  - intros Habsent. destruct kind_symbols as [|k ks]; [done|].
    by apply replace_fuel_absent.
  - intros Hne. destruct kind_symbols as [|k ks]; [done|].
    unfold Potential.get_input_lines. generalize (join " " (k :: ks)).
    intros kinds. reflexivity.
Qed.

(** The elements S and Cr. *)
Lemma get_input_lines_placeholders_witness :
  Potential.get_input_lines Potential.get_input_potential_lines
    (Some ["S"; "Cr"])
  = "pair_style      aenet" +:+ newline +:+
    "pair_coeff      * * v-1 S Cr nn S Cr" +:+ newline.
Proof.
  exact (proj2 (proj2 (proj2
           (get_input_lines_placeholders "" ["S"; "Cr"]))) ltac:(done)).
Defined.

(* ===================================================================== *)
(** * The exceptions and the lengths of the training parser               *)
(* ===================================================================== *)

Section TrainOutputRows.
Import Numpy TrainParser.
Context `{Floats}.

Lemma header_loop_bound (i : nat) (lines : list string) (last : option nat) :
  lines ≠ [] ∨ is_Some last → is_Some (header_loop i lines last).
Proof.
  revert i last. induction lines as [|line lines IH]; intros i last Hsome.
  - destruct Hsome as [?|?]; done.
  - simpl. destruct (contains header line); [by eexists|].
    apply IH. right. by eexists.
Qed.

(** The index is asked for only when the string is in the list. *)
Lemma mem_index (x : string) (l : list string) :
  mem x l = true → ∃ i, index x l = Ok i.
Proof.
  unfold mem. intros Hin%bool_decide_eq_true.
  induction l as [|y l IH]; [inversion Hin|].
  simpl. case_decide as Hy; [by eexists|].
  apply elem_of_cons in Hin as [->|Hin]; [done|].
  destruct (IH Hin) as [i ->]. by eexists.
Qed.

Lemma select_epoch_lines_cases (lines : list string) (n_epochs : Z) :
  (lines = [] ∧ select_epoch_lines lines n_epochs = Raise UnboundLocalError)
  ∨ (lines ≠ [] ∧ ∃ kept, select_epoch_lines lines n_epochs = Ok kept).
Proof.
  destruct lines as [|line lines]; [by left|]. right. split; [done|].
  unfold select_epoch_lines.
  destruct (header_loop_bound 0 (line :: lines) None) as [i ->]; [by left|].
  cbn zeta. destruct (mem _ _) eqn:Hmem; [|by eexists].
  destruct (mem_index _ _ Hmem) as [k ->]. by eexists.
Qed.

Lemma load_rows_raise (text : string) (e : exn) :
  load_rows text = Raise e → e = ValueError.
Proof.
  unfold load_rows. intros Hrun.
  apply for_each_raise in Hrun as (rows & line & Hrun).
  apply bind_raise in Hrun as [Hrun|(? & _ & Hrun)]; [|done].
  by apply load_row_raise in Hrun.
Qed.

Lemma field_many (f : row → scalar) (rows : list row) :
  length rows ≠ 1 → field f rows = Array1 (map f rows).
Proof. by destruct rows as [|r [|r' rows]]. Qed.

(** The run of the parser from the rows that [loadtxt] reads. *)
Lemma parse_output_rows (lines : list string) (n_epochs : Z)
    (kept : list string) (rows : list row) :
  select_epoch_lines lines n_epochs = Ok kept →
  load_rows (join newline kept) = Ok rows →
  parse_output lines n_epochs
  = if decide (length rows = 1) then Raise IndexError
    else
      let column (f : row → scalar) :=
        map (λ r, where_isnan_entry "NaN" (f r)) rows in
      Ok {| epochs := firstn (length kept) (column (λ r, NpInt (r_epoch r)));
            train_mae := column (λ r, NpFloat (r_train_mae r));
            train_rmse := column (λ r, NpFloat (r_train_rmse r));
            test_mae := column (λ r, NpFloat (r_test_mae r));
            test_rmse := column (λ r, NpFloat (r_test_rmse r)) |}.
Proof.
  intros Hsel Hrows. unfold parse_output, loadtxt.
  rewrite Hsel, bind_ok, Hrows, !bind_ok.
  destruct (decide (length rows = 1)) as [Hone|Hmany].
  - by destruct rows as [|r [|r' rows]].
  - rewrite !field_many by done. unfold take, checked_list.
    repeat (cbn [where_isnan to_list]; rewrite ?bind_ok). cbn zeta.
    by rewrite !firstn_map, !map_map.
Qed.

Lemma parse_output_rows_raise (lines : list string) (n_epochs : Z)
    (kept : list string) (e : exn) :
  select_epoch_lines lines n_epochs = Ok kept →
  load_rows (join newline kept) = Raise e →
  parse_output lines n_epochs = Raise ValueError.
Proof.
  intros Hsel Hrows. rewrite (load_rows_raise _ _ Hrows) in Hrows.
  unfold parse_output, loadtxt. by rewrite Hsel, bind_ok, Hrows.
Qed.

End TrainOutputRows.

(** X21.  The training parser raises [UnboundLocalError] exactly on an
    output without lines, [IndexError] exactly when the lines it keeps
    hold one single row, and [ValueError] exactly when a kept line does
    not read as a row; it raises nothing else, and never from looking
    up the line of convergence. *)
Theorem parse_output_exceptions `{Numpy.Floats} (lines : list string)
    (n_epochs : Z) :
  (TrainParser.parse_output lines n_epochs = Raise UnboundLocalError ↔
   lines = [])
  ∧ (TrainParser.parse_output lines n_epochs = Raise IndexError ↔
     ∃ kept r, TrainParser.select_epoch_lines lines n_epochs = Ok kept
               ∧ Numpy.load_rows (join newline kept) = Ok [r])
  ∧ (TrainParser.parse_output lines n_epochs = Raise ValueError ↔
     ∃ kept, TrainParser.select_epoch_lines lines n_epochs = Ok kept
             ∧ Numpy.load_rows (join newline kept) = Raise ValueError)
  ∧ (∀ e, TrainParser.parse_output lines n_epochs = Raise e →
          e = UnboundLocalError ∨ e = IndexError ∨ e = ValueError)
  ∧ (∀ e, TrainParser.select_epoch_lines lines n_epochs = Raise e →
          e = UnboundLocalError ∧ lines = []).
Proof.
  destruct (select_epoch_lines_cases lines n_epochs)
    as [[-> Hsel]|[Hne [kept Hsel]]].
  { assert (Hrun : TrainParser.parse_output [] n_epochs
                   = Raise UnboundLocalError) by done.
    rewrite Hrun, Hsel. split; [done|].
    split; [split; [done|by intros (? & ? & ? & _)]|].
    split; [split; [done|by intros (? & ? & _)]|].
    split; [intros e [= <-]; by left|]. by intros e [= <-]. }
  rewrite Hsel.
  assert (Hkept : ∀ kept', Ok kept = Ok kept' → kept' = kept)
    by (by intros kept' [= <-]).
  destruct (Numpy.load_rows (join newline kept)) as [rows|e0] eqn:Hrows.
  - rewrite (parse_output_rows lines n_epochs kept rows Hsel Hrows).
    destruct (decide (length rows = 1)) as [Hone|Hmany].
    + destruct rows as [|r [|? ?]]; try done.
      split; [done|]. split; [split; [by eauto|done]|].
      split; [split; [done|]|].
      { intros (kept' & ->%Hkept & Hr). by rewrite Hrows in Hr. }
      split; [intros e [= <-]; auto|done].
    + cbn zeta. split; [done|]. split; [split; [done|]|].
      { intros (kept' & r & ->%Hkept & Hr). rewrite Hrows in Hr.
        injection Hr as ->. done. }
      split; [split; [done|]|].
      { intros (kept' & ->%Hkept & Hr). by rewrite Hrows in Hr. }
      split; done.
  - rewrite (parse_output_rows_raise lines n_epochs kept e0 Hsel Hrows).
    apply load_rows_raise in Hrows as Heq. subst e0.
    split; [done|]. split; [split; [done|]|].
    { intros (kept' & r & ->%Hkept & Hr). by rewrite Hrows in Hr. }
    split; [split; [by eauto|done]|].
    split; [intros e [= <-]; auto|done].
Qed.

(** One epoch: the single row comes back without an axis. *)
Lemma parse_output_exceptions_witness :
  @TrainParser.parse_output Numpy.literal_floats
    [TrainParser.header +:+ newline;
     "     0   1.0E-01   2.0E-01   3.0E-01   4.0E-01 <" +:+ newline] 1
  = Raise IndexError.
Proof.
  apply (proj2 (proj1 (proj2
           (@parse_output_exceptions Numpy.literal_floats _ 1)))).
  eexists. eexists. split; reflexivity.
Defined.

(** X22.  When the training parser returns, the rows read were none or
    at least two; the four sequences of errors have one entry per row,
    and the sequence of epochs one per row up to the number of lines
    kept. *)
Theorem parse_output_lengths `{Numpy.Floats} (lines : list string)
    (n_epochs : Z) (r : TrainParser.results (list Numpy.scalar)) :
  TrainParser.parse_output lines n_epochs = Ok r →
  ∃ kept rows,
    TrainParser.select_epoch_lines lines n_epochs = Ok kept
    ∧ Numpy.load_rows (join newline kept) = Ok rows
    ∧ length rows ≠ 1
    ∧ length (TrainParser.train_mae r) = length rows
    ∧ length (TrainParser.train_rmse r) = length rows
    ∧ length (TrainParser.test_mae r) = length rows
    ∧ length (TrainParser.test_rmse r) = length rows
    ∧ length (TrainParser.epochs r) = length kept `min` length rows.
Proof.
  intros Hrun.
  destruct (select_epoch_lines_cases lines n_epochs)
    as [[-> Hsel]|[Hne [kept Hsel]]]; [done|].
  destruct (Numpy.load_rows (join newline kept)) as [rows|e0] eqn:Hrows.
  - rewrite (parse_output_rows lines n_epochs kept rows Hsel Hrows) in Hrun.
    destruct (decide (length rows = 1)) as [Hone|Hmany]; [done|].
    cbn zeta in Hrun. injection Hrun as <-. exists kept, rows.
    cbn. rewrite length_firstn, !length_map. done.
  - by rewrite (parse_output_rows_raise lines n_epochs kept e0 Hsel Hrows)
      in Hrun.
Qed.

(** A table of three epochs. *)
Lemma parse_output_lengths_witness :
  let lines :=
    [TrainParser.header +:+ newline;
     "     0   1.0E-01   2.0E-01   3.0E-01   4.0E-01 <" +:+ newline;
     "     1   1.1E-01   2.1E-01   3.1E-01   4.1E-01 <" +:+ newline;
     "     2   1.2E-01   2.2E-01   3.2E-01   4.2E-01 <" +:+ newline] in
  ∃ r, @TrainParser.parse_output Numpy.literal_floats lines 10 = Ok r
       ∧ length (TrainParser.train_mae r) = length (TrainParser.test_rmse r).
Proof.
  intros lines. eexists. split; [reflexivity|].
  destruct (@parse_output_lengths Numpy.literal_floats lines 10 _ eq_refl)
    as (kept & rows & _ & _ & _ & -> & _ & _ & -> & _).
  reflexivity.
Defined.

(* ===================================================================== *)
(** * The window of the scan and repeated identifiers                     *)
(* ===================================================================== *)

Section PredictScan.
Import Numpy PredictParser.
Context `{Floats}.

(** Lines are skipped until one holds the words of the evaluation. *)
Lemma scan_skip (before rest : list string) (natoms : list Z)
    (energies : list float) :
  Forall (λ l, contains "Energy evaluation" l = false) before →
  scan (before ++ rest) false natoms energies
  = scan rest false natoms energies.
Proof.
  induction before as [|line before IH]; intros Hall; [done|].
  apply Forall_cons_1 in Hall as [Hline Hall].
  cbn [app scan]. rewrite Hline. cbn. by apply IH.
Qed.

(** The line that holds the words switches the scan on, for good. *)
Lemma scan_activate (h : string) (rest : list string) (natoms : list Z)
    (energies : list float) :
  contains "Energy evaluation" h = true →
  scan (h :: rest) false natoms energies
  = scan (h :: rest) true natoms energies.
Proof. intros Hh. cbn [scan]. by rewrite Hh. Qed.

(** Nothing is read past the closing line. *)
Lemma scan_done (mid after : list string) (d : string) (natoms : list Z)
    (energies : list float) :
  contains "Atomic Energy Network done." d = true →
  scan (mid ++ d :: after) true natoms energies
  = scan (mid ++ [d]) true natoms energies.
Proof.
  intros Hd. revert natoms energies.
  induction mid as [|line mid IH]; intros natoms energies.
  - cbn [app scan negb andb]. rewrite Hd.
    destruct (if contains "Number of atoms" d then _ else _) as [natoms'|];
      [|done].
    rewrite !bind_ok.
    by destruct (if contains total_energy d then _ else _).
  - cbn [app scan negb andb].
    destruct (if contains "Number of atoms" line then _ else _)
      as [natoms'|]; [|done].
    rewrite !bind_ok.
    destruct (if contains total_energy line then _ else _)
      as [energies'|]; [|done].
    rewrite !bind_ok.
    destruct (contains "Atomic Energy Network done." line); [done|].
    apply IH.
Qed.

(** ** Setting a key twice *)

Lemma dict_set_keys (k : string) (v : entry) (d : list (string * entry)) :
  NoDup d.*1 →
  NoDup (dict_set k v d).*1
  ∧ (∀ k', k' ∈ (dict_set k v d).*1 ↔ k' = k ∨ k' ∈ d.*1)
  ∧ (list_to_map (dict_set k v d) : gmap string entry)
    = <[k := v]> (list_to_map d).
Proof.
  induction d as [|[k0 v0] d IH]; intros Hnd.
  - cbn. split; [apply NoDup_singleton|]. split; [|done].
    intros k'. rewrite elem_of_cons. done.
  - cbn [dict_set]. rewrite fmap_cons in Hnd. cbn [fst] in Hnd.
    apply NoDup_cons in Hnd as [Hk0 Hnd].
    destruct (decide (k0 = k)) as [->|Hne].
    + rewrite !fmap_cons. cbn [fst]. split; [by apply NoDup_cons|].
      split.
      * intros k'. rewrite !elem_of_cons. tauto.
      * cbn. by rewrite insert_insert_eq.
    + destruct (IH Hnd) as (Hnd' & Hkeys & Hmap).
      rewrite !fmap_cons. cbn [fst]. split; [|split].
      * apply NoDup_cons. split; [|done]. rewrite Hkeys.
        intros [?|?]; done.
      * intros k'. rewrite !elem_of_cons, Hkeys. tauto.
      * cbn. rewrite Hmap. by apply insert_insert_ne.
Qed.

Lemma fold_dict_set_keys (items : list (Z * Z * float))
    (d : list (string * entry)) :
  NoDup d.*1 →
  let d' :=
    fold_left (λ d '(pk, a, e), dict_set (str_int pk) {| n := a; E := e |} d)
      items d in
  NoDup d'.*1
  ∧ (∀ k, k ∈ d'.*1 ↔ k ∈ d.*1 ∨ k ∈ str_int <$> items.*1.*1)
  ∧ (list_to_map d' : gmap string entry)
    = foldl (λ m t, <[str_int t.1.1 := {| n := t.1.2; E := t.2 |}]> m)
        (list_to_map d) items.
Proof.
  revert d. induction items as [|[[pk a] e] items IH]; intros d Hnd.
  - cbn. split; [done|]. split; [|done]. intros k.
    rewrite elem_of_nil. tauto.
  - cbn [fold_left foldl].
    destruct (dict_set_keys (str_int pk) {| n := a; E := e |} d Hnd)
      as (Hnd1 & Hkeys1 & Hmap1).
    destruct (IH _ Hnd1) as (Hnd' & Hkeys' & Hmap'). cbn zeta in *.
    split; [done|]. split.
    + intros k. rewrite Hkeys', Hkeys1, !fmap_cons, elem_of_cons. cbn.
      tauto.
    + rewrite Hmap', Hmap1. done.
Qed.

(** The record under an identifier is that of its last occurrence. *)
Lemma foldl_insert_last (front back : list (Z * Z * float)) (pk a : Z)
    (e : float) (m : gmap string entry) :
  pk ∉ back.*1.*1 →
  foldl (λ m t, <[str_int t.1.1 := {| n := t.1.2; E := t.2 |}]> m) m
    (front ++ (pk, a, e) :: back) !! str_int pk
  = Some {| n := a; E := e |}.
Proof.
  intros Hback. rewrite foldl_app. cbn [foldl fst snd].
  generalize (foldl (λ m t, <[str_int t.1.1 := {| n := t.1.2; E := t.2 |}]> m)
                m front).
  intros m0.
  assert (Hlook : <[str_int pk := {| n := a; E := e |}]> m0 !! str_int pk
                  = Some {| n := a; E := e |}) by apply lookup_insert_eq.
  revert Hlook. generalize (<[str_int pk := {| n := a; E := e |}]> m0).
  induction back as [|[[pk' a'] e'] back IH]; intros m1 Hlook; [done|].
  rewrite !fmap_cons in Hback. cbn [fst] in Hback.
  apply not_elem_of_cons in Hback as [Hne Hback].
  cbn [foldl fst snd]. apply IH; [done|].
  rewrite lookup_insert_ne; [done|]. intros Heq.
  by apply str_int_inj in Heq.
Qed.

End PredictScan.

(** X23.  The predict parser reads only from the first line that holds
    the words of the energy evaluation to the first line from there on
    that holds the closing words: the lines before and the lines after
    change nothing in what it returns or raises. *)
Theorem parse_output_window `{Numpy.Floats} (pks : list Z)
    (before mid after : list string) (h d : string) :
  Forall (λ l, contains "Energy evaluation" l = false) before →
  contains "Energy evaluation" h = true →
  contains "Atomic Energy Network done." d = true →
  PredictParser.parse_output pks (before ++ h :: mid ++ d :: after)
  = PredictParser.parse_output pks (h :: mid ++ [d]).
Proof.
  intros Hbefore Hh Hd. unfold PredictParser.parse_output.
  rewrite scan_skip by done. rewrite !scan_activate by done.
  by rewrite (scan_done (h :: mid) after d [] [] Hd).
Qed.

(** A banner with an atom count before the evaluation, and a count
    after the closing line. *)
Lemma parse_output_window_witness :
  @PredictParser.parse_output Numpy.literal_floats [101%Z]
    ([" Number of atoms   :     9" +:+ newline]
     ++ (" Energy evaluation" +:+ newline)
        :: [" Number of atoms   :     4" +:+ newline;
            PredictParser.total_energy +:+ "     -10.5 eV" +:+ newline]
        ++ (" Atomic Energy Network done." +:+ newline)
           :: [" Number of atoms   :     7" +:+ newline])
  = Ok [("101", {| PredictParser.n := 4%Z;
                   PredictParser.E := Numpy.literal "-10.5" |})].
Proof.
  rewrite (@parse_output_window Numpy.literal_floats); [reflexivity|..].
  - by repeat constructor.
  - reflexivity.
  - reflexivity.
Defined.

(** X24.  When an identifier occurs more than once among those paired
    with a count and an energy, the dictionary returned holds one entry
    for it, with the record of its last occurrence; the keys are
    distinct, and they are the texts of the identifiers paired. *)
Theorem parse_output_repeated_identifier `{Numpy.Floats} (pks : list Z)
    (lines : list string) (natoms : list Z) (energies : list Numpy.float)
    (front back : list (Z * Z * Numpy.float)) (pk a : Z) (e : Numpy.float) :
  PredictParser.scan lines false [] [] = Ok (natoms, energies) →
  PredictParser.zip3 pks natoms energies = front ++ (pk, a, e) :: back →
  pk ∉ back.*1.*1 →
  ∃ d, PredictParser.parse_output pks lines = Ok d
       ∧ NoDup d.*1
       ∧ (∀ k, k ∈ d.*1 ↔
               k ∈ str_int <$> (PredictParser.zip3 pks natoms energies).*1.*1)
       ∧ (list_to_map d : gmap string PredictParser.entry) !! str_int pk
         = Some {| PredictParser.n := a; PredictParser.E := e |}.
Proof.
  intros Hscan Hzip Hback. eexists.
  unfold PredictParser.parse_output. rewrite Hscan, bind_ok.
  split; [reflexivity|]. unfold PredictParser.pk_dict.
  destruct (fold_dict_set_keys (PredictParser.zip3 pks natoms energies) [])
    as (Hnd & Hkeys & Hmap); [constructor|]. cbn zeta in *.
  split; [done|]. split.
  - intros k. rewrite Hkeys. cbn. rewrite elem_of_nil. tauto.
  - rewrite Hmap, Hzip. by apply foldl_insert_last.
Qed.

(** The identifier 101 twice in the reference list. *)
Lemma parse_output_repeated_identifier_witness :
  let lines :=
    [" Energy evaluation" +:+ newline;
     " Number of atoms   :     4" +:+ newline;
     PredictParser.total_energy +:+ "     -10.5 eV" +:+ newline;
     " Number of atoms   :     8" +:+ newline;
     PredictParser.total_energy +:+ "     -20.25 eV" +:+ newline;
     " Atomic Energy Network done." +:+ newline] in
  ∃ d, @PredictParser.parse_output Numpy.literal_floats [101; 101]%Z lines
       = Ok d
       ∧ (list_to_map d : gmap string (@PredictParser.entry Numpy.literal_floats))
         !! "101"
         = Some {| PredictParser.n := 8%Z;
                   PredictParser.E := Numpy.literal "-20.25" |}.
Proof.
  intros lines.
  destruct (@parse_output_repeated_identifier Numpy.literal_floats
              [101; 101]%Z lines [4; 8]%Z
              [Numpy.literal "-10.5"; Numpy.literal "-20.25"]
              [(101, 4, Numpy.literal "-10.5")]%Z [] 101%Z 8%Z
              (Numpy.literal "-20.25") eq_refl eq_refl)
    as (d & Hrun & _ & _ & Hlast).
  - intros Hin. inversion Hin.
  - exists d. split; [exact Hrun|exact Hlast].
Defined.

(* ===================================================================== *)
(** * The number read from the line of the total energy                   *)
(* ===================================================================== *)

Section EnergyText.
Import PredictParser.

Lemma first_match_eq (s : string) :
  first_match s
  = match match_decimal s with
    | Some m => Some m
    | None =>
        match match_digits s with
        | Some m => Some m
        | None =>
            match s with
            | "" => None
            | String _ s' => first_match s'
            end
        end
    end.
Proof. by destruct s. Qed.

Lemma span_digits_app (d rest : string) :
  all_chars is_digit d = true → starts_with is_digit rest = false →
  span_digits (d +:+ rest) = (d, rest).
Proof.
  intros Hd Hrest. induction d as [|c d IH].
  - change ("" +:+ rest) with rest. destruct rest as [|c r]; [done|].
    cbn [span_digits]. cbn in Hrest. by rewrite Hrest.
  - rewrite app_cons. cbn [span_digits]. cbn [all_chars] in Hd.
    apply andb_true_iff in Hd as [Hc Hd]. by rewrite Hc, IH.
Qed.

Lemma digit_not_plain (c : ascii) :
  is_digit c = true → c ≠ "."%char ∧ c ≠ "-"%char ∧ c ≠ "+"%char.
Proof. intros Hc. repeat split; intros ->; by vm_compute in Hc. Qed.

(** Without a sign at the head, the number starts at the head. *)
Lemma match_decimal_unsigned (c : ascii) (s : string) :
  c ≠ "-"%char → c ≠ "+"%char →
  match_decimal (String c s)
  = let '(int_part, s2) := span_digits (String c s) in
    match s2 with
    | String "." s3 =>
        let '(frac, _) := span_digits s3 in
        if bool_decide (frac = "") then None
        else Some ("" +:+ int_part +:+ "." +:+ frac)
    | _ => None
    end.
Proof.
  intros Hm Hp. unfold match_decimal.
  destruct c as [[] [] [] [] [] [] [] []]; done.
Qed.

Lemma match_decimal_plain (c : ascii) (s : string) :
  plain_char c = true → match_decimal (String c s) = None.
Proof.
  unfold plain_char. intros [Hd Hc]%andb_true_iff.
  apply negb_true_iff in Hd. apply bool_decide_eq_true in Hc as (Hp & Hm & Hs).
  rewrite match_decimal_unsigned by done. cbn [span_digits]. rewrite Hd.
  destruct c as [[] [] [] [] [] [] [] []]; done.
Qed.

Lemma match_digits_plain (c : ascii) (s : string) :
  is_digit c = false → match_digits (String c s) = None.
Proof. intros Hd. unfold match_digits. cbn [span_digits]. by rewrite Hd. Qed.

(** Plain text before the number is passed over. *)
Lemma first_match_plain (p s : string) :
  all_chars plain_char p = true → first_match (p +:+ s) = first_match s.
Proof.
  intros Hp. induction p as [|c p IH]; [done|].
  cbn [all_chars] in Hp. apply andb_true_iff in Hp as [Hc Hp].
  rewrite app_cons, first_match_eq, match_decimal_plain by done.
  rewrite match_digits_plain; [by apply IH|].
  unfold plain_char in Hc. apply andb_true_iff in Hc as [Hd _].
  by apply negb_true_iff in Hd.
Qed.

(** The digits, the point and the digits after it. *)
Lemma match_decimal_body (ip fp rest : string) :
  all_chars is_digit ip = true → all_chars is_digit fp = true → fp ≠ "" →
  starts_with is_digit rest = false →
  (let '(int_part, s2) := span_digits (ip +:+ "." +:+ fp +:+ rest) in
   match s2 with
   | String "." s3 =>
       let '(frac, _) := span_digits s3 in
       if bool_decide (frac = "") then None
       else Some (int_part +:+ "." +:+ frac)
   | _ => None
   end) = Some (ip +:+ "." +:+ fp).
Proof.
  intros Hip Hfp Hne Hrest.
  rewrite (span_digits_app ip ("." +:+ fp +:+ rest)) by done.
  change ("." +:+ fp +:+ rest) with (String "." (fp +:+ rest)).
  cbv beta iota. rewrite span_digits_app by done.
  by rewrite bool_decide_eq_false_2.
Qed.

Lemma match_decimal_signed (sign ip fp rest : string) :
  sign = "" ∨ sign = "-" ∨ sign = "+" →
  all_chars is_digit ip = true → all_chars is_digit fp = true → fp ≠ "" →
  starts_with is_digit rest = false →
  match_decimal (sign +:+ ip +:+ "." +:+ fp +:+ rest)
  = Some (sign +:+ ip +:+ "." +:+ fp).
Proof.
  intros Hsign Hip Hfp Hne Hrest.
  pose proof (match_decimal_body ip fp rest Hip Hfp Hne Hrest) as Hbody.
  destruct Hsign as [->|[->| ->]].
  - change ("" +:+ ?x) with x. destruct ip as [|c ip].
    + change ("" +:+ ?x) with x in *.
      change ("." +:+ fp +:+ rest) with (String "." (fp +:+ rest)) in *.
      rewrite match_decimal_unsigned by done. exact Hbody.
    + rewrite app_cons in *. cbn [all_chars] in Hip.
      apply andb_true_iff in Hip as [Hc _].
      destruct (digit_not_plain c Hc) as (_ & Hm & Hp).
      rewrite match_decimal_unsigned by done. exact Hbody.
  - change ("-" +:+ ?x) with (String "-" x). unfold match_decimal.
    cbv beta iota.
    destruct (span_digits (ip +:+ "." +:+ fp +:+ rest)) as [int_part s2].
    destruct s2 as [|c s3]; [done|].
    destruct c as [[] [] [] [] [] [] [] []]; try done.
    destruct (span_digits s3) as [frac ?].
    destruct (bool_decide (frac = "")); [done|].
    injection Hbody as <-. done.
  - change ("+" +:+ ?x) with (String "+" x). unfold match_decimal.
    cbv beta iota.
    destruct (span_digits (ip +:+ "." +:+ fp +:+ rest)) as [int_part s2].
    destruct s2 as [|c s3]; [done|].
    destruct c as [[] [] [] [] [] [] [] []]; try done.
    destruct (span_digits s3) as [frac ?].
    destruct (bool_decide (frac = "")); [done|].
    injection Hbody as <-. done.
Qed.

(** Digits that no point follows are no decimal number. *)
Lemma match_decimal_no_point (d rest : string) :
  all_chars is_digit d = true → d ≠ "" →
  starts_with (λ c, is_digit c || bool_decide (c = "."%char)) rest = false →
  match_decimal (d +:+ rest) = None
  ∧ match_decimal ("-" +:+ d +:+ rest) = None
  ∧ match_digits (d +:+ rest) = Some d.
Proof.
  intros Hd Hne Hrest.
  assert (Hspan : span_digits (d +:+ rest) = (d, rest)).
  { apply span_digits_app; [done|]. destruct rest as [|c r]; [done|].
    cbn in *. by apply orb_false_iff in Hrest as [? _]. }
  assert (Hpoint : match rest with
                   | String c _ => c ≠ "."%char
                   | "" => True
                   end).
  { destruct rest as [|c r]; [done|]. cbn in Hrest.
    apply orb_false_iff in Hrest as [_ Hc].
    by apply bool_decide_eq_false in Hc. }
  split; [|split].
  - destruct d as [|c d]; [done|]. rewrite app_cons in *.
    cbn [all_chars] in Hd. apply andb_true_iff in Hd as [Hc _].
    destruct (digit_not_plain c Hc) as (_ & Hm & Hp).
    rewrite match_decimal_unsigned by done. rewrite Hspan.
    destruct rest as [|c' r]; [done|].
    destruct c' as [[] [] [] [] [] [] [] []]; done.
  - change ("-" +:+ ?x) with (String "-" x). unfold match_decimal.
    cbv beta iota. rewrite Hspan.
    destruct rest as [|c' r]; [done|].
    destruct c' as [[] [] [] [] [] [] [] []]; done.
  - unfold match_digits. rewrite Hspan. by rewrite bool_decide_eq_false_2.
Qed.

End EnergyText.

(** X25.  On a line that holds, after text without digit, point or
    sign, a number written with a point and at least one digit after
    it, the text the predict parser takes for the energy is that
    number, with its sign when it has one; what follows the digits, an
    exponent for instance, is left out. *)
Theorem first_match_decimal (p sign ip fp rest : string) :
  all_chars plain_char p = true →
  sign = "" ∨ sign = "-" ∨ sign = "+" →
  all_chars is_digit ip = true →
  all_chars is_digit fp = true → fp ≠ "" →
  starts_with is_digit rest = false →
  PredictParser.first_match (p +:+ sign +:+ ip +:+ "." +:+ fp +:+ rest)
  = Some (sign +:+ ip +:+ "." +:+ fp).
Proof.
  intros Hp Hsign Hip Hfp Hne Hrest.
  rewrite first_match_plain by done. rewrite first_match_eq.
  by rewrite match_decimal_signed.
Qed.

(** A line of the total energy, with an exponent. *)
Lemma first_match_decimal_witness :
  PredictParser.first_match
    (" Total energy               :     " +:+ "-" +:+ "1320" +:+ "." +:+
     "52344416" +:+ "E+01 eV")
  = Some "-1320.52344416".
Proof.
  apply (first_match_decimal " Total energy               :     " "-"
           "1320" "52344416" "E+01 eV"); try reflexivity.
  - right. by left.
  - done.
Defined.

(** X26.  On a line that holds, after text without digit, point or
    sign, a minus sign and a number written without a point, the text
    the predict parser takes for the energy is the digits alone: the
    sign is lost. *)
Theorem first_match_integer_loses_sign (p d rest : string) :
  all_chars plain_char p = true →
  all_chars is_digit d = true → d ≠ "" →
  starts_with (λ c, is_digit c || bool_decide (c = "."%char)) rest = false →
  PredictParser.first_match (p +:+ "-" +:+ d +:+ rest) = Some d.
Proof.
  intros Hp Hd Hne Hrest.
  destruct (match_decimal_no_point d rest Hd Hne Hrest)
    as (Hdec & Hsigned & Hdigits).
  rewrite first_match_plain by done.
  rewrite first_match_eq, Hsigned.
  change ("-" +:+ d +:+ rest) with (String "-" (d +:+ rest)).
  rewrite match_digits_plain by done.
  by rewrite first_match_eq, Hdec, Hdigits.
Qed.

(** An energy of minus ten. *)
Lemma first_match_integer_loses_sign_witness :
  PredictParser.first_match
    (" Total energy               :     " +:+ "-" +:+ "10" +:+ " eV")
  = Some "10".
Proof.
  by apply (first_match_integer_loses_sign
              " Total energy               :     " "10" " eV").
Defined.

(* ===================================================================== *)
(** * The number read from the line of the atom count                     *)
(* ===================================================================== *)

Section CountText.

Lemma all_chars_app (P : ascii → bool) (s t : string) :
  all_chars P (s +:+ t) = all_chars P s && all_chars P t.
Proof.
  induction s as [|c s IH]; [done|].
  rewrite app_cons. cbn [all_chars]. by rewrite IH, andb_assoc.
Qed.

Lemma all_chars_impl (P Q : ascii → bool) (s : string) :
  (∀ c, P c = true → Q c = true) →
  all_chars P s = true → all_chars Q s = true.
Proof.
  intros HPQ. induction s as [|c s IH]; [done|]. cbn [all_chars].
  intros [Hc Hs]%andb_true_iff. by rewrite (HPQ c Hc), IH.
Qed.

Lemma all_chars_replicate (P : ascii → bool) (k : nat) (c : ascii) :
  P c = true → all_chars P (replicate_char k c) = true.
Proof. intros Hc. induction k as [|k IH]; [done|]. cbn. by rewrite Hc. Qed.

Lemma is_digit_digit_char (d : nat) :
  d < 10 → Ascii.is_nat (digit_char d) = Some d.
Proof. intros Hd. do 10 (destruct d as [|d]; [reflexivity|]). lia. Qed.

Lemma all_chars_str_nat_aux (fuel k : nat) (acc : string) :
  all_chars is_digit acc = true →
  all_chars is_digit (str_nat_aux fuel k acc) = true.
Proof.
  revert k acc. induction fuel as [|fuel IH]; intros k acc Hacc; [done|].
  rewrite str_nat_aux_S.
  assert (Hd : is_digit (digit_char (k mod 10)) = true).
  { unfold is_digit. rewrite is_digit_digit_char; [done|].
    apply Nat.mod_upper_bound. lia. }
  destruct (k / 10 =? 0).
  - cbn [all_chars]. by rewrite Hd.
  - apply IH. cbn [all_chars]. by rewrite Hd.
Qed.

Lemma all_chars_str_nat (k : nat) : all_chars is_digit (str_nat k) = true.
Proof. by apply all_chars_str_nat_aux. Qed.

Lemma str_nat_nonempty (k : nat) : str_nat k ≠ "".
Proof.
  unfold str_nat. rewrite str_nat_aux_S. destruct (k / 10 =? 0); [done|].
  intros Heq. apply (f_equal String.length) in Heq.
  pose proof (str_nat_aux_length_ge k (k / 10)
                (String (digit_char (k mod 10)) "")) as Hge.
  rewrite Heq in Hge. simpl in Hge. lia.
Qed.

(** ** A text within another *)

Lemma prefix_all_chars (P : ascii → bool) (sub s : string) :
  String.prefix sub s = true → all_chars P s = true →
  all_chars P sub = true.
Proof.
  revert s. induction sub as [|a sub IH]; intros [|b s]; try done.
  cbn [String.prefix all_chars].
  destruct (ascii_dec a b) as [->|]; [|done].
  intros Hp [Hb Hs]%andb_true_iff. by rewrite Hb, (IH s).
Qed.

(** A text that holds a character that [s] lacks is not within [s]. *)
Lemma contains_absent (P : ascii → bool) (sub s : string) :
  all_chars P s = true → all_chars P sub = false → contains sub s = false.
Proof.
  intros Hs Hsub. induction s as [|c s IH].
  - change (String.prefix sub "" || false = false).
    destruct (String.prefix sub "") eqn:Hp; [|done].
    by rewrite (prefix_all_chars P _ _ Hp Hs) in Hsub.
  - change (String.prefix sub (String c s) || contains sub s = false).
    cbn [all_chars] in Hs. apply andb_true_iff in Hs as [Hc Hs'].
    rewrite IH by done.
    destruct (String.prefix sub (String c s)) eqn:Hp; [|done].
    rewrite (prefix_all_chars P _ (String c s) Hp) in Hsub; [done|].
    cbn [all_chars]. by rewrite Hc, Hs'.
Qed.

Lemma strip_prefix_app (p s : string) : strip_prefix p (p +:+ s) = Some s.
Proof.
  induction p as [|c p IH]; [by destruct s|].
  rewrite app_cons. cbn [strip_prefix]. by rewrite decide_True.
Qed.

(** The old text at the head, and nowhere after. *)
Lemma replace_head (old new s : string) :
  contains old s = false → replace old new (old +:+ s) = new +:+ s.
Proof.
  intros Hs. unfold replace. cbn [replace_fuel].
  by rewrite strip_prefix_app, replace_fuel_absent.
Qed.

(** ** Stripping the blanks *)

Lemma lstrip_spaces (sp s : string) :
  all_chars Ascii.is_space sp = true → lstrip (sp +:+ s) = lstrip s.
Proof.
  intros Hsp. induction sp as [|c sp IH]; [done|].
  cbn [all_chars] in Hsp. apply andb_true_iff in Hsp as [Hc Hsp].
  rewrite app_cons. cbn [lstrip]. rewrite Hc. by apply IH.
Qed.

Lemma digit_not_space (c : ascii) :
  is_digit c = true → Ascii.is_space c = false.
Proof. destruct c as [[] [] [] [] [] [] [] []]; done. Qed.

Lemma lstrip_digit (c : ascii) (s : string) :
  is_digit c = true → lstrip (String c s) = String c s.
Proof. intros Hc. cbn [lstrip]. by rewrite digit_not_space. Qed.

Lemma rev_app_app (a b acc : string) :
  String.rev_app (a +:+ b) acc = String.rev_app b (String.rev_app a acc).
Proof.
  revert acc. induction a as [|c a IH]; intros acc; [done|].
  rewrite app_cons. cbn [String.rev_app]. apply IH.
Qed.

Lemma rev_app_rev_app (a b c : string) :
  String.rev_app (String.rev_app a b) c = String.rev_app b (a +:+ c).
Proof.
  revert b c. induction a as [|x a IH]; intros b c; [done|].
  cbn [String.rev_app]. by rewrite IH.
Qed.

Lemma lstrip_rev_app_spaces (sp s : string) :
  all_chars Ascii.is_space sp = true →
  lstrip (String.rev_app sp s) = lstrip s.
Proof.
  revert s. induction sp as [|c sp IH]; intros s Hsp; [done|].
  cbn [all_chars] in Hsp. apply andb_true_iff in Hsp as [Hc Hsp].
  cbn [String.rev_app]. rewrite IH by done. cbn [lstrip]. by rewrite Hc.
Qed.

Lemma all_chars_rev_app (P : ascii → bool) (a b : string) :
  all_chars P (String.rev_app a b) = all_chars P a && all_chars P b.
Proof.
  revert b. induction a as [|c a IH]; intros b; [done|].
  cbn [String.rev_app all_chars]. rewrite IH. cbn [all_chars].
  by destruct (P c), (all_chars P a), (all_chars P b).
Qed.

Lemma lstrip_digits (d : string) :
  all_chars is_digit d = true → lstrip d = d.
Proof.
  destruct d as [|c d]; [done|]. cbn [all_chars].
  intros [Hc _]%andb_true_iff. by apply lstrip_digit.
Qed.

Lemma append_nil_r (s : string) : s +:+ "" = s.
Proof. induction s as [|c s IH]; [done|]. by rewrite app_cons, IH. Qed.

(** Digits between blanks. *)
Lemma strip_digits (sp1 d sp2 : string) :
  all_chars Ascii.is_space sp1 = true → all_chars Ascii.is_space sp2 = true →
  all_chars is_digit d = true → d ≠ "" →
  strip (sp1 +:+ d +:+ sp2) = d.
Proof.
  intros Hsp1 Hsp2 Hd Hne. unfold strip.
  rewrite lstrip_spaces by done.
  destruct d as [|c d]; [done|]. rewrite app_cons.
  cbn [all_chars] in Hd. apply andb_true_iff in Hd as [Hc Hd'].
  rewrite lstrip_digit by done. rewrite <- app_cons.
  unfold String.rev. rewrite rev_app_app, lstrip_rev_app_spaces by done.
  rewrite lstrip_digits.
  - by rewrite rev_app_rev_app, append_nil_r.
  - rewrite all_chars_rev_app. cbn [all_chars]. by rewrite Hc, Hd'.
Qed.

(** ** Reading the digits *)

Lemma digits_value_str_nat_aux (fuel k : nat) (acc : string) (b : bool) :
  k < fuel →
  digits_value b 0%Z (str_nat_aux fuel k acc)
  = digits_value true (Z.of_nat k) acc.
Proof.
  revert k acc b. induction fuel as [|fuel IH]; intros k acc b Hk; [lia|].
  rewrite str_nat_aux_S.
  assert (Hd : k mod 10 < 10) by (apply Nat.mod_upper_bound; lia).
  pose proof (Nat.div_mod_eq k 10) as Hk10.
  destruct (Nat.eqb_spec (k / 10) 0) as [Hz|Hz].
  - cbn [digits_value]. rewrite is_digit_digit_char by done. f_equal. lia.
  - rewrite IH by lia. cbn [digits_value].
    rewrite is_digit_digit_char by done. f_equal. lia.
Qed.

Lemma py_int_digits (d : string) (v : Z) :
  all_chars is_digit d = true →
  digits_value false 0%Z d = Some v →
  ∀ body, body = d →
    (let '(negative, digits) :=
       match body with
       | String "-" d' => (true, d')
       | String "+" d' => (false, d')
       | _ => (false, body)
       end in
     match digits_value false 0%Z digits with
     | Some v => Ok (if negative : bool then (- v)%Z else v)
     | None => Raise ValueError
     end) = Ok v.
Proof.
  intros Hd Hv body ->. destruct d as [|c d]; [by rewrite Hv|].
  cbn [all_chars] in Hd. apply andb_true_iff in Hd as [Hc _].
  destruct c as [[] [] [] [] [] [] [] []]; try done; by rewrite Hv.
Qed.

(** [int] of the text of a natural number between blanks. *)
Lemma py_int_str_nat (sp1 sp2 : string) (k : nat) :
  all_chars Ascii.is_space sp1 = true → all_chars Ascii.is_space sp2 = true →
  py_int (sp1 +:+ str_nat k +:+ sp2) = Ok (Z.of_nat k).
Proof.
  intros Hsp1 Hsp2. unfold py_int.
  apply py_int_digits with (d := str_nat k).
  - apply all_chars_str_nat.
  - unfold str_nat. by rewrite digits_value_str_nat_aux by lia.
  - apply strip_digits; try done; [apply all_chars_str_nat|].
    apply str_nat_nonempty.
Qed.

End CountText.

(** X27.  From a line made of the words of the atom count, blanks, the
    decimal text of a number and a line feed, the predict parser reads
    that number: removing the words and converting what is left
    succeeds. *)
Theorem atoms_line_count (pad k : nat) :
  let line := " Number of atoms   :" +:+ replicate_char pad " "
              +:+ str_nat k +:+ newline in
  contains "Number of atoms" line = true
  ∧ replace " Number of atoms   :" "" line
    = replicate_char pad " " +:+ str_nat k +:+ newline
  ∧ py_int (replace " Number of atoms   :" "" line) = Ok (Z.of_nat k).
Proof.
  intros line. split; [reflexivity|].
  assert (Hrep : replace " Number of atoms   :" "" line
                 = replicate_char pad " " +:+ str_nat k +:+ newline).
  { subst line. rewrite replace_head; [done|].
    apply (contains_absent (λ c, is_digit c || Ascii.is_space c)); [|done].
    rewrite !all_chars_app. rewrite !andb_true_iff. split; [|split].
    - apply all_chars_replicate. done.
    - apply (all_chars_impl is_digit); [|apply all_chars_str_nat].
      by intros c ->.
    - done. }
  split; [done|]. rewrite Hrep. apply py_int_str_nat; [|done].
  by apply all_chars_replicate.
Qed.

(* ===================================================================== *)
(** * The records read from a well-formed output                          *)
(* ===================================================================== *)

Section WellFormedOutput.
Import Numpy PredictParser.
Context `{Floats}.

Lemma contains_head (p s : string) : contains p (p +:+ s) = true.
Proof.
  assert (Hp : String.prefix p (p +:+ s) = true).
  { induction p as [|c p IH]; [by destruct s|].
    rewrite app_cons. cbn [String.prefix].
    by destruct (ascii_dec c c). }
  destruct (p +:+ s) as [|c r]; cbn [contains]; by rewrite Hp.
Qed.

Lemma digit_is_not (x : ascii) :
  is_digit x = false → ∀ c, is_digit c = true → negb (Ascii.eqb c x) = true.
Proof.
  intros Hx c Hc. destruct (Ascii.eqb_spec c x) as [->|]; [|done].
  by rewrite Hx in Hc.
Qed.

(** The characters of a decimal number. *)
Lemma decimal_text_chars (P : ascii → bool) (s : string) :
  decimal_text s →
  (∀ c, is_digit c = true → P c = true) →
  P "."%char = true → P "-"%char = true → P "+"%char = true →
  all_chars P s = true.
Proof.
  intros (sign & ip & fp & -> & Hsign & Hip & Hfp & _) Hd Hpoint Hm Hp.
  rewrite !all_chars_app.
  rewrite (all_chars_impl is_digit P ip Hd Hip).
  rewrite (all_chars_impl is_digit P fp Hd Hfp).
  destruct Hsign as [->|[->| ->]]; cbn; by rewrite ?Hpoint, ?Hm, ?Hp.
Qed.

(** ** The two lines of a structure *)

Lemma atoms_line_reads (pad k : nat) :
  contains "Number of atoms" (atoms_line pad k) = true
  ∧ contains total_energy (atoms_line pad k) = false
  ∧ contains "Atomic Energy Network done." (atoms_line pad k) = false
  ∧ py_int (replace " Number of atoms   :" "" (atoms_line pad k))
    = Ok (Z.of_nat k).
Proof.
  assert (Hchars : ∀ x, is_digit x = false → Ascii.is_space x = false →
            all_chars (λ c, negb (Ascii.eqb c x))
              " Number of atoms   :" = true →
            all_chars (λ c, negb (Ascii.eqb c x)) (atoms_line pad k) = true).
  { intros x Hx Hs Hhead. unfold atoms_line. rewrite !all_chars_app, Hhead.
    rewrite all_chars_replicate
      by (destruct (Ascii.eqb_spec " " x) as [<-|];
            [by vm_compute in Hs|done]).
    rewrite (all_chars_impl is_digit _ (str_nat k) (digit_is_not x Hx))
      by apply all_chars_str_nat.
    unfold newline. cbn [all_chars andb].
    destruct (Ascii.eqb_spec "010" x) as [<-|]; [by vm_compute in Hs|done]. }
  split; [reflexivity|]. split; [|split].
  - apply (contains_absent (λ c, negb (Ascii.eqb c "T"))); [|done].
    by apply Hchars.
  - apply (contains_absent (λ c, negb (Ascii.eqb c "A"))); [|done].
    by apply Hchars.
  - unfold atoms_line. rewrite replace_head.
    + apply py_int_str_nat; [|done]. by apply all_chars_replicate.
    + apply (contains_absent (λ c, is_digit c || Ascii.is_space c)); [|done].
      rewrite !all_chars_app, !andb_true_iff. split; [|split]; [|by
        apply (all_chars_impl is_digit);
          [intros c ->|apply all_chars_str_nat]|done].
      by apply all_chars_replicate.
Qed.

Lemma first_match_decimal_text (p number rest : string) :
  all_chars plain_char p = true → decimal_text number →
  starts_with is_digit rest = false →
  first_match (p +:+ number +:+ rest) = Some number.
Proof.
  intros Hp (sign & ip & fp & -> & Hsign & Hip & Hfp & Hne) Hrest.
  rewrite first_match_plain by done. rewrite first_match_eq.
  assert (Hassoc : ∀ a b c, (a +:+ b) +:+ c = a +:+ b +:+ c).
  { intros a b c. induction a as [|x a IH]; [done|].
    by rewrite !app_cons, IH. }
  rewrite !Hassoc. by rewrite match_decimal_signed.
Qed.

Lemma total_energy_line_reads (pad : nat) (number : string) :
  decimal_text number →
  contains "Number of atoms" (total_energy_line pad number) = false
  ∧ contains total_energy (total_energy_line pad number) = true
  ∧ contains "Atomic Energy Network done." (total_energy_line pad number)
    = false
  ∧ first_match (total_energy_line pad number) = Some number.
Proof.
  intros Hnum.
  assert (Hchars : ∀ x, is_digit x = false →
            all_chars (λ c, negb (Ascii.eqb c x)) total_energy = true →
            all_chars (λ c, negb (Ascii.eqb c x)) (String "010" " .-+eV")
            = true →
            all_chars (λ c, negb (Ascii.eqb c x))
              (total_energy_line pad number) = true).
  { intros x Hx Hhead Hrest. unfold total_energy_line.
    rewrite !all_chars_app, Hhead.
    cbn [all_chars] in Hrest.
    repeat (apply andb_true_iff in Hrest as [? Hrest]).
    rewrite all_chars_replicate by done.
    rewrite (decimal_text_chars _ number Hnum (digit_is_not x Hx))
      by done.
    unfold newline. cbn [all_chars andb].
    repeat (apply andb_true_iff; split); done. }
  split; [|split; [|split]].
  - apply (contains_absent (λ c, negb (Ascii.eqb c "N"))); [|done].
    by apply Hchars.
  - apply contains_head.
  - apply (contains_absent (λ c, negb (Ascii.eqb c "A"))); [|done].
    by apply Hchars.
  - unfold total_energy_line. rewrite first_match_plain by done.
    apply first_match_decimal_text; [|done..].
    by apply all_chars_replicate.
Qed.

(** ** The scan, line by line, once the evaluation has started *)

Lemma scan_quiet (line : string) (rest : list string) (natoms : list Z)
    (energies : list float) :
  quiet line = true →
  scan (line :: rest) true natoms energies = scan rest true natoms energies.
Proof.
  unfold quiet. intros [[Ha Ht]%andb_true_iff Hd]%andb_true_iff.
  apply negb_true_iff in Ha, Ht, Hd.
  cbn [scan negb andb]. by rewrite Ha, Ht, Hd.
Qed.

Lemma scan_quiets (lines rest : list string) (natoms : list Z)
    (energies : list float) :
  Forall (λ l, quiet l = true) lines →
  scan (lines ++ rest) true natoms energies
  = scan rest true natoms energies.
Proof.
  induction lines as [|line lines IH]; intros Hall; [done|].
  apply Forall_cons_1 in Hall as [Hline Hall].
  cbn [app]. rewrite scan_quiet by done. by apply IH.
Qed.

Lemma scan_atoms_line (pad k : nat) (rest : list string) (natoms : list Z)
    (energies : list float) :
  scan (atoms_line pad k :: rest) true natoms energies
  = scan rest true (natoms ++ [Z.of_nat k]) energies.
Proof.
  destruct (atoms_line_reads pad k) as (Ha & Ht & Hd & Hint).
  cbn [scan negb andb]. by rewrite Ha, Ht, Hd, Hint.
Qed.

Lemma scan_total_energy_line (pad : nat) (number : string) (x : float)
    (rest : list string) (natoms : list Z) (energies : list float) :
  decimal_text number → float_of_str number = Some x →
  scan (total_energy_line pad number :: rest) true natoms energies
  = scan rest true natoms (energies ++ [x]).
Proof.
  intros Hnum Hx.
  destruct (total_energy_line_reads pad number Hnum) as (Ha & Ht & Hd & Hm).
  cbn [scan negb andb]. by rewrite Ha, Ht, Hd, Hm, Hx.
Qed.

Lemma scan_structures (outs : list structure_output) (xs : list float)
    (rest : list string) (natoms : list Z) (energies : list float) :
  Forall well_formed outs →
  Forall2 (λ o x, float_of_str (so_energy o) = Some x) outs xs →
  scan (concat (map structure_lines outs) ++ rest) true natoms energies
  = scan rest true (natoms ++ map (λ o, Z.of_nat (so_atoms o)) outs)
      (energies ++ xs).
Proof.
  intros Hwf Hxs. revert natoms energies.
  induction Hxs as [|o x outs xs Hx Hxs IH]; intros natoms energies.
  - by rewrite !app_nil_r.
  - apply Forall_cons_1 in Hwf as [(Hbefore & Hbetween & Hnum) Hwf].
    cbn [map concat]. unfold structure_lines at 1.
    rewrite <- !app_assoc. rewrite scan_quiets by done.
    cbn [app]. rewrite scan_atoms_line. rewrite scan_quiets by done.
    cbn [app]. rewrite (scan_total_energy_line _ _ x) by done.
    rewrite IH by done. by rewrite <- !app_assoc.
Qed.

End WellFormedOutput.

(** X28.  On an output of [predict.x] in which the evaluation starts
    on a quiet line, every structure has its line of the atom count and
    after it its line of the total energy, with a decimal number that
    reads as a float, and the closing line follows, the predict parser
    returns one record per structure, in the order of the reference
    list: the identifier, the atom count written and the energy
    written.  Lines before the evaluation, quiet lines in between and
    lines after the closing line do not matter. *)
Theorem parse_output_well_formed `{Numpy.Floats} (pks : list Z)
    (outs : list structure_output) (xs : list Numpy.float)
    (before tail after : list string) (h d : string) :
  Forall (λ l, contains "Energy evaluation" l = false) before →
  contains "Energy evaluation" h = true → quiet h = true →
  Forall well_formed outs →
  Forall2 (λ o x, Numpy.float_of_str (so_energy o) = Some x) outs xs →
  Forall (λ l, quiet l = true) tail →
  contains "Atomic Energy Network done." d = true →
  contains "Number of atoms" d = false →
  contains PredictParser.total_energy d = false →
  NoDup pks → length pks = length outs →
  PredictParser.parse_output pks
    (before ++ h :: concat (map structure_lines outs) ++ tail ++ d :: after)
  = Ok (prediction_record
          <$> PredictParser.zip3 pks
                (map (λ o, Z.of_nat (so_atoms o)) outs) xs)
  ∧ length (PredictParser.zip3 pks
              (map (λ o, Z.of_nat (so_atoms o)) outs) xs)
    = length pks.
Proof.
  intros Hbefore Hh Hquiet Hwf Hxs Htail Hd Hda Hdt Hnd Hlen.
  split.
  - unfold PredictParser.parse_output.
    rewrite scan_skip by done. rewrite scan_activate by done.
    rewrite scan_quiet by done.
    rewrite (scan_structures outs xs) by done.
    rewrite scan_quiets by done.
    cbn [PredictParser.scan negb andb]. rewrite Hda, Hdt, Hd.
    rewrite !bind_ok. cbn [app]. by rewrite pk_dict_items.
  - rewrite length_zip3, length_map.
    apply Forall2_length in Hxs. lia.
Qed.

(** Two structures, with a banner before the evaluation and the
    timing after the closing line. *)
Lemma parse_output_well_formed_witness :
  let outs :=
    [{| so_before := [" Structure number  :     1" +:+ newline];
        so_pad_atoms := 5; so_atoms := 4;
        so_between := [" Cohesive energy  :  -1.5 eV" +:+ newline];
        so_pad_energy := 5; so_energy := "-10.5" |};
     {| so_before := []; so_pad_atoms := 5; so_atoms := 8;
        so_between := []; so_pad_energy := 5; so_energy := "-20.25" |}] in
  @PredictParser.parse_output Numpy.literal_floats [101; 102]%Z
    ([" Number of atoms   :     9" +:+ newline]
     ++ (" Energy evaluation" +:+ newline)
        :: concat (map structure_lines outs)
        ++ [newline]
        ++ (" Atomic Energy Network done." +:+ newline)
           :: [" Total time : 1.0 s" +:+ newline])
  = Ok [("101", {| PredictParser.n := 4%Z;
                   PredictParser.E := Numpy.literal "-10.5" |});
        ("102", {| PredictParser.n := 8%Z;
                   PredictParser.E := Numpy.literal "-20.25" |})].
Proof.
  intros outs.
  refine (proj1 (@parse_output_well_formed Numpy.literal_floats
                   [101; 102]%Z outs
                   [Numpy.literal "-10.5"; Numpy.literal "-20.25"]
                   _ _ _ _ _ _ _ _ _ _ _ _ _ _ _ _)).
  - by repeat constructor.
  - reflexivity.
  - reflexivity.
  - repeat constructor.
    + by exists "-", "10", "5"; repeat split; auto.
    + by exists "-", "20", "25"; repeat split; auto.
  - by repeat constructor.
  - by repeat constructor.
  - reflexivity.
  - reflexivity.
  - reflexivity.
  - apply (bool_decide_unpack _). vm_compute. exact I.
  - reflexivity.
Defined.

(* ===================================================================== *)
(** * The construction of the algorithm node                              *)
(* ===================================================================== *)

Section AlgorithmInit.
Import Algorithm.

(** The dictionaries [set_training] accepts. *)
Lemma set_training_accepts (d : training_dict) (st : training_state)
    (type : pyval) (l : loc) (rows : list (string * pyval)) :
  t_type d = Some type → t_parameters d = Some l →
  (pystr type = "lm" ∧ rows = lm_defaults)
  ∨ (pystr type = "gd" ∧ rows = gd_defaults) →
  ∃ h', set_training d st
        = (Ok (), {| t_store := h';
                     training_parameters :=
                       Some (deref (t_store st) l ∪ list_to_map rows) |}).
Proof.
  intros Htype Hparams Hrows.
  assert (Hlocals : locals_defaults (pystr type +:+ "_defaults") = Ok rows).
  { apply locals_defaults_ok. destruct Hrows as [[-> ->]|[-> ->]]; auto. }
  unfold set_training. rewrite Htype, Hlocals, Hparams.
  destruct (set_training_fold l rows (t_store st)) as [Hd _].
  cbn zeta in Hd. rewrite Hd. by eexists.
Qed.

Lemma set_training_refuses (d : training_dict) (st : training_state) :
  ¬ ((∃ type, t_type d = Some type
              ∧ (pystr type = "lm" ∨ pystr type = "gd"))
     ∧ is_Some (t_parameters d)) →
  set_training d st = (Raise KeyError, st).
Proof.
  intros Hbad. unfold set_training.
  destruct (t_type d) as [type|] eqn:Htype; [|done].
  destruct (locals_defaults (pystr type +:+ "_defaults")) as [rows|e]
    eqn:Hlocals.
  - apply locals_defaults_ok in Hlocals.
    destruct (t_parameters d) as [l|] eqn:Hparams; [|done].
    destruct Hbad. split; [|by eexists]. exists type. split; [done|].
    destruct Hlocals as [[Heq _]|[Heq _]].
    + left. by apply (string_app_inv_tail _ "lm" "_defaults").
    + right. by apply (string_app_inv_tail _ "gd" "_defaults").
  - unfold locals_defaults in Hlocals.
    repeat case_decide; try done. by injection Hlocals as <-.
Qed.

Lemma set_training_decide (d : training_dict) :
  ((∃ type, t_type d = Some type
            ∧ (pystr type = "lm" ∨ pystr type = "gd"))
   ∧ is_Some (t_parameters d))
  ∨ ¬ ((∃ type, t_type d = Some type
                ∧ (pystr type = "lm" ∨ pystr type = "gd"))
       ∧ is_Some (t_parameters d)).
Proof.
  destruct (t_type d) as [type|]; [|right; by intros [(? & ? & _) _]].
  destruct (t_parameters d) as [l|]; [|right; by intros [_ [? ?]]].
  destruct (decide (pystr type = "lm")) as [Hlm|Hlm];
    [left; split; [by eauto|by eexists]|].
  destruct (decide (pystr type = "gd")) as [Hgd|Hgd];
    [left; split; [by eauto|by eexists]|].
  right. intros [(ty & [= <-] & [?|?]) _]; done.
Qed.

End AlgorithmInit.

(** X29.  Handed a dictionary whose method is [lm] or [gd],
    [__init__] sets the training method from the key [method] and then
    reads the keys [type] and [parameters]: the node is built exactly
    when the type is [lm] or [gd] and the parameters are there, and it
    raises [KeyError] otherwise, the method set and no training
    parameters; the defaults filled in are those of the type, whatever
    the method. *)
Theorem init_training_dictionary {E D : Type} (elements : E)
    (descriptor : D) (method : pyval) (d : Algorithm.training_dict)
    (parameters : loc) (h : heap) :
  Algorithm.in_training_methods method = true →
  let run := Algorithm.init elements descriptor
               (Algorithm.TrainingDict (Some method) d) parameters h in
  let st := Algorithm.set_parameters parameters
              {| Algorithm.store := h; Algorithm.attributes := ∅ |} in
  Algorithm.n_train_method run.2 = Some method
  ∧ Algorithm.attributes (Algorithm.n_parameters run.2)
    = Algorithm.attributes st
  ∧ (run.1 = Algorithm.Built ↔
     (∃ type, Algorithm.t_type d = Some type
              ∧ (pystr type = "lm" ∨ pystr type = "gd"))
     ∧ is_Some (Algorithm.t_parameters d))
  ∧ (run.1 ≠ Algorithm.Built →
     run.1 = Algorithm.Failed (Algorithm.Lookup KeyError)
     ∧ Algorithm.n_training_parameters run.2 = None
     ∧ Algorithm.store (Algorithm.n_parameters run.2) = Algorithm.store st)
  ∧ ∀ type l rows,
      Algorithm.t_type d = Some type → Algorithm.t_parameters d = Some l →
      (pystr type = "lm" ∧ rows = Algorithm.lm_defaults)
      ∨ (pystr type = "gd" ∧ rows = Algorithm.gd_defaults) →
      Algorithm.n_training_parameters run.2
      = Some (deref (Algorithm.store st) l ∪ list_to_map rows).
Proof.
  intros Hmethod run st. subst run. unfold Algorithm.init.
  rewrite Hmethod. fold st.
  set (ts := {| Algorithm.t_store := Algorithm.store st;
                Algorithm.training_parameters := None |}).
  destruct (set_training_decide d) as [Hgood|Hbad].
  - destruct Hgood as [(type & Htype & Hkind) [l Hparams]].
    assert (Hrows : ∃ rows,
              (pystr type = "lm" ∧ rows = Algorithm.lm_defaults)
              ∨ (pystr type = "gd" ∧ rows = Algorithm.gd_defaults)).
    { destruct Hkind; eauto. }
    destruct Hrows as [rows Hrows].
    destruct (set_training_accepts d ts type l rows Htype Hparams Hrows)
      as [h' ->]. cbn.
    split; [done|]. split; [done|]. split.
    { split; [|done]. intros _. split; [by eauto|by eexists]. }
    split; [done|].
    intros type' l' rows' Htype' Hparams' Hrows'.
    rewrite Htype in Htype'. injection Htype' as <-.
    rewrite Hparams in Hparams'. injection Hparams' as <-.
    f_equal. f_equal. f_equal.
    destruct Hrows as [[Ha ->]|[Ha ->]], Hrows' as [[Hb ->]|[Hb ->]];
      try done; rewrite Ha in Hb; done.
  - rewrite (set_training_refuses d ts Hbad). cbn.
    split; [done|]. split; [done|]. split; [split; [done|]|].
    { intros Hgood. by destruct Hbad. }
    split; [done|].
    intros type l rows Htype Hparams Hrows. destruct Hbad.
    split; [|by eexists]. exists type. split; [done|].
    destruct Hrows as [[? _]|[? _]]; auto.
Qed.

(** A dictionary that names the method and holds no type. *)
Lemma init_training_dictionary_witness :
  let d := {| Algorithm.t_type := None;
              Algorithm.t_parameters := Some 2%positive |} in
  (Algorithm.init () ()
     (Algorithm.TrainingDict (Some (PyStr "lm")) d) 1%positive ∅).1
  = Algorithm.Failed (Algorithm.Lookup KeyError).
Proof.
  intros d.
  destruct (init_training_dictionary () () (PyStr "lm") d 1%positive ∅
              eq_refl) as (_ & _ & _ & Hfail & _).
  apply Hfail. discriminate.
Defined.

(* ===================================================================== *)
(** * The files of the predict calculation                                *)
(* ===================================================================== *)

Section PredictFiles.
Import PredictCalc.

Lemma write_potentials_run (potential_files : list (string * string))
    (c : Generate.calc) :
  write_potentials potential_files c
  = (Ok (), {| Generate.xsf_file_list := Generate.xsf_file_list c;
               Generate.folder := Generate.folder c ++ potential_files |}).
Proof.
  unfold write_potentials. revert c.
  induction potential_files as [|[file binary] files IH]; intros c.
  - destruct c. cbn. by rewrite app_nil_r.
  - cbn [Generate.for_in]. unfold mbind, Generate.method_bind.
    cbn [Generate.folder_write]. rewrite IH. cbn.
    by rewrite <- app_assoc.
Qed.

End PredictFiles.

(** X30.  With structures that load, [prepare_for_submission] of the
    predict calculation writes, in this order, one structure file for
    each reference structure, the files of the potential and
    [predict.in].  With a relaxation flag that is false in a condition
    it returns the retrieve list [predict.out], and [predict.in] names
    under [FILES] the structure files written; with the flag [True],
    or another true value that is no string, it raises [TypeError]
    after writing the structure files and the potentials, and leaves
    [predict.in] empty. *)
Theorem predict_prepare_for_submission
    (xsf_lines : Z → result (list string)) (alg : PredictCalc.algorithm)
    (potential_files : list (string * string)) (reference_list : list Z)
    (xsfs : list (list string)) (c : Generate.calc) :
  Forall2 (λ pk xsf, xsf_lines pk = Ok xsf) reference_list xsfs →
  let N := length reference_list in
  let xsf_names := map (Generate.xsf_file_name N) (seq 0 N) in
  let written :=
    Generate.folder c ++ zip xsf_names (map (join newline) xsfs)
    ++ potential_files in
  let run := PredictCalc.prepare_for_submission xsf_lines alg
               potential_files reference_list c in
  (truthy (PredictCalc.predict_relax alg) = false →
   run = (Ok ["predict.out"],
          {| Generate.xsf_file_list := Some xsf_names;
             Generate.folder :=
               written
               ++ [("predict.in",
                    join newline (predict_in_lines alg [] N xsf_names))] |}))
  ∧ (truthy (PredictCalc.predict_relax alg) = true →
     (∀ s, PredictCalc.predict_relax alg ≠ PyStr s) →
     run = (Raise TypeError,
            {| Generate.xsf_file_list := Some xsf_names;
               Generate.folder := written ++ [("predict.in", "")] |})).
Proof.
  intros Hload N xsf_names written run. subst run.
  unfold PredictCalc.prepare_for_submission.
  rewrite (write_xsfs_ok xsf_lines reference_list xsfs c Hload).
  rewrite write_potentials_run. cbn [Generate.xsf_file_list Generate.folder].
  fold N. fold xsf_names.
  set (c2 := {| Generate.xsf_file_list := Some xsf_names;
                Generate.folder := _ |}).
  destruct (write_input_items alg reference_list c2 xsf_names eq_refl)
    as (front & back & Hfront & Hback & ->).
  split.
  - intros Hrelax. rewrite Hrelax.
    change (map PyStr front ++ [] ++ map PyStr back)
      with (map PyStr front ++ map PyStr [] ++ map PyStr back).
    rewrite py_join_strings. unfold Generate.folder_write, c2.
    cbn [fst snd Generate.xsf_file_list Generate.folder].
    assert (Hlines : front ++ [] ++ back
                     = predict_in_lines alg [] N xsf_names).
    { subst front back. unfold predict_in_lines. fold N.
      by rewrite <- ?app_assoc. }
    rewrite Hlines. subst written. by rewrite <- ?app_assoc.
  - intros Hrelax Hstr. rewrite Hrelax.
    change ([PyStr "RELAX"; ?v] ++ ?l) with (PyStr "RELAX" :: v :: l).
    rewrite py_join_not_str by done.
    unfold Generate.folder_write, c2.
    cbn [fst snd Generate.xsf_file_list Generate.folder].
    subst written. by rewrite <- ?app_assoc.
Qed.

(** Two structures and one potential file; the relaxation flag is
    [True]. *)
Lemma predict_prepare_for_submission_witness :
  let alg := {| PredictCalc.elements := ["Ni"];
                PredictCalc.predict_forces := PyBool false;
                PredictCalc.predict_relax := PyBool true;
                PredictCalc.timing := PyBool false |} in
  PredictCalc.prepare_for_submission (λ _, Ok ["CRYSTAL"]) alg
    [("Ni.nn", "binary")] [7%Z; 9%Z]
    {| Generate.xsf_file_list := None; Generate.folder := [] |}
  = (Raise TypeError,
     {| Generate.xsf_file_list := Some ["1.xsf"; "2.xsf"];
        Generate.folder := [("1.xsf", "CRYSTAL"); ("2.xsf", "CRYSTAL");
                            ("Ni.nn", "binary"); ("predict.in", "")] |}).
Proof.
  intros alg.
  refine (proj2 (predict_prepare_for_submission (λ _, Ok ["CRYSTAL"]) alg
                   [("Ni.nn", "binary")] [7%Z; 9%Z]
                   [["CRYSTAL"]; ["CRYSTAL"]]
                   {| Generate.xsf_file_list := None;
                      Generate.folder := [] |} _) eq_refl _).
  - by repeat constructor.
  - intros s. discriminate.
Defined.
